(** * clatd configuration: a model of config.c

    The development follows config.c function by function.  Addresses are
    byte arrays ([struct in_addr] is 4 bytes, [struct in6_addr] 16 bytes),
    machine integers are [Z] with their wrap-around written out, and the
    global [Global_Clatd_Config] together with everything the daemon does to
    the outside (log lines, DNS queries, sleeps, random bytes) lives in an
    explicit [world] threaded by a small monad. *)

From Stdlib Require Import ZArith Lia Bool Ascii.
From stdpp Require Import base list strings.

Local Open Scope Z_scope.

(** ** Machine integers and bytes *)

Definition u8 (x : Z) : Z := x mod 2 ^ 8.
Definition u16 (x : Z) : Z := x mod 2 ^ 16.
Definition u32 (x : Z) : Z := x mod 2 ^ 32.

Definition INT16_MAX : Z := 32767.
Definition INT16_MIN : Z := -32768.

Definition is_byteb (b : Z) : bool := (0 <=? b) && (b <? 256).

(** [valid_bytes n a]: [a] is an array of exactly [n] octets. *)
Definition valid_bytes (n : nat) (a : list Z) : bool :=
  Nat.eqb (length a) n && forallb is_byteb a.

(** [a->s6_addr[i]]; the arrays handled here always have the index in range. *)
Definition s6_addr (a : list Z) (i : nat) : Z := nth i a 0.

(** The byte order of the machine decides what a 16- or 32-bit load from a
    byte array yields.  Every Android ABI is little-endian. *)
Inductive byte_order : Type := LittleEndian | BigEndian.

Definition load16 (bo : byte_order) (b0 b1 : Z) : Z :=
  match bo with
  | LittleEndian => b0 + b1 * 2 ^ 8
  | BigEndian => b0 * 2 ^ 8 + b1
  end.

(** [a->s6_addr32[i]]: the i-th 32-bit word of the union view. *)
Definition s6_addr32 (bo : byte_order) (a : list Z) (i : nat) : Z :=
  let b k := s6_addr a (4 * i + k) in
  match bo with
  | LittleEndian => b 0%nat + b 1%nat * 2 ^ 8 + b 2%nat * 2 ^ 16 + b 3%nat * 2 ^ 24
  | BigEndian => b 3%nat + b 2%nat * 2 ^ 8 + b 1%nat * 2 ^ 16 + b 0%nat * 2 ^ 24
  end.

(** [a->s6_addr32[i] = v]: the four bytes of the word are overwritten. *)
Definition set_s6_addr32 (bo : byte_order) (a : list Z) (i : nat) (v : Z) : list Z :=
  let byte k := u8 (Z.shiftr v (8 * k)) in
  match bo with
  | LittleEndian =>
      <[(4 * i + 3)%nat := byte 3]> (<[(4 * i + 2)%nat := byte 2]>
        (<[(4 * i + 1)%nat := byte 1]> (<[(4 * i)%nat := byte 0]> a)))
  | BigEndian =>
      <[(4 * i + 3)%nat := byte 0]> (<[(4 * i + 2)%nat := byte 1]>
        (<[(4 * i + 1)%nat := byte 2]> (<[(4 * i)%nat := byte 3]> a)))
  end.

(** [memcpy(&a[off], src, |src|)] into an array: bytes beyond the end of [a]
    are not part of the model (the callers never write there). *)
Fixpoint store_bytes (off : nat) (src : list Z) (a : list Z) : list Z :=
  match src with
  | [] => a
  | b :: src' => store_bytes (S off) src' (<[off := b]> a)
  end.

(** [IN6_IS_ADDR_UNSPECIFIED(a)]: all sixteen bytes are zero. *)
Definition IN6_IS_ADDR_UNSPECIFIED (a : list Z) : bool :=
  forallb (Z.eqb 0) (take 16 a) && Nat.eqb (length (take 16 a)) 16.

(** ** The checksum engine (checksum.c) *)

(** Modelled from the spec: checksum.c is not among the sources; its
    [ip_checksum_add] "accumulates the ones'-complement sum of a byte range
    into a wider accumulator" and treats "a trailing byte as the high byte
    of a zero-padded 16-bit word".  The range is read as 16-bit words in the
    byte order of the machine; a trailing byte is followed by a zero pad
    byte, which makes it the high-order byte of that word in network order.
    The accumulator is a [uint32_t]. *)
Fixpoint ip_checksum_words (bo : byte_order) (checksum : Z) (data : list Z) : Z :=
  match data with
  | b0 :: b1 :: rest => ip_checksum_words bo (u32 (checksum + load16 bo b0 b1)) rest
  | [b0] => u32 (checksum + load16 bo b0 0)
  | [] => checksum
  end.

Definition ip_checksum_add (bo : byte_order) (current : Z) (data : list Z) (len : nat) : Z :=
  ip_checksum_words bo current (take len data).

(** Modelled from the spec: the fold "to 16 bits (carry-wraparound)" that
    checksum.c applies before combining sums: while the sum exceeds 0xffff,
    the carries above bit 15 are added back in.  [fuel] bounds the number of
    rounds; two rounds are enough for any 32-bit sum
    (see [ip_checksum_fold_loop_spec]). *)
Fixpoint ip_checksum_fold_loop (fuel : nat) (temp_sum : Z) : Z :=
  match fuel with
  | O => temp_sum
  | S fuel' =>
      if temp_sum >? 0xffff
      then ip_checksum_fold_loop fuel'
             (Z.shiftr temp_sum 16 + Z.land temp_sum 0xffff)
      else temp_sum
  end.

Definition ip_checksum_fold (temp_sum : Z) : Z :=
  u16 (ip_checksum_fold_loop 32 temp_sum).

(** Modelled from the spec: [ip_checksum_adjust] of checksum.c, "the
    standard incremental-checksum-update algorithm" (RFC 1624): it "returns a
    new 16-bit field value such that the ones'-complement checksum over the
    whole structure is unchanged despite the bytes summarized by
    [old_hdr_sum] having been replaced by those summarized by [new_hdr_sum]",
    folding the accumulators to 16 bits before combining them, with an
    end-around borrow on the subtraction. *)
Definition ip_checksum_adjust (checksum old_hdr_sum new_hdr_sum : Z) : Z :=
  let checksum := u16 (Z.lnot checksum) in
  let folded_sum := ip_checksum_fold (u32 (checksum + new_hdr_sum)) in
  let folded_old := ip_checksum_fold old_hdr_sum in
  if folded_sum >? folded_old
  then u16 (Z.lnot (folded_sum - folded_old))
  else u16 (Z.lnot (folded_sum - folded_old - 1)).

(** Equality in 16-bit ones'-complement arithmetic: 0x0000 and 0xffff both
    stand for zero, so two sums are equal when they agree modulo 0xffff. *)
Definition ones_complement_eq (x y : Z) : Prop := x mod 0xffff = y mod 0xffff.

Arguments u8 : simpl never.
Arguments u16 : simpl never.
Arguments u32 : simpl never.
Arguments ip_checksum_fold : simpl never.
Arguments ip_checksum_adjust : simpl never.

(** ** The configuration snapshot and the outside world *)

(** [struct clat_config] (config.h), with the fields config.c touches. *)
Record clat_config : Type := {
  mtu : Z;
  ipv4mtu : Z;
  ipv6_local_subnet : list Z;
  ipv6_host_id : list Z;
  ipv4_local_subnet : list Z;
  plat_subnet : list Z;
  default_pdp_interface : string;
  plat_from_dns64_hostname : option string
}.

(** The snapshot after [memset(&Global_Clatd_Config, 0, sizeof ...)]. *)
Definition zeroed_config : clat_config :=
  {| mtu := 0; ipv4mtu := 0;
     ipv6_local_subnet := replicate 16 0;
     ipv6_host_id := replicate 16 0;
     ipv4_local_subnet := replicate 4 0;
     plat_subnet := replicate 16 0;
     default_pdp_interface := "";
     plat_from_dns64_hostname := None |}.

(** A pointer into [Global_Clatd_Config]: how to read and how to overwrite
    the object it points to. *)
Record ptr (T : Type) : Type := {
  load : clat_config -> T;
  store : T -> clat_config -> clat_config
}.
Arguments load {T} _ _.
Arguments store {T} _ _ _.

Definition addr_mtu : ptr Z :=
  {| load := mtu;
     store v c := {| mtu := v; ipv4mtu := ipv4mtu c;
       ipv6_local_subnet := ipv6_local_subnet c; ipv6_host_id := ipv6_host_id c;
       ipv4_local_subnet := ipv4_local_subnet c; plat_subnet := plat_subnet c;
       default_pdp_interface := default_pdp_interface c;
       plat_from_dns64_hostname := plat_from_dns64_hostname c |} |}.

Definition addr_ipv4mtu : ptr Z :=
  {| load := ipv4mtu;
     store v c := {| mtu := mtu c; ipv4mtu := v;
       ipv6_local_subnet := ipv6_local_subnet c; ipv6_host_id := ipv6_host_id c;
       ipv4_local_subnet := ipv4_local_subnet c; plat_subnet := plat_subnet c;
       default_pdp_interface := default_pdp_interface c;
       plat_from_dns64_hostname := plat_from_dns64_hostname c |} |}.

Definition addr_ipv6_local_subnet : ptr (list Z) :=
  {| load := ipv6_local_subnet;
     store v c := {| mtu := mtu c; ipv4mtu := ipv4mtu c;
       ipv6_local_subnet := v; ipv6_host_id := ipv6_host_id c;
       ipv4_local_subnet := ipv4_local_subnet c; plat_subnet := plat_subnet c;
       default_pdp_interface := default_pdp_interface c;
       plat_from_dns64_hostname := plat_from_dns64_hostname c |} |}.

Definition addr_ipv6_host_id : ptr (list Z) :=
  {| load := ipv6_host_id;
     store v c := {| mtu := mtu c; ipv4mtu := ipv4mtu c;
       ipv6_local_subnet := ipv6_local_subnet c; ipv6_host_id := v;
       ipv4_local_subnet := ipv4_local_subnet c; plat_subnet := plat_subnet c;
       default_pdp_interface := default_pdp_interface c;
       plat_from_dns64_hostname := plat_from_dns64_hostname c |} |}.

Definition addr_ipv4_local_subnet : ptr (list Z) :=
  {| load := ipv4_local_subnet;
     store v c := {| mtu := mtu c; ipv4mtu := ipv4mtu c;
       ipv6_local_subnet := ipv6_local_subnet c; ipv6_host_id := ipv6_host_id c;
       ipv4_local_subnet := v; plat_subnet := plat_subnet c;
       default_pdp_interface := default_pdp_interface c;
       plat_from_dns64_hostname := plat_from_dns64_hostname c |} |}.

Definition addr_plat_subnet : ptr (list Z) :=
  {| load := plat_subnet;
     store v c := {| mtu := mtu c; ipv4mtu := ipv4mtu c;
       ipv6_local_subnet := ipv6_local_subnet c; ipv6_host_id := ipv6_host_id c;
       ipv4_local_subnet := ipv4_local_subnet c; plat_subnet := v;
       default_pdp_interface := default_pdp_interface c;
       plat_from_dns64_hostname := plat_from_dns64_hostname c |} |}.

Definition addr_default_pdp_interface : ptr string :=
  {| load := default_pdp_interface;
     store v c := {| mtu := mtu c; ipv4mtu := ipv4mtu c;
       ipv6_local_subnet := ipv6_local_subnet c; ipv6_host_id := ipv6_host_id c;
       ipv4_local_subnet := ipv4_local_subnet c; plat_subnet := plat_subnet c;
       default_pdp_interface := v;
       plat_from_dns64_hostname := plat_from_dns64_hostname c |} |}.

Definition addr_plat_from_dns64_hostname : ptr (option string) :=
  {| load := plat_from_dns64_hostname;
     store v c := {| mtu := mtu c; ipv4mtu := ipv4mtu c;
       ipv6_local_subnet := ipv6_local_subnet c; ipv6_host_id := ipv6_host_id c;
       ipv4_local_subnet := ipv4_local_subnet c; plat_subnet := plat_subnet c;
       default_pdp_interface := default_pdp_interface c;
       plat_from_dns64_hostname := v |} |}.

Inductive address_family : Type := AF_INET | AF_INET6.

Inductive log_priority : Type :=
  ANDROID_LOG_DEBUG | ANDROID_LOG_INFO | ANDROID_LOG_WARN | ANDROID_LOG_FATAL.

Inductive log_arg : Type := ArgS (s : string) | ArgD (d : Z).

(** What the daemon does to its collaborators, in program order. *)
Inductive event : Type :=
  | Logmsg (prio : log_priority) (fmt : string) (args : list log_arg)
  | Config_load_file (file : string)
  | Config_str (item_name : string)
  | Inet_pton (af : address_family) (src : string)
  | Plat_prefix (hostname : option string) (net_id : Z)
  | Sleep (seconds : Z)
  | Arc4random_buf (nbytes : nat)
  | Getinterface_ip (interface : string) (af : address_family).

(** The collaborators config.c calls but does not define, and the two
    macros of config.h it uses.  A parsed configuration is the list of the
    root node's children, oldest first, as (name, value) pairs. *)
Record externals : Type := {
  DEFAULT_IPV4_LOCAL_SUBNET : string;
  DEFAULT_DNS64_DETECTION_HOSTNAME : string;
  (** children that [config_load_file] attaches to the root; none when the
      file cannot be read *)
  config_file : string -> list (string * string);
  (** [inet_pton]: the binary address when it returns 1, [None] when it
      returns 0 or -1 (the destination is then left alone) *)
  inet_pton : address_family -> string -> option (list Z);
  (** [getinterface_ip]: the address found on the interface, or NULL *)
  getinterface_ip : string -> address_family -> option (list Z);
  (** [plat_prefix], the DNS64 resolver: status and the prefix written for
      the n-th query of the process *)
  plat_prefix : option string -> Z -> nat -> Z * list Z;
  (** the n-th byte the system random source hands out *)
  arc4random : nat -> Z;
  (** [sizeof(Global_Clatd_Config.default_pdp_interface)] *)
  sizeof_default_pdp_interface : nat;
  (** what lies behind [default_pdp_interface] in memory, up to the first
      zero byte: the bytes of the members that follow it in
      [struct clat_config], whose layout is config.h's, and of whatever
      pointer values they hold *)
  bytes_after_default_pdp_interface : clat_config -> string
}.

Record world : Type := {
  Global_Clatd_Config : clat_config;
  events : list event;
  dns_queries : nat;
  random_taken : nat
}.

(** ** The monad: state over the world; [None] is a computation that is
    still running when the fuel of its loop is spent. *)
Definition M (A : Type) : Type := world -> option (A * world).

Definition ret {A} (a : A) : M A := fun w => Some (a, w).

Definition bind {A B} (m : M A) (k : A -> M B) : M B :=
  fun w => match m w with
           | Some (a, w') => k a w'
           | None => None
           end.

Notation "x <- m ;; k" := (bind m (fun x => k))
  (at level 100, m at next level, right associativity).
Notation "m ;;; k" := (bind m (fun _ => k))
  (at level 100, right associativity).

Definition get_config : M clat_config :=
  fun w => Some (Global_Clatd_Config w, w).

Definition modify_config (f : clat_config -> clat_config) : M unit :=
  fun w => Some (tt, {| Global_Clatd_Config := f (Global_Clatd_Config w);
                        events := events w;
                        dns_queries := dns_queries w;
                        random_taken := random_taken w |}).

Definition emit (e : event) : M unit :=
  fun w => Some (tt, {| Global_Clatd_Config := Global_Clatd_Config w;
                        events := events w ++ [e];
                        dns_queries := dns_queries w;
                        random_taken := random_taken w |}).

Definition logmsg (prio : log_priority) (fmt : string) (args : list log_arg) : M unit :=
  emit (Logmsg prio fmt args).

(** [*p = v] for a pointer into the global configuration. *)
Definition assign {T} (p : ptr T) (v : T) : M unit := modify_config (store p v).

Section Config.

Context (bo : byte_order) (E : externals).

(** [arc4random_buf(buf, nbytes)]: the next [nbytes] octets of the random
    source. *)
Definition arc4random_buf (nbytes : nat) : M (list Z) :=
  fun w =>
    Some (map (fun j => u8 (arc4random E (random_taken w + j))) (seq 0 nbytes),
          {| Global_Clatd_Config := Global_Clatd_Config w;
             events := events w ++ [Arc4random_buf nbytes];
             dns_queries := dns_queries w;
             random_taken := (random_taken w + nbytes)%nat |}).

(** [gen_random_iid(myaddr, ipv4_local_subnet, plat_subnet)]; the result is
    the new content of [*myaddr]. *)
Definition gen_random_iid (myaddr ipv4_local_subnet plat_subnet : list Z) : M (list Z) :=
  rnd <- arc4random_buf 8 ;;
  let myaddr := store_bytes 8 rnd myaddr in
  let middlebytes := u16 (Z.shiftl (s6_addr myaddr 11) 8 + s6_addr myaddr 12) in
  let c1 := ip_checksum_add bo 0 ipv4_local_subnet 4 in
  let c2 := u32 (ip_checksum_add bo 0 plat_subnet 16 +
                 ip_checksum_add bo 0 myaddr 16) in
  let delta := ip_checksum_adjust middlebytes c1 c2 in
  let myaddr := <[11%nat := u8 (Z.shiftr delta 8)]> myaddr in
  let myaddr := <[12%nat := Z.land delta 0xff]> myaddr in
  ret myaddr.

(** [config_generate_local_ipv6_subnet(interface_ip)]; the result is the new
    content of [*interface_ip]. *)
Definition config_generate_local_ipv6_subnet (interface_ip : list Z) : M (list Z) :=
  cfg <- get_config ;;
  if IN6_IS_ADDR_UNSPECIFIED (ipv6_host_id cfg)
  then gen_random_iid interface_ip (ipv4_local_subnet cfg) (plat_subnet cfg)
  else
    ret (fold_left
           (fun ip i => set_s6_addr32 bo ip i (s6_addr32 bo (ipv6_host_id cfg) i))
           [2%nat; 3%nat] interface_ip).

(** ** libc and libcutils, as far as config.c relies on them *)

(** The width of [long] differs between the 32- and the 64-bit ABIs. *)
Inductive data_model : Type := ILP32 | LP64.

Definition LONG_MAX (dm : data_model) : Z :=
  match dm with ILP32 => 2 ^ 31 - 1 | LP64 => 2 ^ 63 - 1 end.
Definition LONG_MIN (dm : data_model) : Z := - LONG_MAX dm - 1.

Definition ERANGE : Z := 34.

Definition isspace (c : ascii) : bool :=
  let n := nat_of_ascii c in
  Nat.eqb n 32 || (Nat.leb 9 n && Nat.leb n 13).

Definition isdigit (c : ascii) : bool :=
  let n := nat_of_ascii c in Nat.leb 48 n && Nat.leb n 57.

Definition digit_value (c : ascii) : Z := Z.of_nat (nat_of_ascii c) - 48.

Fixpoint skip_spaces (s : string) : string :=
  match s with
  | String c s' => if isspace c then skip_spaces s' else s
  | EmptyString => s
  end.

(** The optional sign: whether it is a minus, and the text after it. *)
Definition scan_sign (s : string) : bool * string :=
  match s with
  | String "-" s' => (true, s')
  | String "+" s' => (false, s')
  | _ => (false, s)
  end.

(** The longest run of decimal digits: its value and the text after it. *)
Fixpoint scan_digits (acc : Z) (s : string) : Z * string :=
  match s with
  | String c s' =>
      if isdigit c then scan_digits (acc * 10 + digit_value c) s' else (acc, s)
  | EmptyString => (acc, s)
  end.

Record strtol_result : Type := {
  strtol_value : Z;
  (** [endptr], as an offset from [nptr] *)
  strtol_endptr : nat;
  (** what [errno] holds afterwards, given that it was 0 before *)
  strtol_errno : Z
}.

(** [strtol(nptr, &endptr, 10)] as ISO C specifies it: white space, an
    optional sign and the longest run of digits are consumed; with no digit
    nothing is converted and [endptr] is [nptr]; a value that does not fit a
    [long] is clamped and reported through [errno]. *)
Definition strtol (dm : data_model) (nptr : string) : strtol_result :=
  let '(neg, body) := scan_sign (skip_spaces nptr) in
  let '(acc, rest) := scan_digits 0 body in
  if Nat.eqb (String.length rest) (String.length body)
  then {| strtol_value := 0; strtol_endptr := 0; strtol_errno := 0 |}
  else
    let endptr := (String.length nptr - String.length rest)%nat in
    let v := if neg then - acc else acc in
    if v >? LONG_MAX dm
    then {| strtol_value := LONG_MAX dm; strtol_endptr := endptr; strtol_errno := ERANGE |}
    else if v <? LONG_MIN dm
    then {| strtol_value := LONG_MIN dm; strtol_endptr := endptr; strtol_errno := ERANGE |}
    else {| strtol_value := v; strtol_endptr := endptr; strtol_errno := 0 |}.

(** [config_find(root, name)] of libcutils walks all children of the root
    and keeps the last one whose name matches. *)
Definition config_find (root : list (string * string)) (name : string)
  : option (string * string) :=
  fold_left (fun match_ node => if String.eqb (fst node) name then Some node else match_)
            root None.

(** [config_str(root, name, _default)]: the value of the node found, else
    the default (which may be NULL). *)
Definition config_str (root : list (string * string)) (name : string)
    (_default : option string) : option string :=
  match config_find root name with
  | Some node => Some (snd node)
  | None => _default
  end.

(** ** The typed config item readers *)

(** The lookup every reader starts with; it is recorded in the trace. *)
Definition lookup_item (root : list (string * string)) (item_name : string)
    (defaultvar : option string) : M (option string) :=
  emit (Config_str item_name) ;;;
  ret (config_str root item_name defaultvar).

Definition config_item_str (root : list (string * string)) (item_name : string)
    (defaultvar : option string) : M (option string) :=
  tmp <- lookup_item root item_name defaultvar ;;
  match tmp with
  | None =>
      logmsg ANDROID_LOG_FATAL "%s config item needed" [ArgS item_name] ;;;
      ret None
  | Some tmp => ret (Some tmp)
  end.

(** The result is the pointer returned: [Some ret_val_ptr], or [None] for
    NULL. *)
Definition config_item_int16_t (dm : data_model) (root : list (string * string))
    (item_name : string) (defaultvar : option string) (ret_val_ptr : ptr Z)
  : M (option (ptr Z)) :=
  tmp <- lookup_item root item_name defaultvar ;;
  match tmp with
  | None =>
      logmsg ANDROID_LOG_FATAL "%s config item needed" [ArgS item_name] ;;;
      ret None
  | Some tmp =>
      let r := strtol dm tmp in
      let conf_int := strtol_value r in
      let endptr := strtol_endptr r in
      if strtol_errno r >? 0 then
        logmsg ANDROID_LOG_FATAL "%s config item is not numeric: %s (error=%s)"
               [ArgS item_name; ArgS tmp; ArgD (strtol_errno r)] ;;;
        ret None
      else if Nat.eqb endptr 0 || Nat.eqb (String.length tmp) 0 then
        logmsg ANDROID_LOG_FATAL "%s config item is not numeric: %s"
               [ArgS item_name; ArgS tmp] ;;;
        ret None
      else if negb (Nat.eqb endptr (String.length tmp)) then
        logmsg ANDROID_LOG_FATAL "%s config item contains non-numeric characters: %s"
               [ArgS item_name; ArgS (String.substring endptr (String.length tmp - endptr) tmp)] ;;;
        ret None
      else if (conf_int >? INT16_MAX) || (conf_int <? INT16_MIN) then
        logmsg ANDROID_LOG_FATAL "%s config item is too big/small: %d"
               [ArgS item_name; ArgD conf_int] ;;;
        ret None
      else
        assign ret_val_ptr conf_int ;;;
        ret (Some ret_val_ptr)
  end.

(** [inet_pton(af, src, dst)]: the status, after [*dst] has been written on
    success. *)
Definition call_inet_pton (af : address_family) (src : string) (dst : ptr (list Z)) : M Z :=
  emit (Inet_pton af src) ;;;
  match inet_pton E af src with
  | Some a => assign dst a ;;; ret 1
  | None => ret 0
  end.

Definition config_item_ip (root : list (string * string)) (item_name : string)
    (defaultvar : option string) (ret_val_ptr : ptr (list Z))
  : M (option (ptr (list Z))) :=
  tmp <- lookup_item root item_name defaultvar ;;
  match tmp with
  | None =>
      logmsg ANDROID_LOG_FATAL "%s config item needed" [ArgS item_name] ;;;
      ret None
  | Some tmp =>
      status <- call_inet_pton AF_INET tmp ret_val_ptr ;;
      if status <=? 0 then
        logmsg ANDROID_LOG_FATAL "invalid IPv4 address specified for %s: %s"
               [ArgS item_name; ArgS tmp] ;;;
        ret None
      else ret (Some ret_val_ptr)
  end.

Definition config_item_ip6 (root : list (string * string)) (item_name : string)
    (defaultvar : option string) (ret_val_ptr : ptr (list Z))
  : M (option (ptr (list Z))) :=
  tmp <- lookup_item root item_name defaultvar ;;
  match tmp with
  | None =>
      logmsg ANDROID_LOG_FATAL "%s config item needed" [ArgS item_name] ;;;
      ret None
  | Some tmp =>
      status <- call_inet_pton AF_INET6 tmp ret_val_ptr ;;
      if status <=? 0 then
        logmsg ANDROID_LOG_FATAL "invalid IPv6 address specified for %s: %s"
               [ArgS item_name; ArgS tmp] ;;;
        ret None
      else ret (Some ret_val_ptr)
  end.

Definition free_config : M unit :=
  cfg <- get_config ;;
  match plat_from_dns64_hostname cfg with
  | Some _ => assign addr_plat_from_dns64_hostname None
  | None => ret tt
  end.

(** [memcmp(a1, a2, 8) == 0]. *)
Definition ipv6_prefix_equal (a1 a2 : list Z) : Z :=
  if bool_decide (take 8 a1 = take 8 a2) then 1 else 0.

(** ** DNS64 discovery *)

(** [plat_prefix(hostname, net_id, &tmp_ptr)]: the status and what the
    resolver left in [tmp_ptr]. *)
Definition call_plat_prefix (hostname : option string) (net_id : Z) : M (Z * list Z) :=
  fun w =>
    Some (plat_prefix E hostname net_id (dns_queries w),
          {| Global_Clatd_Config := Global_Clatd_Config w;
             events := events w ++ [Plat_prefix hostname net_id];
             dns_queries := S (dns_queries w);
             random_taken := random_taken w |}).

(** Where the [while(1)] of [dns64_detection] stands: about to start a trip
    with the given [backoff_sleep], or left through [return]. *)
Inductive loop_state : Type :=
  | Looping (backoff_sleep : Z)
  | Returned.

(** One trip round the loop body. *)
Definition dns64_iteration (net_id : Z) (backoff_sleep : Z) : M loop_state :=
  cfg <- get_config ;;
  r <- call_plat_prefix (plat_from_dns64_hostname cfg) net_id ;;
  let '(status, tmp_ptr) := r in
  if status >? 0 then
    assign addr_plat_subnet tmp_ptr ;;;
    ret Returned
  else
    logmsg ANDROID_LOG_WARN "dns64_detection -- error, sleeping for %d seconds"
           [ArgD backoff_sleep] ;;;
    emit (Sleep backoff_sleep) ;;;
    let backoff_sleep := backoff_sleep * 2 in
    let backoff_sleep := if backoff_sleep >=? 120 then 120 else backoff_sleep in
    ret (Looping backoff_sleep).

(** The loop after at most [n] trips, started with [backoff_sleep]. *)
Fixpoint dns64_trips (n : nat) (net_id : Z) (backoff_sleep : Z) : M loop_state :=
  match n with
  | O => ret (Looping backoff_sleep)
  | S n' =>
      st <- dns64_iteration net_id backoff_sleep ;;
      match st with
      | Returned => ret Returned
      | Looping backoff_sleep' => dns64_trips n' net_id backoff_sleep'
      end
  end.

(** [dns64_detection(net_id)]: it has a result only if the loop is left
    within [fuel] trips. *)
Definition dns64_detection (fuel : nat) (net_id : Z) : M unit :=
  st <- dns64_trips fuel net_id 1 ;;
  match st with
  | Returned => ret tt
  | Looping _ => fun _ => None
  end.

(** ** Assembly *)

Definition call_getinterface_ip (interface : string) (af : address_family)
  : M (option (list Z)) :=
  emit (Getinterface_ip interface af) ;;;
  ret (getinterface_ip E interface af).

Definition subnet_from_interface (root : list (string * string)) (interface : string) : M Z :=
  r <- config_item_ip6 root "ipv6_host_id" (Some "::") addr_ipv6_host_id ;;
  match r with
  | None => ret 0
  | Some _ =>
      interface_ip <- call_getinterface_ip interface AF_INET6 ;;
      match interface_ip with
      | None =>
          logmsg ANDROID_LOG_FATAL "unable to find an ipv6 ip on interface %s"
                 [ArgS interface] ;;;
          ret 0
      | Some ip6 =>
          assign addr_ipv6_local_subnet ip6 ;;;
          cfg <- get_config ;;
          local <- config_generate_local_ipv6_subnet (ipv6_local_subnet cfg) ;;
          assign addr_ipv6_local_subnet local ;;;
          (* the text form of the address, the first argument, is left out *)
          logmsg ANDROID_LOG_INFO "Using %s on %s" [ArgS interface] ;;;
          ret 1
      end
  end.

(** The [failed:] label. *)
Definition failed : M Z := free_config ;;; ret 0.

(** [strncpy(dst, src, n)] into a zeroed [dst] of [n] bytes: the bytes of
    [dst] before its first zero byte.  A source shorter than [n] is copied
    whole and padded with zero bytes; of a source of [n] bytes or more the
    first [n] are copied and no terminator is written, so that [dst] is
    full: it holds [n] bytes and none of them is zero. *)
Definition strncpy (src : string) (n : nat) : string := String.substring 0 n src.

(** The C string a reader finds at [Global_Clatd_Config.default_pdp_interface].
    When the field holds fewer bytes than its size the terminator is inside
    it.  When it is full there is none, and the reader runs on into the
    memory behind the field. *)
Definition default_pdp_interface_string (cfg : clat_config) : string :=
  if (String.length (default_pdp_interface cfg) <? sizeof_default_pdp_interface E)%nat
  then default_pdp_interface cfg
  else default_pdp_interface cfg +:+ bytes_after_default_pdp_interface E cfg.

(** The tail of [read_config] that all three ways of obtaining the PLAT
    prefix lead to: [subnet_from_interface], then [return 1]. *)
Definition read_config_finish (root : list (string * string)) : M Z :=
  cfg <- get_config ;;
  ok <- subnet_from_interface root (default_pdp_interface_string cfg) ;;
  if ok =? 0 then failed else ret 1.

(** [read_config(file, uplink_interface, plat_prefix, net_id)]; [plat_prefix]
    is [None] for a NULL pointer.  [config_node] and [strdup] are taken to
    succeed: running out of memory is outside the model.  [fuel] bounds the
    trips of the discovery loop. *)
Definition read_config (dm : data_model) (fuel : nat) (file uplink_interface : string)
    (plat_prefix : option string) (net_id : Z) : M Z :=
  modify_config (fun _ => zeroed_config) ;;;
  emit (Config_load_file file) ;;;
  let root := config_file E file in
  match root with
  | [] =>
      logmsg ANDROID_LOG_FATAL "Could not read config file %s" [ArgS file] ;;;
      failed
  | _ :: _ =>
      assign addr_default_pdp_interface
             (strncpy uplink_interface (sizeof_default_pdp_interface E)) ;;;
      r <- config_item_int16_t dm root "mtu" (Some "-1") addr_mtu ;;
      match r with None => failed | Some _ =>
      r <- config_item_int16_t dm root "ipv4mtu" (Some "-1") addr_ipv4mtu ;;
      match r with None => failed | Some _ =>
      r <- config_item_ip root "ipv4_local_subnet"
             (Some (DEFAULT_IPV4_LOCAL_SUBNET E)) addr_ipv4_local_subnet ;;
      match r with None => failed | Some _ =>
      match plat_prefix with
      | Some plat_prefix =>
          (* plat subnet is coming from the command line *)
          status <- call_inet_pton AF_INET6 plat_prefix addr_plat_subnet ;;
          if status <=? 0 then
            logmsg ANDROID_LOG_FATAL "invalid IPv6 address specified for plat prefix: %s"
                   [ArgS plat_prefix] ;;;
            failed
          else read_config_finish root
      | None =>
          tmp_ptr <- config_item_str root "plat_from_dns64" (Some "yes") ;;
          if match tmp_ptr with
             | None => true
             | Some s => String.eqb s "no"
             end
          then
            r <- config_item_ip6 root "plat_subnet" None addr_plat_subnet ;;
            match r with
            | None =>
                logmsg ANDROID_LOG_FATAL
                       "plat_from_dns64 disabled, but no plat_subnet specified" [] ;;;
                failed
            | Some _ => read_config_finish root
            end
          else
            hostname <- config_item_str root "plat_from_dns64_hostname"
                          (Some (DEFAULT_DNS64_DETECTION_HOSTNAME E)) ;;
            assign addr_plat_from_dns64_hostname hostname ;;;
            match hostname with None => failed | Some _ =>
            dns64_detection fuel net_id ;;;
            read_config_finish root
            end
      end
      end end end
  end.

End Config.

(** * Vocabulary of the statements *)

(** Sum of the 16-bit words of an even-length byte array, without wrap. *)
Fixpoint word_sum (data : list Z) : Z :=
  match data with
  | b0 :: b1 :: rest => b0 + 256 * b1 + word_sum rest
  | [b0] => b0
  | [] => 0
  end.

Definition bytes (data : list Z) : Prop := Forall (fun b => 0 <= b < 256) data.

(** The sleep durations the spec lists: 1, 2, 4, ..., 64, 120, 120, ... *)
Definition backoff_sequence (k : nat) : Z := Z.min (2 ^ Z.of_nat k) 120.

Definition sleeps (evs : list event) : list Z :=
  omap (fun e => match e with Sleep s => Some s | _ => None end) evs.

(** Status of the k-th query from world [w] on. *)
Definition resolver_status (E : externals) (net_id : Z) (w : world) (k : nat) : Z :=
  fst (plat_prefix E (plat_from_dns64_hostname (Global_Clatd_Config w)) net_id
         (dns_queries w + k)).

Definition resolver_prefix (E : externals) (net_id : Z) (w : world) (k : nat) : list Z :=
  snd (plat_prefix E (plat_from_dns64_hostname (Global_Clatd_Config w)) net_id
         (dns_queries w + k)).

(** *** What the spec calls a base-10 integer *)

Fixpoint string_forall (P : ascii -> bool) (s : string) : bool :=
  match s with
  | EmptyString => true
  | String c s' => P c && string_forall P s'
  end.

(** Value of a run of decimal digits, most significant first. *)
Fixpoint decimal_value (digits : string) : Z :=
  match digits with
  | EmptyString => 0
  | String c digits' =>
      digit_value c * 10 ^ Z.of_nat (String.length digits') + decimal_value digits'
  end.

(** [decimal_literal s v]: [s] is white space, an optional sign and at least
    one digit, nothing else, and denotes [v]. *)
Definition decimal_literal (s : string) (v : Z) : Prop :=
  exists ws sign digits,
    s = ws +:+ sign +:+ digits /\
    string_forall isspace ws = true /\
    (sign = "" \/ sign = "+" \/ sign = "-") /\
    digits <> "" /\
    string_forall isdigit digits = true /\
    v = if String.eqb sign "-" then - decimal_value digits else decimal_value digits.

(** What the spec calls "no numeric content at all": no digit anywhere. *)
Definition no_numeric_content (s : string) : Prop :=
  string_forall (fun c => negb (isdigit c)) s = true.

(** [s] does not begin with a base-10 integer: nothing in front of it is a
    decimal literal.  That is so for the empty string, for a string without
    digits, and also for one whose digits come after something else. *)
Definition no_leading_integer (s : string) : Prop :=
  forall p rest v, s = p +:+ rest -> ~ decimal_literal p v.

Definition trailing_non_numeric (s : string) : Prop :=
  exists p v c rest,
    s = p +:+ String c rest /\ decimal_literal p v /\ isdigit c = false.

Definition out_of_int16_range (s : string) : Prop :=
  exists v, decimal_literal s v /\ (v < INT16_MIN \/ INT16_MAX < v).

(** [no_digit_head s]: [s] is empty or starts with something that is not a
    digit. *)
Definition no_digit_head (s : string) : Prop :=
  match s with
  | EmptyString => True
  | String c _ => isdigit c = false
  end.

(** [w] with more events appended to its trace. *)
Definition with_events (w : world) (evs : list event) : world :=
  {| Global_Clatd_Config := Global_Clatd_Config w;
     events := events w ++ evs;
     dns_queries := dns_queries w;
     random_taken := random_taken w |}.

Definition with_config (w : world) (c : clat_config) : world :=
  {| Global_Clatd_Config := c;
     events := events w;
     dns_queries := dns_queries w;
     random_taken := random_taken w |}.

Definition is_fatal_log (e : event) : Prop :=
  exists fmt args, e = Logmsg ANDROID_LOG_FATAL fmt args.

(** *** Weakest preconditions for the monad *)

(** [wp m post w]: started in [w], [m] returns, and its result and final
    world satisfy [post]. *)
Definition wp {A} (m : M A) (post : A -> world -> Prop) (w : world) : Prop :=
  exists a w', m w = Some (a, w') /\ post a w'.

(** [quiet_since allowed w0 w]: [w] arose from [w0] by events that are all
    [allowed], without any DNS query. *)
Definition quiet_since (allowed : event -> bool) (w0 w : world) : Prop :=
  exists evs, events w = events w0 ++ evs /\ forallb allowed evs = true /\
              dns_queries w = dns_queries w0.

(** Events that do not touch the resolver. *)
Definition no_dns (e : event) : bool :=
  match e with
  | Plat_prefix _ _ | Sleep _ => false
  | _ => true
  end.

(** Events of a run that takes the PLAT prefix from the command line: no
    resolver traffic and no lookup of the three items that otherwise choose
    the prefix. *)
Definition override_quiet (e : event) : bool :=
  match e with
  | Plat_prefix _ _ | Sleep _ => false
  | Config_str k =>
      negb (String.eqb k "plat_from_dns64" || String.eqb k "plat_subnet" ||
            String.eqb k "plat_from_dns64_hostname")
  | _ => true
  end.

(** The same, before the override has been handed to [inet_pton]. *)
Definition before_override (e : event) : bool :=
  override_quiet e &&
  match e with
  | Inet_pton AF_INET6 _ => false
  | _ => true
  end.

(** A classifier that lets everything pass except, possibly, resolver
    traffic and item lookups. *)
Definition permissive (allowed : event -> bool) : Prop :=
  forall e, match e with
            | Plat_prefix _ _ | Sleep _ | Config_str _ | Inet_pton _ _ => True
            | _ => allowed e = true
            end.

(** *** Concrete inputs used to exercise the statements *)

(** Collaborators that serve the given configuration tree and resolver, know
    three address texts, find one address on every interface, hand out a
    fixed byte stream as randomness and have one non-zero byte behind the
    interface name once a hostname has been allocated. *)
Definition example_externals (root : list (string * string))
    (resolver : nat -> Z * list Z) : externals :=
  {| DEFAULT_IPV4_LOCAL_SUBNET := "192.0.0.4";
     DEFAULT_DNS64_DETECTION_HOSTNAME := "ipv4only.arpa";
     config_file _ := root;
     inet_pton af src :=
       match af with
       | AF_INET => if String.eqb src "192.0.0.4" then Some [192; 0; 0; 4] else None
       | AF_INET6 =>
           if String.eqb src "::" then Some (replicate 16 0)
           else if String.eqb src "64:ff9b::"
           then Some [0; 0x64; 0xff; 0x9b; 0; 0; 0; 0; 0; 0; 0; 0; 0; 0; 0; 0]
           else None
       end;
     getinterface_ip _ _ :=
       Some [0x20; 0x01; 0x0d; 0xb8; 0; 1; 0; 2; 0; 0; 0; 0; 0; 0; 0; 1];
     plat_prefix _ _ := resolver;
     arc4random n := 37 * Z.of_nat n + 200;
     sizeof_default_pdp_interface := 16;
     bytes_after_default_pdp_interface cfg :=
       match plat_from_dns64_hostname cfg with
       | Some _ => "@"
       | None => ""
       end |}.

Definition initial_world : world :=
  {| Global_Clatd_Config := zeroed_config;
     events := []; dns_queries := 0; random_taken := 0 |}.

(** A resolver that never answers, and one that answers the fourth query. *)
Definition resolver_never (n : nat) : Z * list Z := (0, []).

Definition nat64_prefix : list Z :=
  [0; 0x64; 0xff; 0x9b; 0; 0; 0; 0; 0; 0; 0; 0; 0; 0; 0; 0].

Definition resolver_fourth (n : nat) : Z * list Z :=
  if Nat.ltb n 3 then (0, []) else (1, nat64_prefix).

Definition example_interface_ip : list Z :=
  [0xfe; 0x80; 0; 0; 0; 0; 0; 0; 0xaa; 0xbb; 0xcc; 0xdd; 0xee; 0xff; 0x11; 0x22].

(** 2001:db8::1234:5678 *)
Definition example_host_id : list Z :=
  [0x20; 0x01; 0x0d; 0xb8; 0; 0; 0; 0; 0; 0; 0; 0; 0x12; 0x34; 0x56; 0x78].

(** What [config_item_int16_t] leaves in [mtu] for the tree [root], if it
    succeeds. *)
Definition read_mtu (root : list (string * string)) : option Z :=
  match config_item_int16_t LP64 root "mtu" (Some "-1") addr_mtu initial_world with
  | Some (Some _, w') => Some (mtu (Global_Clatd_Config w'))
  | _ => None
  end.

Definition world_with_host_id : world :=
  {| Global_Clatd_Config := store addr_ipv6_host_id example_host_id zeroed_config;
     events := []; dns_queries := 0; random_taken := 0 |}.

(** *** Vocabulary of the further properties *)

(** The resolver queries of a trace, in order. *)
Definition queries (evs : list event) : list (option string * Z) :=
  omap (fun e => match e with Plat_prefix h n => Some (h, n) | _ => None end) evs.

(** Seconds spent sleeping in a trace. *)
Definition total_sleep (evs : list event) : Z := foldr Z.add 0 (sleeps evs).

(** What one failed trip round the discovery loop adds to the trace. *)
Definition failed_trip (hostname : option string) (net_id : Z) (i : nat) : list event :=
  [Plat_prefix hostname net_id;
   Logmsg ANDROID_LOG_WARN "dns64_detection -- error, sleeping for %d seconds"
     [ArgD (backoff_sequence i)];
   Sleep (backoff_sequence i)].

(** The trace of a discovery that succeeds in its query number [k]. *)
Definition discovery_trace (hostname : option string) (net_id : Z) (k : nat) : list event :=
  flat_map (failed_trip hostname net_id) (seq 0 k) ++ [Plat_prefix hostname net_id].

(** Seconds slept before query number [k]. *)
Definition waited (k : nat) : Z :=
  if Nat.leb k 7 then 2 ^ Z.of_nat k - 1 else 127 + 120 * (Z.of_nat k - 7).

(** The text an item with a default resolves to. *)
Definition item_text (root : list (string * string)) (item_name d : string) : string :=
  match config_str root item_name (Some d) with
  | Some s => s
  | None => d
  end.

Definition in_int16 (v : Z) : Prop := INT16_MIN <= v <= INT16_MAX.

(** The scalar fields of a snapshot that [read_config] assembled from the
    tree [root] for the interface [uplink_interface]. *)
Definition scalar_items (E : externals) (root : list (string * string))
    (uplink_interface : string) (c : clat_config) : Prop :=
  decimal_literal (item_text root "mtu" "-1") (mtu c) /\ in_int16 (mtu c) /\
  decimal_literal (item_text root "ipv4mtu" "-1") (ipv4mtu c) /\ in_int16 (ipv4mtu c) /\
  inet_pton E AF_INET (item_text root "ipv4_local_subnet" (DEFAULT_IPV4_LOCAL_SUBNET E))
    = Some (ipv4_local_subnet c) /\
  default_pdp_interface c = strncpy uplink_interface (sizeof_default_pdp_interface E).

(** Where the PLAT prefix of a snapshot comes from: the command line if it
    gave one, else the [plat_subnet] item if [plat_from_dns64] says "no",
    else the first successful resolver query, counted from query [q0]. *)
Definition plat_source (E : externals) (root : list (string * string))
    (override : option string) (net_id : Z) (q0 : nat) (c : clat_config) : Prop :=
  match override with
  | Some text =>
      inet_pton E AF_INET6 text = Some (plat_subnet c) /\
      plat_from_dns64_hostname c = None
  | None =>
      if String.eqb (item_text root "plat_from_dns64" "yes") "no" then
        (exists text, config_str root "plat_subnet" None = Some text /\
           inet_pton E AF_INET6 text = Some (plat_subnet c)) /\
        plat_from_dns64_hostname c = None
      else
        plat_from_dns64_hostname c =
          Some (item_text root "plat_from_dns64_hostname"
                  (DEFAULT_DNS64_DETECTION_HOSTNAME E)) /\
        exists k,
          (forall i, (i < k)%nat ->
             fst (plat_prefix E (plat_from_dns64_hostname c) net_id (q0 + i)) <= 0) /\
          0 < fst (plat_prefix E (plat_from_dns64_hostname c) net_id (q0 + k)) /\
          plat_subnet c = snd (plat_prefix E (plat_from_dns64_hostname c) net_id (q0 + k))
  end.

(** The snapshot [c] as it stood before [subnet_from_interface] wrote the
    host id and the local address: the two are still zero from the
    [memset]. *)
Definition before_local_address (c : clat_config) : clat_config :=
  store addr_ipv6_local_subnet (ipv6_local_subnet zeroed_config)
    (store addr_ipv6_host_id (ipv6_host_id zeroed_config) c).

(** Where the local address of a snapshot comes from: the address of the
    interface whose name was read back from the snapshot as it stood before
    the host id and the local address were written, run through
    [config_generate_local_ipv6_subnet] with the snapshot's own host id,
    IPv4 subnet and PLAT prefix in force. *)
Definition local_address_source (bo : byte_order) (E : externals)
    (root : list (string * string)) (c : clat_config) : Prop :=
  inet_pton E AF_INET6 (item_text root "ipv6_host_id" "::") = Some (ipv6_host_id c) /\
  exists ip6 w1 wg,
    getinterface_ip E (default_pdp_interface_string E (before_local_address c)) AF_INET6
      = Some ip6 /\
    ipv6_host_id (Global_Clatd_Config w1) = ipv6_host_id c /\
    ipv4_local_subnet (Global_Clatd_Config w1) = ipv4_local_subnet c /\
    plat_subnet (Global_Clatd_Config w1) = plat_subnet c /\
    config_generate_local_ipv6_subnet bo E ip6 w1 = Some (ipv6_local_subnet c, wg).

(** Collaborators that hand back addresses of the right size: 4 octets for
    IPv4, 16 for IPv6. *)
Definition well_formed_externals (E : externals) : Prop :=
  (forall src a, inet_pton E AF_INET src = Some a -> valid_bytes 4 a = true) /\
  (forall src a, inet_pton E AF_INET6 src = Some a -> valid_bytes 16 a = true) /\
  (forall i a, getinterface_ip E i AF_INET6 = Some a -> valid_bytes 16 a = true) /\
  (forall h n k, 0 < fst (plat_prefix E h n k) ->
     valid_bytes 16 (snd (plat_prefix E h n k)) = true).

(** The tree is not empty and its three scalar items are accepted: [mtu]
    and [ipv4mtu] are decimal literals in the 16-bit range, and
    [ipv4_local_subnet] parses. *)
Definition accepts_scalars (E : externals) (root : list (string * string)) : Prop :=
  root <> [] /\
  (exists v, decimal_literal (item_text root "mtu" "-1") v /\ in_int16 v) /\
  (exists v, decimal_literal (item_text root "ipv4mtu" "-1") v /\ in_int16 v) /\
  inet_pton E AF_INET (item_text root "ipv4_local_subnet" (DEFAULT_IPV4_LOCAL_SUBNET E))
    <> None.

(** The tree lets [read_config] get as far as DNS64 discovery: the scalar
    items are accepted and [plat_from_dns64] is not "no". *)
Definition reaches_discovery (E : externals) (root : list (string * string)) : Prop :=
  accepts_scalars E root /\
  String.eqb (item_text root "plat_from_dns64" "yes") "no" = false.

(** A PLAT prefix can be had: the command line gives one that parses; or
    the tree says "no" to discovery and has a [plat_subnet] that parses; or
    one of the first [fuel] resolver queries, counted from query [q0],
    succeeds. *)
Definition plat_obtainable (E : externals) (root : list (string * string))
    (override : option string) (net_id : Z) (q0 fuel : nat) : Prop :=
  match override with
  | Some text => inet_pton E AF_INET6 text <> None
  | None =>
      if String.eqb (item_text root "plat_from_dns64" "yes") "no" then
        exists text, config_str root "plat_subnet" None = Some text /\
                     inet_pton E AF_INET6 text <> None
      else
        exists k, (k < fuel)%nat /\
          0 < fst (plat_prefix E
                     (Some (item_text root "plat_from_dns64_hostname"
                              (DEFAULT_DNS64_DETECTION_HOSTNAME E)))
                     net_id (q0 + k))
  end.

(** The host id parses and the uplink interface has an IPv6 address. *)
Definition has_local_address (E : externals) (root : list (string * string))
    (uplink_interface : string) : Prop :=
  inet_pton E AF_INET6 (item_text root "ipv6_host_id" "::") <> None /\
  getinterface_ip E uplink_interface AF_INET6 <> None.

(** A tree that leaves the PLAT prefix to discovery, and one that gives it
    statically. *)
Definition discovery_tree : list (string * string) := [("ipv4mtu", "42")].

Definition static_tree : list (string * string) :=
  [("plat_from_dns64", "no"); ("plat_subnet", "64:ff9b::")].

(** Collaborators like [example_externals], except that only the interface
    called "rmnet_data_long_" has an address. *)
Definition one_interface_externals (root : list (string * string))
    (resolver : nat -> Z * list Z) : externals :=
  let E := example_externals root resolver in
  {| DEFAULT_IPV4_LOCAL_SUBNET := DEFAULT_IPV4_LOCAL_SUBNET E;
     DEFAULT_DNS64_DETECTION_HOSTNAME := DEFAULT_DNS64_DETECTION_HOSTNAME E;
     config_file := config_file E;
     inet_pton := inet_pton E;
     getinterface_ip name af :=
       if String.eqb name "rmnet_data_long_" then getinterface_ip E name af else None;
     plat_prefix := plat_prefix E;
     arc4random := arc4random E;
     sizeof_default_pdp_interface := sizeof_default_pdp_interface E;
     bytes_after_default_pdp_interface := bytes_after_default_pdp_interface E |}.

(** * Proofs *)

#[local] Arguments String.append : simpl nomatch.

(** ** Checksum arithmetic *)

Lemma load16_le (b0 b1 : Z) : load16 LittleEndian b0 b1 = b0 + 256 * b1.
Proof. unfold load16. lia. Qed.

Lemma fold_step_eq (s : Z) :
  Z.shiftr s 16 + Z.land s 0xffff = s / 65536 + s mod 65536.
Proof.
  rewrite Z.shiftr_div_pow2 by lia.
  change 0xffff with (Z.ones 16). rewrite Z.land_ones by lia. reflexivity.
Qed.

Lemma ip_checksum_fold_loop_small (fuel : nat) (s : Z) :
  s <= 0xffff -> ip_checksum_fold_loop fuel s = s.
Proof.
  intros H. destruct fuel as [|fuel]; simpl; [reflexivity |].
  destruct (Z.gtb_spec s 65535); [lia | reflexivity].
Qed.

Lemma ip_checksum_fold_loop_spec (fuel : nat) (s : Z) :
  (2 <= fuel)%nat -> 0 <= s < 2 ^ 32 ->
  0 <= ip_checksum_fold_loop fuel s <= 0xffff /\
  ip_checksum_fold_loop fuel s mod 0xffff = s mod 0xffff /\
  (0 < s -> 0 < ip_checksum_fold_loop fuel s).
Proof.
  intros Hfuel Hs. destruct fuel as [|[|fuel]]; [lia | lia | clear Hfuel].
  cbn [ip_checksum_fold_loop]. rewrite !fold_step_eq.
  set (s1 := s / 65536 + s mod 65536).
  set (s2 := s1 / 65536 + s1 mod 65536).
  assert (H1 : 0 <= s1 <= 0x1fffe /\ s1 = s - 65535 * (s / 65536)).
  { unfold s1. pose proof (Z.mod_pos_bound s 65536 ltac:(lia)).
    pose proof (Z.div_mod s 65536 ltac:(lia)).
    assert (0 <= s / 65536 < 65536) by
      (split; [apply Z.div_pos; lia | apply Z.div_lt_upper_bound; lia]).
    lia. }
  assert (H2 : 0 <= s2 <= 0xffff /\ s2 = s1 - 65535 * (s1 / 65536)).
  { unfold s2. pose proof (Z.mod_pos_bound s1 65536 ltac:(lia)).
    pose proof (Z.div_mod s1 65536 ltac:(lia)).
    assert (0 <= s1 / 65536 < 2) by
      (split; [apply Z.div_pos; lia | apply Z.div_lt_upper_bound; lia]).
    lia. }
  assert (Hmod : forall x k, (x - 65535 * k) mod 65535 = x mod 65535).
  { intros x k. replace (x - 65535 * k) with (x + (- k) * 65535) by lia.
    apply Z.mod_add. lia. }
  destruct (Z.gtb_spec s 65535) as [Hgt | Hle].
  - destruct (Z.gtb_spec s1 65535) as [Hgt1 | Hle1].
    + rewrite ip_checksum_fold_loop_small by lia.
      destruct H1 as [? E1], H2 as [? E2].
      split; [lia | split].
      * rewrite E2, Hmod, E1, Hmod. reflexivity.
      * intros _. assert (1 <= s1 / 65536) by (apply Z.div_le_lower_bound; lia).
        pose proof (Z.mod_pos_bound s1 65536 ltac:(lia)). unfold s2. lia.
    + destruct H1 as [? E1].
      split; [lia | split].
      * rewrite E1, Hmod. reflexivity.
      * intros _. assert (1 <= s / 65536) by (apply Z.div_le_lower_bound; lia).
        pose proof (Z.mod_pos_bound s 65536 ltac:(lia)). unfold s1. lia.
  - split; [lia | split; [reflexivity | lia]].
Qed.

Lemma ip_checksum_fold_spec (s : Z) :
  0 <= s < 2 ^ 32 ->
  0 <= ip_checksum_fold s <= 0xffff /\
  ip_checksum_fold s mod 0xffff = s mod 0xffff /\
  (0 < s -> 0 < ip_checksum_fold s).
Proof.
  intros Hs. unfold ip_checksum_fold, u16.
  destruct (ip_checksum_fold_loop_spec 32 s ltac:(lia) Hs) as (B & Hm & Hp).
  rewrite Z.mod_small by lia. auto.
Qed.

Lemma mod_eq_witness (x y : Z) :
  x mod 65535 = y mod 65535 <-> exists k, x = y + 65535 * k.
Proof.
  split.
  - intros Hxy. exists (x / 65535 - y / 65535).
    pose proof (Z.div_mod x 65535 ltac:(lia)).
    pose proof (Z.div_mod y 65535 ltac:(lia)). lia.
  - intros [k ->]. replace (y + 65535 * k) with (y + k * 65535) by lia.
    apply Z.mod_add. lia.
Qed.

Lemma u16_lnot (x : Z) : -65536 <= x < 0 \/ 0 <= x <= 65535 ->
  u16 (Z.lnot x) = if x <? 0 then - x - 1 else 65535 - x.
Proof.
  intros Hx. unfold u16, Z.lnot. rewrite <- Z.sub_1_r.
  destruct (Z.ltb_spec x 0).
  - apply Z.mod_small. lia.
  - replace (- x - 1) with (65535 - x + (-1) * 2 ^ 16) by lia.
    rewrite Z.mod_add by lia. apply Z.mod_small. lia.
Qed.

(** The end-around-borrow subtraction of [ip_checksum_adjust], on folded
    sums. *)
Lemma adjust_arith (c old new fs fo : Z) :
  0 <= c <= 0xffff -> 0 <= fs <= 0xffff -> 0 <= fo <= 0xffff ->
  fs mod 0xffff = (65535 - c + new) mod 0xffff ->
  fo mod 0xffff = old mod 0xffff ->
  forall d,
    d = (if fs >? fo then u16 (Z.lnot (fs - fo)) else u16 (Z.lnot (fs - fo - 1))) ->
    0 <= d <= 0xffff /\ (d + new) mod 0xffff = (c + old) mod 0xffff.
Proof.
  intros Hc Bs Bo Ms Mo d ->.
  apply mod_eq_witness in Ms as [k1 E1]. apply mod_eq_witness in Mo as [k2 E2].
  destruct (Z.gtb_spec fs fo) as [Hgt | Hle].
  - rewrite u16_lnot by lia. destruct (Z.ltb_spec (fs - fo) 0); [lia |].
    split; [lia |]. apply mod_eq_witness. exists (k2 - k1). lia.
  - rewrite u16_lnot by lia. destruct (Z.ltb_spec (fs - fo - 1) 0); [| lia].
    split; [lia |]. apply mod_eq_witness. exists (k2 - k1 - 1). lia.
Qed.

Lemma ip_checksum_adjust_spec (c old new : Z) :
  0 <= c <= 0xffff -> 0 <= old < 2 ^ 32 -> 0 <= new < 2 ^ 32 - 0x10000 ->
  0 <= ip_checksum_adjust c old new <= 0xffff /\
  (ip_checksum_adjust c old new + new) mod 0xffff = (c + old) mod 0xffff.
Proof.
  intros Hc Hold Hnew.
  assert (Harg : u32 (u16 (Z.lnot c) + new) = 65535 - c + new).
  { rewrite u16_lnot by lia. destruct (Z.ltb_spec c 0); [lia |].
    apply Z.mod_small. lia. }
  destruct (ip_checksum_fold_spec (u32 (u16 (Z.lnot c) + new))) as (Bs & Ms & _).
  { rewrite Harg. lia. }
  rewrite Harg in Ms at 2.
  destruct (ip_checksum_fold_spec old Hold) as (Bo & Mo & _).
  unfold ip_checksum_adjust. cbv zeta.
  eapply (adjust_arith c old new); [exact Hc | exact Bs | exact Bo | exact Ms | exact Mo |].
  reflexivity.
Qed.


Lemma valid_bytes_spec (n : nat) (a : list Z) :
  valid_bytes n a = true <-> length a = n /\ bytes a.
Proof.
  unfold valid_bytes, bytes. rewrite andb_true_iff, Nat.eqb_eq, forallb_forall, Forall_forall.
  split; intros [Hl Hb]; (split; [exact Hl |]); intros b Hin.
  - apply list_elem_of_In, Hb in Hin. unfold is_byteb in Hin.
    apply andb_true_iff in Hin as [?%Z.leb_le ?%Z.ltb_lt]. lia.
  - apply list_elem_of_In, Hb in Hin. unfold is_byteb.
    apply andb_true_iff. rewrite Z.leb_le, Z.ltb_lt. lia.
Qed.

Lemma word_sum_bounds (n : nat) : forall data,
  (length data <= n)%nat -> bytes data ->
  0 <= word_sum data <= 65535 * Z.of_nat (length data).
Proof.
  induction n as [|n IH]; intros data Hlen Hb.
  - destruct data; [simpl; lia | simpl in Hlen; lia].
  - destruct data as [|b0 [|b1 rest]]; [simpl; lia | |].
    + apply Forall_cons in Hb as [? _]. simpl. lia.
    + apply Forall_cons in Hb as [? Hb]. apply Forall_cons in Hb as [? Hb].
      specialize (IH rest ltac:(simpl in Hlen; lia) Hb).
      cbn [word_sum length]. lia.
Qed.

Lemma ip_checksum_words_le (n : nat) : forall data c,
  (length data <= n)%nat -> bytes data ->
  0 <= c -> c + word_sum data < 2 ^ 32 ->
  ip_checksum_words LittleEndian c data = c + word_sum data.
Proof.
  induction n as [|n IH]; intros data c Hlen Hb Hc Hsum.
  - destruct data; [simpl; lia | simpl in Hlen; lia].
  - destruct data as [|b0 [|b1 rest]]; [simpl; lia | |].
    + apply Forall_cons in Hb as [? _]. cbn [ip_checksum_words word_sum] in *.
      rewrite load16_le. unfold u32. rewrite Z.mod_small; lia.
    + apply Forall_cons in Hb as [? Hb]. apply Forall_cons in Hb as [? Hb].
      pose proof (word_sum_bounds (length rest) rest ltac:(lia) Hb).
      cbn [ip_checksum_words word_sum] in *.
      rewrite load16_le. unfold u32. rewrite Z.mod_small by lia.
      rewrite IH; [lia | simpl in Hlen; lia | exact Hb | lia | lia].
Qed.

Lemma ip_checksum_add_le (n : nat) (data : list Z) :
  valid_bytes n data = true -> (n <= 32)%nat ->
  ip_checksum_add LittleEndian 0 data n = word_sum data /\
  0 <= word_sum data <= 65535 * Z.of_nat n.
Proof.
  intros [Hlen Hb]%valid_bytes_spec Hn.
  pose proof (word_sum_bounds n data ltac:(lia) Hb) as Hw. rewrite Hlen in Hw.
  unfold ip_checksum_add. rewrite firstn_all2 by lia.
  rewrite (ip_checksum_words_le n) by lia || assumption. split; lia.
Qed.

(** Turn [H : valid_bytes n a = true] into [a = [b0; ...]] with a range
    fact for every byte. *)
Ltac explode_bytes H a :=
  let Hlen := fresh "Hlen" in
  let Hb := fresh "Hb" in
  pose proof H as Hb;
  apply valid_bytes_spec in Hb as [Hlen Hb];
  repeat (destruct a as [|? a]; [discriminate Hlen |];
          apply Forall_cons in Hb as [? Hb]; simpl in Hlen;
          try apply Nat.succ_inj in Hlen);
  destruct a; [clear Hlen Hb | discriminate Hlen].

Lemma u8_range (x : Z) : 0 <= u8 x < 256.
Proof. unfold u8. apply Z.mod_pos_bound. lia. Qed.

Lemma arc4random_buf_spec (E : externals) (n : nat) (w : world) :
  exists rnd,
    arc4random_buf E n w =
      Some (rnd, {| Global_Clatd_Config := Global_Clatd_Config w;
                    events := events w ++ [Arc4random_buf n];
                    dns_queries := dns_queries w;
                    random_taken := (random_taken w + n)%nat |}) /\
    valid_bytes n rnd = true.
Proof.
  eexists. split; [reflexivity |].
  apply valid_bytes_spec. split.
  - rewrite length_map, length_seq. reflexivity.
  - apply Forall_forall. intros b [j [-> _]]%list_elem_of_fmap. apply u8_range.
Qed.

Ltac bytes_solver :=
  apply valid_bytes_spec; split; [reflexivity | repeat constructor; lia].

(** The adjustment step of [gen_random_iid] on an address whose low half
    has been filled: bytes 11 and 12 are replaced and the three sums balance. *)
Lemma checksum_neutral_adjust (V A P : list Z) :
  valid_bytes 16 V = true -> valid_bytes 4 A = true -> valid_bytes 16 P = true ->
  forall delta,
    delta = ip_checksum_adjust
              (u16 (Z.shiftl (s6_addr V 11) 8 + s6_addr V 12))
              (ip_checksum_add LittleEndian 0 A 4)
              (u32 (ip_checksum_add LittleEndian 0 P 16 +
                    ip_checksum_add LittleEndian 0 V 16)) ->
    let V' := <[12%nat := Z.land delta 0xff]> (<[11%nat := u8 (Z.shiftr delta 8)]> V) in
    valid_bytes 16 V' = true /\
    ones_complement_eq (ip_checksum_add LittleEndian 0 A 4)
      (ip_checksum_add LittleEndian 0 P 16 + ip_checksum_add LittleEndian 0 V' 16).
Proof.
  intros HV HA HP delta Hdelta.
  destruct (ip_checksum_add_le 4 A HA ltac:(lia)) as [EA BA].
  destruct (ip_checksum_add_le 16 P HP ltac:(lia)) as [EP BP].
  destruct (ip_checksum_add_le 16 V HV ltac:(lia)) as [EV BV].
  rewrite EA, EP, EV in Hdelta. rewrite EA, EP.
  explode_bytes HV V.
  cbn [s6_addr nth] in Hdelta.
  rewrite Z.shiftl_mul_pow2 in Hdelta by lia.
  unfold u16, u32 in Hdelta. rewrite !Z.mod_small in Hdelta by lia.
  match type of Hdelta with
  | _ = ip_checksum_adjust ?c ?o ?n =>
      destruct (ip_checksum_adjust_spec c o n) as [Bd Md]; [lia | lia | lia |]
  end.
  rewrite <- Hdelta in Bd, Md. clear Hdelta.
  cbv zeta. cbn [insert list_insert].
  assert (Hhi : u8 (Z.shiftr delta 8) = delta / 256).
  { unfold u8. rewrite Z.shiftr_div_pow2 by lia. apply Z.mod_small.
    split; [apply Z.div_pos; lia | apply Z.div_lt_upper_bound; lia]. }
  assert (Hlo : Z.land delta 0xff = delta mod 256).
  { change 0xff with (Z.ones 8). rewrite Z.land_ones by lia. reflexivity. }
  rewrite Hhi, Hlo.
  pose proof (Z.div_mod delta 256 ltac:(lia)) as Hdm.
  pose proof (Z.mod_pos_bound delta 256 ltac:(lia)) as Hmb.
  assert (0 <= delta / 256 < 256) by
    (split; [apply Z.div_pos; lia | apply Z.div_lt_upper_bound; lia]).
  match goal with
  | |- valid_bytes 16 ?l = true /\ _ =>
      assert (HV' : valid_bytes 16 l = true) by bytes_solver;
      destruct (ip_checksum_add_le 16 l HV' ltac:(lia)) as [EV' _]
  end.
  split; [exact HV' |].
  rewrite EV'. unfold ones_complement_eq.
  apply mod_eq_witness in Md as [k Ek]. apply mod_eq_witness.
  exists (- k). cbn [word_sum] in *. lia.
Qed.

Lemma ones_complement_eq_fold (a p v : Z) :
  0 <= a < 2 ^ 32 -> 0 <= p < 2 ^ 32 -> 0 <= v < 2 ^ 32 ->
  ones_complement_eq a (p + v) ->
  ones_complement_eq (ip_checksum_fold a) (ip_checksum_fold p + ip_checksum_fold v).
Proof.
  unfold ones_complement_eq. intros Ha Hp Hv Heq.
  destruct (ip_checksum_fold_spec a Ha) as (_ & Ma & _).
  destruct (ip_checksum_fold_spec p Hp) as (_ & Mp & _).
  destruct (ip_checksum_fold_spec v Hv) as (_ & Mv & _).
  rewrite Ma, Heq.
  rewrite (Z.add_mod (ip_checksum_fold p) (ip_checksum_fold v)) by lia.
  rewrite Mp, Mv, <- Z.add_mod by lia. reflexivity.
Qed.

(** C1: on a little-endian machine, for every local IPv4 subnet [A], every
    PLAT prefix [P], every address [myaddr] and every outcome of the random
    source, [gen_random_iid] returns an address [V] with
    checksum(A) = checksum(P) + checksum(V) in 16-bit ones'-complement
    arithmetic, on the 32-bit accumulators and on the folded sums alike. *)
Theorem gen_random_iid_checksum_neutral (E : externals) (myaddr A P : list Z) (w : world) :
  valid_bytes 16 myaddr = true -> valid_bytes 4 A = true -> valid_bytes 16 P = true ->
  exists V w',
    gen_random_iid LittleEndian E myaddr A P w = Some (V, w') /\
    valid_bytes 16 V = true /\
    ones_complement_eq (ip_checksum_add LittleEndian 0 A 4)
      (ip_checksum_add LittleEndian 0 P 16 + ip_checksum_add LittleEndian 0 V 16) /\
    ones_complement_eq (ip_checksum_fold (ip_checksum_add LittleEndian 0 A 4))
      (ip_checksum_fold (ip_checksum_add LittleEndian 0 P 16) +
       ip_checksum_fold (ip_checksum_add LittleEndian 0 V 16)).
Proof.
  intros Hm HA HP.
  destruct (arc4random_buf_spec E 8 w) as (rnd & Hrnd & Hr).
  unfold gen_random_iid, bind. rewrite Hrnd. cbv zeta. unfold ret.
  assert (HV : valid_bytes 16 (store_bytes 8 rnd myaddr) = true).
  { explode_bytes Hm myaddr. explode_bytes Hr rnd. cbn [store_bytes insert list_insert].
    bytes_solver. }
  do 2 eexists. split; [reflexivity |].
  match goal with
  | |- valid_bytes 16 ?V' = true /\ _ =>
      destruct (checksum_neutral_adjust _ A P HV HA HP _ eq_refl) as [HV' Hsum];
      change (valid_bytes 16 V' = true) in HV';
      split; [exact HV' | split; [exact Hsum |]];
      destruct (ip_checksum_add_le 4 A HA ltac:(lia)) as [EA BA];
      destruct (ip_checksum_add_le 16 P HP ltac:(lia)) as [EP BP];
      destruct (ip_checksum_add_le 16 V' HV' ltac:(lia)) as [EV BV]
  end.
  apply ones_complement_eq_fold; [lia | lia | lia | exact Hsum].
Qed.

(** The property rests on the byte order: with big-endian loads bytes 11
    and 12 no longer weigh 256 and 1 in the sum, and the same code leaves
    the three sums unbalanced. *)
Remark gen_random_iid_big_endian (V : list Z) (w' : world) :
  gen_random_iid BigEndian (example_externals [] resolver_never)
    example_interface_ip [192; 0; 0; 4] nat64_prefix initial_world = Some (V, w') ->
  ~ ones_complement_eq (ip_checksum_add BigEndian 0 [192; 0; 0; 4] 4)
      (ip_checksum_add BigEndian 0 nat64_prefix 16 + ip_checksum_add BigEndian 0 V 16).
Proof. intros [= <- <-]. vm_compute. discriminate. Qed.

Lemma gen_random_iid_checksum_neutral_witness :
  valid_bytes 16 example_interface_ip = true /\
  valid_bytes 4 [192; 0; 0; 4] = true /\
  valid_bytes 16 nat64_prefix = true /\
  exists V w',
    gen_random_iid LittleEndian (example_externals [] resolver_never)
      example_interface_ip [192; 0; 0; 4] nat64_prefix initial_world = Some (V, w') /\
    valid_bytes 16 V = true /\
    ones_complement_eq (ip_checksum_add LittleEndian 0 [192; 0; 0; 4] 4)
      (ip_checksum_add LittleEndian 0 nat64_prefix 16 + ip_checksum_add LittleEndian 0 V 16) /\
    ones_complement_eq (ip_checksum_fold (ip_checksum_add LittleEndian 0 [192; 0; 0; 4] 4))
      (ip_checksum_fold (ip_checksum_add LittleEndian 0 nat64_prefix 16) +
       ip_checksum_fold (ip_checksum_add LittleEndian 0 V 16)).
Proof.
  split; [reflexivity | split; [reflexivity | split; [reflexivity |]]].
  apply (gen_random_iid_checksum_neutral (example_externals [] resolver_never)
           example_interface_ip [192; 0; 0; 4] nat64_prefix initial_world);
    reflexivity.
Defined.

(** ** The local address synthesizer *)


Lemma word32_bytes (b0 b1 b2 b3 : Z) :
  0 <= b0 < 256 -> 0 <= b1 < 256 -> 0 <= b2 < 256 -> 0 <= b3 < 256 ->
  let v := b0 + b1 * 2 ^ 8 + b2 * 2 ^ 16 + b3 * 2 ^ 24 in
  u8 (Z.shiftr v (8 * 0)) = b0 /\ u8 (Z.shiftr v (8 * 1)) = b1 /\
  u8 (Z.shiftr v (8 * 2)) = b2 /\ u8 (Z.shiftr v (8 * 3)) = b3.
Proof.
  intros H0 H1 H2 H3 v. subst v. unfold u8.
  rewrite !Z.shiftr_div_pow2 by lia.
  change (2 ^ (8 * 0)) with 1. change (2 ^ (8 * 1)) with 256.
  change (2 ^ (8 * 2)) with 65536. change (2 ^ (8 * 3)) with 16777216.
  change (2 ^ 8) with 256. change (2 ^ 16) with 65536. change (2 ^ 24) with 16777216.
  repeat split; Z.div_mod_to_equations; lia.
Qed.

(** C5: when [ipv6_host_id] is not the unspecified address,
    [config_generate_local_ipv6_subnet] returns the high 64 bits of the
    interface address followed by the low 64 bits of [ipv6_host_id], copied
    verbatim, and leaves the world as it was: no random bytes are drawn, no
    event is emitted and no byte is adjusted. *)
Theorem config_generate_local_ipv6_subnet_host_id
    (bo : byte_order) (E : externals) (interface_ip : list Z) (w : world) :
  valid_bytes 16 interface_ip = true ->
  valid_bytes 16 (ipv6_host_id (Global_Clatd_Config w)) = true ->
  IN6_IS_ADDR_UNSPECIFIED (ipv6_host_id (Global_Clatd_Config w)) = false ->
  config_generate_local_ipv6_subnet bo E interface_ip w =
    Some (take 8 interface_ip ++ drop 8 (ipv6_host_id (Global_Clatd_Config w)), w).
Proof.
  intros Hip Hid Hspec.
  unfold config_generate_local_ipv6_subnet, bind, get_config. rewrite Hspec.
  unfold ret. do 2 f_equal.
  remember (ipv6_host_id (Global_Clatd_Config w)) as host eqn:Hhost. clear Hhost Hspec.
  explode_bytes Hip interface_ip. explode_bytes Hid host.
  cbn [fold_left].
  destruct bo; unfold set_s6_addr32, s6_addr32, s6_addr;
    cbn [nth Nat.mul Nat.add];
    repeat match goal with
    | |- context [u8 (Z.shiftr (?b0 + ?b1 * 2 ^ 8 + ?b2 * 2 ^ 16 + ?b3 * 2 ^ 24) _)] =>
        let Hw := fresh "Hw" in
        pose proof (word32_bytes b0 b1 b2 b3 ltac:(lia) ltac:(lia) ltac:(lia) ltac:(lia)) as Hw;
        cbv zeta in Hw; destruct Hw as (-> & -> & -> & ->)
    end; reflexivity.
Qed.


(** ** The DNS64 discovery loop *)

Lemma backoff_sequence_step (k : nat) :
  (if backoff_sequence k * 2 >=? 120 then 120 else backoff_sequence k * 2)
  = backoff_sequence (S k).
Proof.
  unfold backoff_sequence. rewrite Nat2Z.inj_succ, Z.pow_succ_r by lia.
  assert (0 < 2 ^ Z.of_nat k) by (apply Z.pow_pos_nonneg; lia).
  destruct (Z.geb_spec (Z.min (2 ^ Z.of_nat k) 120 * 2) 120); lia.
Qed.

Lemma backoff_sequence_bounds (k : nat) :
  1 <= backoff_sequence k <= backoff_sequence (S k) /\ backoff_sequence (S k) <= 120.
Proof.
  unfold backoff_sequence. rewrite Nat2Z.inj_succ, Z.pow_succ_r by lia.
  assert (0 < 2 ^ Z.of_nat k) by (apply Z.pow_pos_nonneg; lia). lia.
Qed.

Lemma backoff_sequence_cap (k : nat) : (7 <= k)%nat -> backoff_sequence k = 120.
Proof.
  intros Hk. unfold backoff_sequence.
  assert (2 ^ 7 <= 2 ^ Z.of_nat k) by (apply Z.pow_le_mono_r; lia).
  change (2 ^ 7) with 128 in *. lia.
Qed.

Section Dns64.
Context (E : externals) (net_id : Z).

Lemma dns64_iteration_failure (b : Z) (w : world) :
  resolver_status E net_id w 0 <= 0 ->
  dns64_iteration E net_id b w =
    Some (Looping (if b * 2 >=? 120 then 120 else b * 2),
          {| Global_Clatd_Config := Global_Clatd_Config w;
             events := events w ++
               [Plat_prefix (plat_from_dns64_hostname (Global_Clatd_Config w)) net_id;
                Logmsg ANDROID_LOG_WARN
                  "dns64_detection -- error, sleeping for %d seconds" [ArgD b];
                Sleep b];
             dns_queries := S (dns_queries w);
             random_taken := random_taken w |}).
Proof.
  unfold resolver_status. rewrite Nat.add_0_r. intros Hst.
  unfold dns64_iteration, bind, get_config, call_plat_prefix.
  destruct (plat_prefix E _ net_id (dns_queries w)) as [status tmp_ptr].
  simpl in Hst. destruct (Z.gtb_spec status 0); [lia |].
  unfold logmsg, emit, ret. cbn. rewrite <- !app_assoc. reflexivity.
Qed.

Lemma dns64_iteration_success (b : Z) (w : world) :
  0 < resolver_status E net_id w 0 ->
  dns64_iteration E net_id b w =
    Some (Returned,
          {| Global_Clatd_Config :=
               store addr_plat_subnet (resolver_prefix E net_id w 0) (Global_Clatd_Config w);
             events := events w ++
               [Plat_prefix (plat_from_dns64_hostname (Global_Clatd_Config w)) net_id];
             dns_queries := S (dns_queries w);
             random_taken := random_taken w |}).
Proof.
  unfold resolver_status, resolver_prefix. rewrite Nat.add_0_r. intros Hst.
  unfold dns64_iteration, bind, get_config, call_plat_prefix.
  destruct (plat_prefix E _ net_id (dns_queries w)) as [status tmp_ptr].
  simpl in Hst. destruct (Z.gtb_spec status 0); [| lia].
  reflexivity.
Qed.

Lemma sleeps_app (l1 l2 : list event) : sleeps (l1 ++ l2) = sleeps l1 ++ sleeps l2.
Proof. unfold sleeps. apply omap_app. Qed.

(** [n] failed queries in a row: the loop is still running, has slept the
    next [n] members of the backoff sequence and has left the configuration
    alone. *)
Lemma dns64_trips_failures (n : nat) : forall (j : nat) (w : world),
  (forall k, (k < n)%nat -> resolver_status E net_id w k <= 0) ->
  exists w',
    dns64_trips E n net_id (backoff_sequence j) w =
      Some (Looping (backoff_sequence (j + n)), w') /\
    Global_Clatd_Config w' = Global_Clatd_Config w /\
    dns_queries w' = (dns_queries w + n)%nat /\
    random_taken w' = random_taken w /\
    sleeps (events w') = sleeps (events w) ++ map backoff_sequence (seq j n).
Proof.
  induction n as [|n IH]; intros j w Hfail.
  - exists w. cbn. rewrite Nat.add_0_r, app_nil_r. unfold ret. auto with lia.
  - cbn [dns64_trips]. unfold bind at 1.
    rewrite dns64_iteration_failure by (apply Hfail; lia).
    rewrite backoff_sequence_step.
    match goal with |- context [dns64_trips E n net_id _ ?w1] => set (w1' := w1) end.
    destruct (IH (S j) w1') as (w' & Hrun & Hcfg & Hq & Hr & Hs).
    { intros k Hk. specialize (Hfail (S k) ltac:(lia)).
      unfold resolver_status in *. cbn [w1' Global_Clatd_Config dns_queries].
      replace (S (dns_queries w) + k)%nat with (dns_queries w + S k)%nat by lia.
      exact Hfail. }
    exists w'. rewrite Hrun, Hcfg, Hq, Hr, Hs.
    replace (S j + n)%nat with (j + S n)%nat by lia.
    cbn [w1' Global_Clatd_Config dns_queries random_taken events].
    rewrite sleeps_app. cbn [sleeps omap seq map]. 
    rewrite <- app_assoc.
    repeat split; try reflexivity; lia.
Qed.

Lemma dns64_trips_app (n m : nat) : forall (b b' : Z) (w w' : world),
  dns64_trips E n net_id b w = Some (Looping b', w') ->
  dns64_trips E (n + m) net_id b w = dns64_trips E m net_id b' w'.
Proof.
  induction n as [|n IH]; intros b b' w w' Hrun.
  - cbn in Hrun. unfold ret in Hrun. injection Hrun as <- <-. reflexivity.
  - cbn [dns64_trips Nat.add] in *. unfold bind in *.
    destruct (dns64_iteration E net_id b w) as [[[b1|] w1]|]; try discriminate.
    eauto.
Qed.

Lemma first_success (w : world) (n : nat) :
  (forall k, (k < n)%nat -> resolver_status E net_id w k <= 0) \/
  (exists k, (k < n)%nat /\ 0 < resolver_status E net_id w k /\
             forall i, (i < k)%nat -> resolver_status E net_id w i <= 0).
Proof.
  induction n as [|n [IH | IH]].
  - left. lia.
  - destruct (Z_lt_le_dec 0 (resolver_status E net_id w n)) as [Hs | Hf].
    + right. exists n. auto with lia.
    + left. intros k Hk. destruct (Nat.eq_dec k n) as [-> | ?]; [exact Hf | apply IH; lia].
  - right. destruct IH as (k & ? & ? & ?). exists k. auto with lia.
Qed.

(** The loop is left in the trip whose query succeeds, with the prefix of
    that query stored. *)
Lemma dns64_trips_success (k m : nat) (w : world) :
  (forall i, (i < k)%nat -> resolver_status E net_id w i <= 0) ->
  0 < resolver_status E net_id w k ->
  exists w',
    dns64_trips E (k + S m) net_id 1 w = Some (Returned, w') /\
    Global_Clatd_Config w' =
      store addr_plat_subnet (resolver_prefix E net_id w k) (Global_Clatd_Config w) /\
    dns_queries w' = S (dns_queries w + k) /\
    sleeps (events w') = sleeps (events w) ++ map backoff_sequence (seq 0 k).
Proof.
  intros Hfail Hok.
  destruct (dns64_trips_failures k 0 w Hfail) as (w1 & Hrun & Hcfg & Hq & Hr & Hs).
  rewrite (dns64_trips_app _ _ _ _ _ _ Hrun).
  cbn [dns64_trips]. unfold bind.
  rewrite dns64_iteration_success.
  - eexists. split; [reflexivity |]. cbn.
    unfold resolver_prefix. rewrite Hcfg, Hq, Nat.add_0_r, sleeps_app, Hs.
    cbn. rewrite app_nil_r. auto.
  - unfold resolver_status in *. rewrite Hcfg, Hq, Nat.add_0_r. exact Hok.
Qed.

(** C2: while the resolver keeps failing, [dns64_detection] keeps running:
    after [n] failed queries its run stands in a world [w'] in which the
    sleeps performed are the first [n] members of
    1, 2, 4, 8, 16, 32, 64, 120, 120, 120, ..., and it goes on from there
    with the next member as [backoff_sleep]; if the next query succeeds it
    returns, having slept exactly those [n] times.  The sequence never
    decreases and never exceeds 120. *)
Theorem dns64_detection_backoff_sequence (w : world) (n : nat) :
  (forall k, (k < n)%nat -> resolver_status E net_id w k <= 0) ->
  (exists w',
     sleeps (events w') = sleeps (events w) ++ map backoff_sequence (seq 0 n) /\
     (forall fuel,
        dns64_detection E (n + fuel) net_id w =
          (st <- dns64_trips E fuel net_id (backoff_sequence n) ;;
           match st with
           | Returned => ret tt
           | Looping _ => fun _ => None
           end) w') /\
     (0 < resolver_status E net_id w n ->
      forall fuel, (n < fuel)%nat ->
      exists w'',
        dns64_detection E fuel net_id w = Some (tt, w'') /\
        sleeps (events w'') = sleeps (events w) ++ map backoff_sequence (seq 0 n))) /\
  map backoff_sequence (seq 0 10) = [1; 2; 4; 8; 16; 32; 64; 120; 120; 120] /\
  (forall k, (7 <= k)%nat -> backoff_sequence k = 120) /\
  (forall k, backoff_sequence k <= backoff_sequence (S k) <= 120).
Proof.
  intros Hfail. split; [| split; [reflexivity | split]].
  - destruct (dns64_trips_failures n 0 w Hfail) as (w' & Hrun & _ & _ & _ & Hs).
    exists w'. split; [exact Hs |]. split.
    + intros fuel. unfold dns64_detection, bind.
      rewrite (dns64_trips_app n fuel 1 _ w w' Hrun). reflexivity.
    + intros Hok fuel Hfuel.
      destruct (dns64_trips_success n (fuel - S n) w Hfail Hok) as (w'' & Hrun2 & _ & _ & Hs2).
      exists w''. split; [| exact Hs2].
      unfold dns64_detection, bind.
      replace fuel with (n + S (fuel - S n))%nat by lia. rewrite Hrun2. reflexivity.
  - apply backoff_sequence_cap.
  - intros k. pose proof (backoff_sequence_bounds k). lia.
Qed.

(** C6: [dns64_detection] returns only through a successful query, and then
    [plat_subnet] holds the prefix that query delivered; if no query ever
    succeeds it does not return, whatever the fuel; if the first success is
    query [k], it returns as soon as the fuel exceeds [k]. *)
Theorem dns64_detection_no_failure_exit (w : world) :
  (forall fuel w',
     dns64_detection E fuel net_id w = Some (tt, w') ->
     exists k, (k < fuel)%nat /\
       0 < resolver_status E net_id w k /\
       (forall i, (i < k)%nat -> resolver_status E net_id w i <= 0) /\
       plat_subnet (Global_Clatd_Config w') = resolver_prefix E net_id w k /\
       dns_queries w' = S (dns_queries w + k)) /\
  ((forall k, resolver_status E net_id w k <= 0) ->
   forall fuel, dns64_detection E fuel net_id w = None) /\
  (forall k,
     0 < resolver_status E net_id w k ->
     (forall i, (i < k)%nat -> resolver_status E net_id w i <= 0) ->
     forall fuel, (k < fuel)%nat ->
     exists w', dns64_detection E fuel net_id w = Some (tt, w') /\
       plat_subnet (Global_Clatd_Config w') = resolver_prefix E net_id w k).
Proof.
  assert (Hnever : forall fuel,
    (forall k, (k < fuel)%nat -> resolver_status E net_id w k <= 0) ->
    dns64_detection E fuel net_id w = None).
  { intros fuel Hfail.
    destruct (dns64_trips_failures fuel 0 w Hfail) as (w1 & Hrun & _).
    unfold dns64_detection, bind. change 1 with (backoff_sequence 0).
    rewrite Hrun. reflexivity. }
  assert (Hleave : forall k fuel,
    0 < resolver_status E net_id w k ->
    (forall i, (i < k)%nat -> resolver_status E net_id w i <= 0) ->
    (k < fuel)%nat ->
    exists w', dns64_detection E fuel net_id w = Some (tt, w') /\
      plat_subnet (Global_Clatd_Config w') = resolver_prefix E net_id w k /\
      dns_queries w' = S (dns_queries w + k)).
  { intros k fuel Hok Hfail Hk.
    destruct (dns64_trips_success k (fuel - S k) w Hfail Hok) as (w' & Hrun & Hcfg & Hq & _).
    replace (k + S (fuel - S k))%nat with fuel in Hrun by lia.
    exists w'. unfold dns64_detection, bind. rewrite Hrun, Hcfg. auto. }
  split; [| split].
  - intros fuel w' Hrun.
    destruct (first_success w fuel) as [Hfail | (k & Hk & Hok & Hfail)].
    + rewrite (Hnever fuel Hfail) in Hrun. discriminate.
    + destruct (Hleave k fuel Hok Hfail Hk) as (w1 & Hrun1 & Hp & Hq).
      rewrite Hrun1 in Hrun. injection Hrun as <-.
      exists k. auto.
  - intros Hfail fuel. apply Hnever. auto.
  - intros k Hok Hfail fuel Hk.
    destruct (Hleave k fuel Hok Hfail Hk) as (w' & ? & ? & _). eauto.
Qed.

End Dns64.

(** ** Parsing 16-bit items *)

Lemma append_assoc (a b c : string) : (a +:+ b) +:+ c = a +:+ b +:+ c.
Proof. induction a as [|x a IH]; simpl; congruence. Qed.

Lemma append_nil_r (a : string) : a +:+ "" = a.
Proof. induction a as [|x a IH]; simpl; congruence. Qed.

Lemma length_append (a b : string) :
  String.length (a +:+ b) = (String.length a + String.length b)%nat.
Proof. induction a as [|x a IH]; simpl; congruence. Qed.

Lemma isdigit_not_space (c : ascii) : isdigit c = true -> isspace c = false.
Proof.
  unfold isdigit, isspace. intros [H1 H2]%andb_true_iff.
  apply Nat.leb_le in H1, H2.
  apply orb_false_iff. split.
  - apply Nat.eqb_neq. lia.
  - apply andb_false_iff. right. apply Nat.leb_gt. lia.
Qed.

Lemma skip_spaces_append (ws t : string) :
  string_forall isspace ws = true ->
  match t with EmptyString => True | String c _ => isspace c = false end ->
  skip_spaces (ws +:+ t) = t.
Proof.
  intros Hws Ht. induction ws as [|c ws IH]; cbn in *.
  - destruct t as [|c t]; [reflexivity |]. cbn. rewrite Ht. reflexivity.
  - apply andb_true_iff in Hws as [-> Hws]. auto.
Qed.

Lemma skip_spaces_split (s : string) :
  exists ws, s = ws +:+ skip_spaces s /\ string_forall isspace ws = true.
Proof.
  induction s as [|c s (ws & Hs & Hws)]; cbn.
  - exists "". auto.
  - destruct (isspace c) eqn:Hc.
    + exists (String c ws). cbn. rewrite Hc, Hws, <- Hs. auto.
    + exists "". auto.
Qed.

Lemma scan_digits_append (digits t : string) : forall acc,
  string_forall isdigit digits = true -> no_digit_head t ->
  scan_digits acc (digits +:+ t) =
    (acc * 10 ^ Z.of_nat (String.length digits) + decimal_value digits, t).
Proof.
  induction digits as [|c digits IH]; intros acc Hd Ht.
  - cbn. destruct t as [|c t]; cbn in *; [| rewrite Ht]; f_equal; lia.
  - cbn [string_forall] in Hd. apply andb_true_iff in Hd as [Hc Hd].
    cbn [String.append scan_digits]. rewrite Hc, IH by assumption.
    cbn [decimal_value String.length]. rewrite Nat2Z.inj_succ, Z.pow_succ_r by lia.
    f_equal. lia.
Qed.

Lemma scan_digits_split (s : string) : forall acc,
  exists digits,
    s = digits +:+ snd (scan_digits acc s) /\
    string_forall isdigit digits = true /\
    no_digit_head (snd (scan_digits acc s)).
Proof.
  induction s as [|c s IH]; intros acc; cbn.
  - exists "". cbn. auto.
  - destruct (isdigit c) eqn:Hc.
    + destruct (IH (acc * 10 + digit_value c)) as (digits & Hs & Hd & Hn).
      exists (String c digits). cbn. rewrite Hc, Hd, <- Hs. auto.
    + exists "". cbn. auto.
Qed.

(** Digits at the front are consumed, whatever follows. *)
Lemma scan_digits_consumes (digits t : string) : forall acc,
  string_forall isdigit digits = true ->
  (String.length (snd (scan_digits acc (digits +:+ t))) <= String.length t)%nat.
Proof.
  induction digits as [|c digits IH]; intros acc Hd; cbn in *.
  - clear Hd. revert acc. induction t as [|c t IHt]; intros acc; cbn; [lia |].
    destruct (isdigit c); cbn; [specialize (IHt (acc * 10 + digit_value c)); lia | lia].
  - apply andb_true_iff in Hd as [-> Hd]. auto.
Qed.

Lemma scan_sign_other (c : ascii) (s : string) :
  c <> "-"%char -> c <> "+"%char -> scan_sign (String c s) = (false, String c s).
Proof.
  intros Hm Hp.
  destruct c as [[] [] [] [] [] [] [] []]; try reflexivity; congruence.
Qed.

Lemma isdigit_not_sign (c : ascii) :
  isdigit c = true -> c <> "-"%char /\ c <> "+"%char.
Proof. intros Hd. split; intros ->; discriminate Hd. Qed.

Lemma scan_sign_literal (sign digits t : string) :
  (sign = "" \/ sign = "+" \/ sign = "-") ->
  digits <> "" -> string_forall isdigit digits = true ->
  scan_sign (sign +:+ digits +:+ t) = (String.eqb sign "-", digits +:+ t) /\
  match sign +:+ digits +:+ t with
  | EmptyString => True
  | String c _ => isspace c = false
  end.
Proof.
  intros Hsign Hne Hd.
  destruct digits as [|d digits]; [congruence |]. cbn in Hd.
  apply andb_true_iff in Hd as [Hd _].
  destruct Hsign as [-> | [-> | ->]]; cbn; [| split; reflexivity ..].
  split; [| apply isdigit_not_space; exact Hd].
  destruct (isdigit_not_sign d Hd). apply scan_sign_other; assumption.
Qed.

Lemma scan_sign_split (s : string) :
  exists sign,
    s = sign +:+ snd (scan_sign s) /\
    (sign = "" \/ sign = "+" \/ sign = "-") /\
    fst (scan_sign s) = String.eqb sign "-" /\
    (sign = "" -> match s with
                  | String c _ => c <> "-"%char /\ c <> "+"%char
                  | EmptyString => True
                  end).
Proof.
  destruct s as [|c s]; [exists ""; cbn; auto |].
  destruct (Ascii.eqb_spec c "-") as [-> | Hm]; [exists "-"; cbn; intuition congruence |].
  destruct (Ascii.eqb_spec c "+") as [-> | Hp]; [exists "+"; cbn; intuition congruence |].
  exists "". rewrite scan_sign_other by assumption. cbn. auto.
Qed.

(** What [strtol] does on a decimal literal followed by anything that does
    not continue its digits. *)
Lemma strtol_literal (dm : data_model) (p rest : string) (v : Z) :
  decimal_literal p v -> no_digit_head rest ->
  strtol dm (p +:+ rest) =
    if v >? LONG_MAX dm
    then {| strtol_value := LONG_MAX dm; strtol_endptr := String.length p;
            strtol_errno := ERANGE |}
    else if v <? LONG_MIN dm
    then {| strtol_value := LONG_MIN dm; strtol_endptr := String.length p;
            strtol_errno := ERANGE |}
    else {| strtol_value := v; strtol_endptr := String.length p; strtol_errno := 0 |}.
Proof.
  intros (ws & sign & digits & -> & Hws & Hsign & Hne & Hd & ->) Hrest.
  unfold strtol. rewrite !append_assoc.
  destruct (scan_sign_literal sign digits rest Hsign Hne Hd) as [Hscan Hhead].
  rewrite skip_spaces_append by assumption. rewrite Hscan.
  rewrite scan_digits_append by assumption.
  assert (Hlen : (0 < String.length digits)%nat)
    by (destruct digits; [congruence | cbn; lia]).
  rewrite !length_append.
  destruct (Nat.eqb_spec (String.length rest) (String.length digits + String.length rest));
    [lia |].
  replace (String.length ws + (String.length sign + (String.length digits + String.length rest))
           - String.length rest)%nat
    with (String.length ws + (String.length sign + String.length digits))%nat by lia.
  rewrite Z.mul_0_l, Z.add_0_l. reflexivity.
Qed.

(** Either nothing in front of [s] is a decimal literal and [strtol]
    converts nothing, or [s] is a literal followed by a rest that does not
    continue it. *)
Lemma strtol_lex (dm : data_model) (s : string) :
  (no_leading_integer s /\
   strtol dm s = {| strtol_value := 0; strtol_endptr := 0; strtol_errno := 0 |}) \/
  (exists p v rest, s = p +:+ rest /\ decimal_literal p v /\ no_digit_head rest).
Proof.
  destruct (skip_spaces_split s) as (ws & Hs & Hws).
  destruct (scan_sign_split (skip_spaces s)) as (sign & Hs1 & Hsign & Hneg & Hhead).
  destruct (scan_digits_split (snd (scan_sign (skip_spaces s))) 0) as (digits & Hbody & Hd & Hrest).
  destruct digits as [|d digits].
  - left. split.
    + intros p r v Hp (ws' & sign' & digits' & -> & Hws' & Hsign' & Hne' & Hd' & _).
      destruct (scan_sign_literal sign' digits' r Hsign' Hne' Hd') as [Hscan' Hhead'].
      assert (Hskip : skip_spaces s = sign' +:+ digits' +:+ r).
      { rewrite Hp, !append_assoc. apply skip_spaces_append; assumption. }
      rewrite Hskip, Hscan' in Hbody, Hrest. cbn [snd] in Hbody, Hrest.
      pose proof (scan_digits_consumes digits' r 0 Hd') as Hlen.
      cbn [String.append] in Hbody. apply (f_equal String.length) in Hbody.
      rewrite length_append in Hbody.
      destruct digits'; [congruence | cbn [String.length] in Hbody; lia].
    + unfold strtol. destruct (scan_sign (skip_spaces s)) as [neg body].
      cbn [snd] in Hbody. destruct (scan_digits 0 body) as [acc rest].
      cbn [snd String.append] in Hbody. rewrite <- Hbody, Nat.eqb_refl. reflexivity.
  - right.
    exists (ws +:+ sign +:+ String d digits),
           (if String.eqb sign "-" then - decimal_value (String d digits)
            else decimal_value (String d digits)),
           (snd (scan_digits 0 (snd (scan_sign (skip_spaces s))))).
    split; [| split].
    + rewrite !append_assoc, <- Hbody, <- Hs1. exact Hs.
    + exists ws, sign, (String d digits). repeat split; auto; discriminate.
    + exact Hrest.
Qed.

Lemma decimal_literal_length (p : string) (v : Z) :
  decimal_literal p v -> (0 < String.length p)%nat.
Proof.
  intros (ws & sign & digits & -> & _ & _ & Hne & _). rewrite !length_append.
  destruct digits; [congruence | cbn; lia].
Qed.


Section Int16.
Context (dm : data_model) (root : list (string * string)) (item_name : string)
        (defaultvar : option string) (ret_val_ptr : ptr Z).

Lemma config_item_int16_t_missing (w : world) :
  config_str root item_name defaultvar = None ->
  config_item_int16_t dm root item_name defaultvar ret_val_ptr w =
    Some (None, with_events w [Config_str item_name;
            Logmsg ANDROID_LOG_FATAL "%s config item needed" [ArgS item_name]]).
Proof.
  intros H. unfold config_item_int16_t, lookup_item, bind, logmsg, emit, ret, with_events.
  cbn. rewrite H. cbn. rewrite <- app_assoc. reflexivity.
Qed.

Lemma config_item_int16_t_accept (w : world) (s : string) :
  config_str root item_name defaultvar = Some s ->
  strtol_errno (strtol dm s) <= 0 ->
  strtol_endptr (strtol dm s) <> 0%nat ->
  strtol_endptr (strtol dm s) = String.length s ->
  INT16_MIN <= strtol_value (strtol dm s) <= INT16_MAX ->
  config_item_int16_t dm root item_name defaultvar ret_val_ptr w =
    Some (Some ret_val_ptr,
          with_events
            (with_config w (store ret_val_ptr (strtol_value (strtol dm s))
                              (Global_Clatd_Config w)))
            [Config_str item_name]).
Proof.
  intros Hs Herr Hend0 Hend Hrange.
  unfold config_item_int16_t, lookup_item, bind, emit, ret. cbn. rewrite Hs. cbv zeta.
  destruct (Z.gtb_spec (strtol_errno (strtol dm s)) 0); [lia |].
  destruct (Nat.eqb_spec (strtol_endptr (strtol dm s)) 0); [lia |].
  destruct (Nat.eqb_spec (String.length s) 0); [lia |].
  rewrite Hend, Nat.eqb_refl. cbn [orb negb].
  destruct (Z.gtb_spec (strtol_value (strtol dm s)) INT16_MAX); [lia |].
  destruct (Z.ltb_spec (strtol_value (strtol dm s)) INT16_MIN); [lia |].
  reflexivity.
Qed.

Lemma config_item_int16_t_reject (w : world) (s : string) :
  config_str root item_name defaultvar = Some s ->
  0 < strtol_errno (strtol dm s) \/
  strtol_endptr (strtol dm s) = 0%nat \/
  strtol_endptr (strtol dm s) <> String.length s \/
  strtol_value (strtol dm s) < INT16_MIN \/ INT16_MAX < strtol_value (strtol dm s) ->
  exists e, is_fatal_log e /\
    config_item_int16_t dm root item_name defaultvar ret_val_ptr w =
      Some (None, with_events w [Config_str item_name; e]).
Proof.
  intros Hs Hbad.
  unfold config_item_int16_t, lookup_item, bind, logmsg, emit, ret, with_events.
  cbn. rewrite Hs. cbv zeta.
  destruct (Z.gtb_spec (strtol_errno (strtol dm s)) 0).
  { eexists. split; [do 2 eexists; reflexivity |]. cbn. rewrite <- app_assoc. reflexivity. }
  destruct (Nat.eqb_spec (strtol_endptr (strtol dm s)) 0).
  { eexists. split; [do 2 eexists; reflexivity |]. cbn. rewrite <- app_assoc. reflexivity. }
  destruct (Nat.eqb_spec (String.length s) 0).
  { eexists. split; [do 2 eexists; reflexivity |]. cbn. rewrite <- app_assoc. reflexivity. }
  cbn [orb].
  destruct (Nat.eqb_spec (strtol_endptr (strtol dm s)) (String.length s)).
  2: { eexists. split; [do 2 eexists; reflexivity |]. cbn. rewrite <- app_assoc. reflexivity. }
  cbn [negb].
  destruct (Z.gtb_spec (strtol_value (strtol dm s)) INT16_MAX).
  { eexists. split; [do 2 eexists; reflexivity |]. cbn. rewrite <- app_assoc. reflexivity. }
  destruct (Z.ltb_spec (strtol_value (strtol dm s)) INT16_MIN).
  { eexists. split; [do 2 eexists; reflexivity |]. cbn. rewrite <- app_assoc. reflexivity. }
  exfalso. lia.
Qed.

End Int16.

(** The split of a string into a decimal literal and a rest that does not
    continue it is unique. *)
Lemma literal_prefix_unique (s p p' rest rest' : string) (v v' : Z) :
  s = p +:+ rest -> s = p' +:+ rest' ->
  decimal_literal p v -> decimal_literal p' v' ->
  no_digit_head rest -> no_digit_head rest' ->
  v = v' /\ rest = rest'.
Proof.
  intros Hs Hs' (ws & sign & digits & -> & Hws & Hsign & Hne & Hd & ->)
         (ws' & sign' & digits' & -> & Hws' & Hsign' & Hne' & Hd' & ->) Hr Hr'.
  destruct (scan_sign_literal sign digits rest Hsign Hne Hd) as [Hscan Hhead].
  destruct (scan_sign_literal sign' digits' rest' Hsign' Hne' Hd') as [Hscan' Hhead'].
  assert (Hskip : skip_spaces s = sign +:+ digits +:+ rest).
  { rewrite Hs, !append_assoc. apply skip_spaces_append; assumption. }
  assert (Hskip' : skip_spaces s = sign' +:+ digits' +:+ rest').
  { rewrite Hs', !append_assoc. apply skip_spaces_append; assumption. }
  rewrite Hskip' in Hskip. rewrite Hskip, Hscan in Hscan'.
  injection Hscan' as Hneg Hbody.
  pose proof (scan_digits_append digits rest 0 Hd Hr) as H1.
  pose proof (scan_digits_append digits' rest' 0 Hd' Hr') as H2.
  rewrite Hbody, H2 in H1. injection H1 as Hval Hrest.
  assert (Hlen : String.length digits = String.length digits').
  { apply (f_equal String.length) in Hbody. rewrite !length_append in Hbody.
    rewrite Hrest in Hbody. lia. }
  rewrite Hlen in Hval. rewrite Hneg.
  split; [destruct (String.eqb sign' "-"); lia | congruence].
Qed.

Lemma decimal_literal_unique (s : string) (v v' : Z) :
  decimal_literal s v -> decimal_literal s v' -> v = v'.
Proof.
  intros Hv Hv'.
  apply (literal_prefix_unique s s s "" "" v v'); auto using append_nil_r, eq_sym.
  all: try exact I; symmetry; apply append_nil_r.
Qed.

Lemma int16_in_long (dm : data_model) (v : Z) :
  INT16_MIN <= v <= INT16_MAX -> LONG_MIN dm <= v <= LONG_MAX dm.
Proof. unfold INT16_MIN, INT16_MAX, LONG_MIN, LONG_MAX. destruct dm; lia. Qed.

Lemma strtol_literal_facts (dm : data_model) (p rest : string) (v : Z) :
  decimal_literal p v -> no_digit_head rest ->
  strtol_endptr (strtol dm (p +:+ rest)) = String.length p /\
  (LONG_MIN dm <= v <= LONG_MAX dm ->
   strtol_errno (strtol dm (p +:+ rest)) = 0 /\
   strtol_value (strtol dm (p +:+ rest)) = v) /\
  (v < LONG_MIN dm \/ LONG_MAX dm < v ->
   strtol_errno (strtol dm (p +:+ rest)) = ERANGE).
Proof.
  intros Hp Hrest. rewrite (strtol_literal dm p rest v Hp Hrest).
  assert (LONG_MIN dm < LONG_MAX dm) by (unfold LONG_MIN, LONG_MAX; destruct dm; lia).
  destruct (Z.gtb_spec v (LONG_MAX dm)); [| destruct (Z.ltb_spec v (LONG_MIN dm))];
    cbn; repeat split; intros; try reflexivity; lia.
Qed.

Section Int16Claims.
Context (dm : data_model) (root : list (string * string)) (item_name : string)
        (defaultvar : option string) (ret_val_ptr : ptr Z).

(** Every run of [config_item_int16_t] ends in one of two ways. *)
Lemma config_item_int16_t_outcome (w : world) :
  (exists e, is_fatal_log e /\
     config_item_int16_t dm root item_name defaultvar ret_val_ptr w =
       Some (None, with_events w [Config_str item_name; e])) \/
  (exists s, config_str root item_name defaultvar = Some s /\
     strtol_errno (strtol dm s) <= 0 /\
     strtol_endptr (strtol dm s) = String.length s /\ s <> "" /\
     INT16_MIN <= strtol_value (strtol dm s) <= INT16_MAX /\
     config_item_int16_t dm root item_name defaultvar ret_val_ptr w =
       Some (Some ret_val_ptr,
             with_events
               (with_config w (store ret_val_ptr (strtol_value (strtol dm s))
                                 (Global_Clatd_Config w)))
               [Config_str item_name])).
Proof.
  destruct (config_str root item_name defaultvar) as [s|] eqn:Hs.
  - pose proof (config_item_int16_t_reject dm root item_name defaultvar ret_val_ptr w s Hs)
      as Hreject.
    destruct (Z_lt_le_dec 0 (strtol_errno (strtol dm s))) as [He | He]; [auto |].
    destruct (Nat.eq_dec (strtol_endptr (strtol dm s)) 0%nat) as [H0 | H0]; [auto |].
    destruct (Nat.eq_dec (strtol_endptr (strtol dm s)) (String.length s)) as [Hend | Hend];
      [| auto 6].
    destruct (Z_lt_le_dec (strtol_value (strtol dm s)) INT16_MIN) as [Hlo | Hlo]; [auto 7 |].
    destruct (Z_lt_le_dec INT16_MAX (strtol_value (strtol dm s))) as [Hhi | Hhi]; [auto 7 |].
    right. exists s. repeat split; auto; try lia.
    + intros ->. apply H0. rewrite Hend. reflexivity.
    + apply config_item_int16_t_accept; auto; lia.
  - left. eexists. split; [| apply config_item_int16_t_missing; exact Hs].
    do 2 eexists. reflexivity.
Qed.

(** C10: on every failing run of [config_item_int16_t] the configuration,
    and so [*ret_val_ptr], is what it was; on the successful run the only
    change is the store of the parsed value through [ret_val_ptr], which is
    the pointer returned. *)
Theorem config_item_int16_t_writes_only_on_success (w : world) :
  exists r w',
    config_item_int16_t dm root item_name defaultvar ret_val_ptr w = Some (r, w') /\
    match r with
    | None => Global_Clatd_Config w' = Global_Clatd_Config w
    | Some q =>
        q = ret_val_ptr /\
        exists s, config_str root item_name defaultvar = Some s /\
          strtol_errno (strtol dm s) <= 0 /\
          strtol_endptr (strtol dm s) = String.length s /\ s <> "" /\
          INT16_MIN <= strtol_value (strtol dm s) <= INT16_MAX /\
          Global_Clatd_Config w' =
            store ret_val_ptr (strtol_value (strtol dm s)) (Global_Clatd_Config w)
    end.
Proof.
  destruct (config_item_int16_t_outcome w)
    as [(e & _ & Hrun) | (s & Hs & He & Hend & Hne & Hr & Hrun)]; rewrite Hrun.
  - do 2 eexists. split; reflexivity.
  - do 2 eexists. split; [reflexivity |]. split; [reflexivity |].
    exists s. auto 8.
Qed.

End Int16Claims.

Section Int16Parse.
Context (dm : data_model) (root : list (string * string)) (item_name : string)
        (defaultvar : option string) (ret_val_ptr : ptr Z).

(** What [config_item_int16_t] makes of the resolved string [s]. *)
Lemma config_item_int16_t_verdict (w : world) (s : string) :
  config_str root item_name defaultvar = Some s ->
  exists r w',
    config_item_int16_t dm root item_name defaultvar ret_val_ptr w = Some (r, w') /\
    (forall v, decimal_literal s v -> INT16_MIN <= v <= INT16_MAX ->
       r = Some ret_val_ptr /\
       Global_Clatd_Config w' = store ret_val_ptr v (Global_Clatd_Config w)) /\
    (r <> None ->
       exists v, decimal_literal s v /\ INT16_MIN <= v <= INT16_MAX /\
         Global_Clatd_Config w' = store ret_val_ptr v (Global_Clatd_Config w)) /\
    (r = None <->
       no_leading_integer s \/ trailing_non_numeric s \/ out_of_int16_range s).
Proof.
  intros Hs.
  destruct (strtol_lex dm s) as [[Hnone Hstrtol] | (p & v0 & rest & Hsplit & Hlit & Hrest)].
  - (* nothing converted *)
    destruct (config_item_int16_t_reject dm root item_name defaultvar ret_val_ptr w s Hs)
      as (e & _ & ->).
    { rewrite Hstrtol. cbn. auto. }
    do 2 eexists. split; [reflexivity |]. split; [| split; [congruence |]].
    + intros v Hv _. exfalso. apply (Hnone s "" v); [symmetry; apply append_nil_r | exact Hv].
    + split; auto.
  - destruct (strtol_literal_facts dm p rest v0 Hlit Hrest) as (Hend & Hin & Hout).
    rewrite <- Hsplit in Hend, Hin, Hout.
    pose proof (decimal_literal_length p v0 Hlit) as Hplen.
    assert (Hslen : String.length s = (String.length p + String.length rest)%nat)
      by (rewrite Hsplit; apply length_append).
    destruct rest as [|c rest].
    + (* the whole string is a literal *)
      rewrite append_nil_r in Hsplit. subst p.
      assert (Huniq : forall v, decimal_literal s v -> v = v0)
        by (intros v Hv; exact (decimal_literal_unique s v v0 Hv Hlit)).
      destruct (Z_lt_le_dec v0 INT16_MIN) as [Hlo | Hlo];
        [| destruct (Z_lt_le_dec INT16_MAX v0) as [Hhi | Hhi]].
      3: { (* accepted *)
        destruct (Hin (int16_in_long dm v0 ltac:(lia))) as [Herr Hval].
        rewrite (config_item_int16_t_accept dm root item_name defaultvar ret_val_ptr w s)
          by (rewrite ?Herr, ?Hval, ?Hend; auto; lia).
        rewrite Hval.
        do 2 eexists. split; [reflexivity |]. split; [| split].
        - intros v Hv _. rewrite (Huniq v Hv). auto.
        - intros _. exists v0. auto.
        - split; [discriminate |].
          intros [Hnone | [(p & v & c & r & Hp & Hpl & Hc) | (v & Hv & Hr)]]; exfalso.
          + apply (Hnone s "" v0); [symmetry; apply append_nil_r | exact Hlit].
          + destruct (literal_prefix_unique s p s (String c r) "" v v0 Hp
                        (eq_sym (append_nil_r s)) Hpl Hlit Hc I) as [_ ?].
            discriminate.
          + rewrite (Huniq v Hv) in Hr. lia. }
      all: (* out of the 16-bit range *)
        destruct (config_item_int16_t_reject dm root item_name defaultvar ret_val_ptr w s Hs)
          as (e & _ & ->);
        [ destruct (Z_lt_le_dec v0 (LONG_MIN dm)); [left; rewrite Hout by auto; reflexivity |];
          destruct (Z_lt_le_dec (LONG_MAX dm) v0); [left; rewrite Hout by auto; reflexivity |];
          destruct (Hin ltac:(lia)) as [_ ->]; auto 6
        | do 2 eexists; split; [reflexivity |]; split; [| split; [congruence |]];
          [ intros v Hv Hr; rewrite (Huniq v Hv) in Hr; lia
          | split; [intros _; right; right; exists v0; auto | reflexivity] ] ].
    + (* something follows the literal *)
      destruct (config_item_int16_t_reject dm root item_name defaultvar ret_val_ptr w s Hs)
        as (e & _ & ->).
      { right. right. left. rewrite Hend, Hslen. cbn. lia. }
      do 2 eexists. split; [reflexivity |]. split; [| split; [congruence |]].
      * intros v Hv _. exfalso.
        destruct (literal_prefix_unique s s p "" (String c rest) v v0
                    (eq_sym (append_nil_r s)) Hsplit Hv Hlit I Hrest) as [_ ?].
        discriminate.
      * split; [| reflexivity]. intros _. right. left.
        exists p, v0, c, rest. auto.
Qed.

Lemma string_forall_append (P : ascii -> bool) (a b : string) :
  string_forall P (a +:+ b) = string_forall P a && string_forall P b.
Proof.
  induction a as [|c a IH]; cbn; [reflexivity |]. rewrite IH. apply andb_assoc.
Qed.

Lemma empty_no_leading_integer : no_leading_integer "".
Proof.
  intros p rest v Hs Hlit. pose proof (decimal_literal_length p v Hlit) as Hlen.
  destruct p; [cbn in Hlen; lia | discriminate Hs].
Qed.

Lemma no_numeric_content_no_leading_integer (s : string) :
  no_numeric_content s -> no_leading_integer s.
Proof.
  unfold no_numeric_content.
  intros Hnd p rest v -> (ws & sign & digits & -> & _ & _ & Hne & Hd & _).
  rewrite !string_forall_append in Hnd.
  apply andb_true_iff in Hnd as [Hnd _]. apply andb_true_iff in Hnd as [_ Hnd].
  apply andb_true_iff in Hnd as [_ Hnd].
  destruct digits as [|d digits]; [congruence |]. cbn in Hd, Hnd.
  destruct (isdigit d); discriminate.
Qed.

(** A string whose first character is neither white space, nor a sign, nor
    a digit does not begin with an integer. *)
Lemma no_leading_integer_head (c : ascii) (s : string) :
  isspace c = false -> isdigit c = false -> c <> "+"%char -> c <> "-"%char ->
  no_leading_integer (String c s).
Proof.
  intros Hsp Hdg Hplus Hminus p rest v Hs (ws & sign & digits & -> & Hws & Hsign & Hne & Hd & _).
  destruct ws as [|c' ws].
  - destruct Hsign as [-> | [-> | ->]]; cbn in Hs.
    + destruct digits as [|d digits]; [congruence |]. cbn in Hs, Hd.
      injection Hs as <- _. rewrite Hdg in Hd. discriminate.
    + injection Hs as -> _. congruence.
    + injection Hs as -> _. congruence.
  - cbn in Hs, Hws. injection Hs as <- _. rewrite Hsp in Hws. discriminate.
Qed.

(** C4: on the resolved string [s], [config_item_int16_t] stores and returns
    the value of [s] when [s] is a decimal literal within the signed 16-bit
    range, and fails exactly when [s] does not begin with a base-10 integer,
    has trailing non-numeric characters after one, or denotes a value
    outside [INT16_MIN, INT16_MAX].  The empty string and a string without
    any digit do not begin with an integer; neither does a string whose
    digits follow other text. *)
Theorem config_item_int16_t_parses (w : world) (s : string) :
  config_str root item_name defaultvar = Some s ->
  exists r w',
    config_item_int16_t dm root item_name defaultvar ret_val_ptr w = Some (r, w') /\
    (forall v, decimal_literal s v -> INT16_MIN <= v <= INT16_MAX ->
       r = Some ret_val_ptr /\
       Global_Clatd_Config w' = store ret_val_ptr v (Global_Clatd_Config w)) /\
    (r <> None ->
       exists v, decimal_literal s v /\ INT16_MIN <= v <= INT16_MAX /\
         Global_Clatd_Config w' = store ret_val_ptr v (Global_Clatd_Config w)) /\
    (r = None <->
       no_leading_integer s \/ trailing_non_numeric s \/ out_of_int16_range s) /\
    (s = "" \/ no_numeric_content s -> no_leading_integer s /\ r = None) /\
    (forall c rest, s = String c rest ->
       isspace c = false -> isdigit c = false -> c <> "+"%char -> c <> "-"%char ->
       no_leading_integer s /\ r = None).
Proof.
  intros Hs.
  destruct (config_item_int16_t_verdict w s Hs) as (r & w' & Hrun & Hok & Hsome & Hnone).
  exists r, w'. split; [exact Hrun |]. split; [exact Hok |]. split; [exact Hsome |].
  split; [exact Hnone |]. split.
  - intros Hcase.
    assert (Hlead : no_leading_integer s).
    { destruct Hcase as [-> | Hnd];
        [exact empty_no_leading_integer | exact (no_numeric_content_no_leading_integer s Hnd)]. }
    split; [exact Hlead | apply Hnone; left; exact Hlead].
  - intros c rest -> Hsp Hdg Hplus Hminus.
    pose proof (no_leading_integer_head c rest Hsp Hdg Hplus Hminus) as Hlead.
    split; [exact Hlead | apply Hnone; left; exact Hlead].
Qed.

End Int16Parse.

(** ** Assembly *)

Lemma wp_ret {A} (a : A) (post : A -> world -> Prop) (w : world) :
  post a w -> wp (ret a) post w.
Proof. intros H. exists a, w. auto. Qed.

Lemma wp_bind {A B} (m : M A) (k : A -> M B) (post : B -> world -> Prop) (w : world) :
  wp m (fun a w' => wp (k a) post w') w -> wp (bind m k) post w.
Proof.
  intros (a & w' & Hm & b & w'' & Hk & Hpost).
  exists b, w''. unfold bind. rewrite Hm. auto.
Qed.

Lemma wp_emit (e : event) (post : unit -> world -> Prop) (w : world) :
  post tt (with_events w [e]) -> wp (emit e) post w.
Proof. intros H. exists tt, (with_events w [e]). auto. Qed.

Lemma wp_logmsg prio fmt args (post : unit -> world -> Prop) (w : world) :
  post tt (with_events w [Logmsg prio fmt args]) -> wp (logmsg prio fmt args) post w.
Proof. apply wp_emit. Qed.

Lemma wp_modify_config f (post : unit -> world -> Prop) (w : world) :
  post tt (with_config w (f (Global_Clatd_Config w))) -> wp (modify_config f) post w.
Proof. intros H. exists tt, (with_config w (f (Global_Clatd_Config w))). auto. Qed.

Lemma wp_assign {T} (p : ptr T) (v : T) (post : unit -> world -> Prop) (w : world) :
  post tt (with_config w (store p v (Global_Clatd_Config w))) -> wp (assign p v) post w.
Proof. apply wp_modify_config. Qed.

Lemma wp_get_config (post : clat_config -> world -> Prop) (w : world) :
  post (Global_Clatd_Config w) w -> wp get_config post w.
Proof. intros H. exists (Global_Clatd_Config w), w. auto. Qed.

Lemma quiet_since_refl allowed w : quiet_since allowed w w.
Proof. exists []. rewrite app_nil_r. auto. Qed.

Lemma quiet_since_events allowed w0 w evs :
  quiet_since allowed w0 w -> forallb allowed evs = true ->
  quiet_since allowed w0 (with_events w evs).
Proof.
  intros (evs0 & He & Ha & Hq) Hevs. exists (evs0 ++ evs). cbn.
  rewrite He, app_assoc, forallb_app, Ha, Hevs. auto.
Qed.

Lemma quiet_since_config allowed w0 w c :
  quiet_since allowed w0 w -> quiet_since allowed w0 (with_config w c).
Proof. intros (evs0 & He & Ha & Hq). exists evs0. auto. Qed.

Lemma quiet_since_trans allowed w0 w1 w2 :
  quiet_since allowed w0 w1 -> quiet_since allowed w1 w2 -> quiet_since allowed w0 w2.
Proof.
  intros (e1 & He1 & Ha1 & Hq1) (e2 & He2 & Ha2 & Hq2). exists (e1 ++ e2).
  rewrite He2, He1, app_assoc, forallb_app, Ha1, Ha2. split; [auto | split; [auto | congruence]].
Qed.

Lemma permissive_no_dns : permissive no_dns.
Proof. intros []; exact I || reflexivity. Qed.

Lemma permissive_override_quiet : permissive override_quiet.
Proof. intros []; exact I || reflexivity. Qed.

Lemma permissive_before_override : permissive before_override.
Proof. intros []; exact I || reflexivity. Qed.

Ltac allowed_event :=
  match goal with
  | |- ?allowed ?e = true =>
      first [ assumption
            | reflexivity
            | match goal with H : permissive allowed |- _ => exact (H e) end
            | match goal with H : forall _, _ = true |- _ => apply H end ]
  end.

Ltac quiet :=
  repeat first
    [ assumption
    | apply quiet_since_refl
    | apply quiet_since_config
    | apply quiet_since_events;
      [| cbn [forallb]; repeat (apply andb_true_intro; split);
         first [reflexivity | allowed_event] ] ].

Section Readers.
Context (E : externals) (allowed : event -> bool) (Hperm : permissive allowed).

Lemma wp_lookup_item root item_name defaultvar (post : option string -> world -> Prop) w :
  allowed (Config_str item_name) = true ->
  (forall w', quiet_since allowed w w' ->
     Global_Clatd_Config w' = Global_Clatd_Config w ->
     post (config_str root item_name defaultvar) w') ->
  wp (lookup_item root item_name defaultvar) post w.
Proof.
  intros Ha Hpost. unfold lookup_item.
  apply wp_bind, wp_emit, wp_ret, Hpost; [quiet | reflexivity].
Qed.

Lemma wp_config_item_str root item_name defaultvar (post : option string -> world -> Prop) w :
  allowed (Config_str item_name) = true ->
  (forall w', quiet_since allowed w w' ->
     Global_Clatd_Config w' = Global_Clatd_Config w ->
     post (config_str root item_name defaultvar) w') ->
  wp (config_item_str root item_name defaultvar) post w.
Proof.
  intros Ha Hpost. unfold config_item_str.
  apply wp_bind, wp_lookup_item; [exact Ha |]. intros w1 Hq1 Hc1.
  destruct (config_str root item_name defaultvar).
  - apply wp_ret, Hpost; assumption.
  - apply wp_bind, wp_logmsg, wp_ret, Hpost; [| exact Hc1].
    eapply quiet_since_trans; [exact Hq1 | quiet].
Qed.

Lemma wp_config_item_int16_t dm root item_name defaultvar ret_val_ptr
    (post : option (ptr Z) -> world -> Prop) w :
  allowed (Config_str item_name) = true ->
  (forall r w', quiet_since allowed w w' ->
     match r with
     | None => Global_Clatd_Config w' = Global_Clatd_Config w
     | Some _ =>
         exists v, Global_Clatd_Config w' = store ret_val_ptr v (Global_Clatd_Config w)
     end ->
     post r w') ->
  wp (config_item_int16_t dm root item_name defaultvar ret_val_ptr) post w.
Proof.
  intros Ha Hpost.
  destruct (config_item_int16_t_outcome dm root item_name defaultvar ret_val_ptr w)
    as [(e & (fmt & args & ->) & Hrun) | (s & _ & _ & _ & _ & _ & Hrun)];
    eexists _, _; (split; [exact Hrun |]); apply Hpost.
  - quiet.
  - reflexivity.
  - quiet.
  - eexists. reflexivity.
Qed.

Lemma wp_call_inet_pton af src dst (post : Z -> world -> Prop) w :
  allowed (Inet_pton af src) = true ->
  (forall w', quiet_since allowed w w' ->
     match inet_pton E af src with
     | Some a => Global_Clatd_Config w' = store dst a (Global_Clatd_Config w) -> post 1 w'
     | None => Global_Clatd_Config w' = Global_Clatd_Config w -> post 0 w'
     end) ->
  wp (call_inet_pton E af src dst) post w.
Proof.
  intros Ha Hpost. unfold call_inet_pton.
  apply wp_bind, wp_emit.
  destruct (inet_pton E af src) as [a|].
  - apply wp_bind, wp_assign, wp_ret, Hpost; [quiet | reflexivity].
  - apply wp_ret, Hpost; [quiet | reflexivity].
Qed.

(** [config_item_ip] and [config_item_ip6] differ in the address family and
    the log text only. *)
Lemma wp_config_item_ip root item_name defaultvar ret_val_ptr
    (post : option (ptr (list Z)) -> world -> Prop) w :
  allowed (Config_str item_name) = true ->
  (forall src, allowed (Inet_pton AF_INET src) = true) ->
  (forall r w', quiet_since allowed w w' ->
     match r with
     | None => Global_Clatd_Config w' = Global_Clatd_Config w
     | Some _ =>
         exists a, Global_Clatd_Config w' = store ret_val_ptr a (Global_Clatd_Config w)
     end ->
     post r w') ->
  wp (config_item_ip E root item_name defaultvar ret_val_ptr) post w.
Proof.
  intros Ha Hpton Hpost. unfold config_item_ip.
  apply wp_bind, wp_lookup_item; [exact Ha |]. intros w1 Hq1 Hc1.
  destruct (config_str root item_name defaultvar) as [tmp|].
  - apply wp_bind, wp_call_inet_pton; [apply Hpton |]. intros w2 Hq2.
    destruct (inet_pton E AF_INET tmp) as [a|]; intros Hc2; cbn [Z.leb Z.compare].
    + apply wp_ret, Hpost; [eapply quiet_since_trans; eassumption |].
      exists a. congruence.
    + apply wp_bind, wp_logmsg, wp_ret, Hpost; [| cbn; congruence].
      eapply quiet_since_trans; [eassumption |].
      eapply quiet_since_trans; [eassumption | quiet].
  - apply wp_bind, wp_logmsg, wp_ret, Hpost; [| exact Hc1].
    eapply quiet_since_trans; [eassumption | quiet].
Qed.

Lemma wp_config_item_ip6 root item_name defaultvar ret_val_ptr
    (post : option (ptr (list Z)) -> world -> Prop) w :
  allowed (Config_str item_name) = true ->
  (forall src, config_str root item_name defaultvar = Some src ->
     allowed (Inet_pton AF_INET6 src) = true) ->
  (forall r w', quiet_since allowed w w' ->
     match r with
     | None => Global_Clatd_Config w' = Global_Clatd_Config w
     | Some _ =>
         config_str root item_name defaultvar <> None /\
         exists a, Global_Clatd_Config w' = store ret_val_ptr a (Global_Clatd_Config w)
     end ->
     post r w') ->
  wp (config_item_ip6 E root item_name defaultvar ret_val_ptr) post w.
Proof.
  intros Ha Hpton Hpost. unfold config_item_ip6.
  apply wp_bind, wp_lookup_item; [exact Ha |]. intros w1 Hq1 Hc1.
  destruct (config_str root item_name defaultvar) as [tmp|].
  - apply wp_bind, wp_call_inet_pton; [apply Hpton; reflexivity |]. intros w2 Hq2.
    destruct (inet_pton E AF_INET6 tmp) as [a|]; intros Hc2; cbn [Z.leb Z.compare].
    + apply wp_ret, Hpost; [eapply quiet_since_trans; eassumption |].
      split; [discriminate |]. exists a. congruence.
    + apply wp_bind, wp_logmsg, wp_ret, Hpost; [| cbn; congruence].
      eapply quiet_since_trans; [eassumption |].
      eapply quiet_since_trans; [eassumption | quiet].
  - apply wp_bind, wp_logmsg, wp_ret, Hpost; [| exact Hc1].
    eapply quiet_since_trans; [eassumption | quiet].
Qed.

Lemma wp_failed (post : Z -> world -> Prop) w :
  (forall w', quiet_since allowed w w' ->
     plat_subnet (Global_Clatd_Config w') = plat_subnet (Global_Clatd_Config w) ->
     post 0 w') ->
  wp (failed) post w.
Proof.
  intros Hpost. unfold failed, free_config.
  apply wp_bind, wp_bind, wp_get_config.
  destruct (plat_from_dns64_hostname (Global_Clatd_Config w)).
  - apply wp_assign, wp_ret, Hpost; [quiet | reflexivity].
  - apply wp_ret, wp_ret, Hpost; [quiet | reflexivity].
Qed.

Lemma wp_arc4random_buf n (post : list Z -> world -> Prop) w :
  (forall rnd w', quiet_since allowed w w' ->
     Global_Clatd_Config w' = Global_Clatd_Config w -> post rnd w') ->
  wp (arc4random_buf E n) post w.
Proof.
  intros Hpost. eexists _, _. split; [reflexivity |]. apply Hpost; [| reflexivity].
  exists [Arc4random_buf n]. cbn. rewrite (Hperm (Arc4random_buf n)). auto.
Qed.

Lemma wp_config_generate_local_ipv6_subnet bo interface_ip (post : list Z -> world -> Prop) w :
  (forall local w', quiet_since allowed w w' ->
     Global_Clatd_Config w' = Global_Clatd_Config w -> post local w') ->
  wp (config_generate_local_ipv6_subnet bo E interface_ip) post w.
Proof.
  intros Hpost. unfold config_generate_local_ipv6_subnet.
  apply wp_bind, wp_get_config.
  destruct (IN6_IS_ADDR_UNSPECIFIED _).
  - unfold gen_random_iid. apply wp_bind, wp_arc4random_buf. intros rnd w1 Hq1 Hc1.
    cbv zeta. apply wp_ret, Hpost; assumption.
  - apply wp_ret, Hpost; [quiet | reflexivity].
Qed.

Lemma wp_subnet_from_interface bo root interface (post : Z -> world -> Prop) w :
  allowed (Config_str "ipv6_host_id") = true ->
  (forall src, allowed (Inet_pton AF_INET6 src) = true) ->
  (forall r w', quiet_since allowed w w' ->
     plat_subnet (Global_Clatd_Config w') = plat_subnet (Global_Clatd_Config w) ->
     plat_from_dns64_hostname (Global_Clatd_Config w') =
       plat_from_dns64_hostname (Global_Clatd_Config w) ->
     post r w') ->
  wp (subnet_from_interface bo E root interface) post w.
Proof.
  intros Ha Hpton Hpost. unfold subnet_from_interface.
  apply wp_bind, wp_config_item_ip6; [exact Ha | intros; apply Hpton |].
  intros [p|] w1 Hq1 Hc1.
  - destruct Hc1 as [_ [a Hc1]].
    unfold call_getinterface_ip. apply wp_bind, wp_bind, wp_emit, wp_ret.
    destruct (getinterface_ip E interface AF_INET6) as [ip6|].
    + apply wp_bind, wp_assign, wp_bind, wp_get_config.
      apply wp_bind, wp_config_generate_local_ipv6_subnet. intros local w2 Hq2 Hc2.
      apply wp_bind, wp_assign, wp_bind, wp_logmsg, wp_ret, Hpost.
      * eapply quiet_since_trans; [exact Hq1 |].
        eapply quiet_since_trans; [| eapply quiet_since_trans; [exact Hq2 | quiet]].
        quiet.
      * cbn. rewrite Hc2. cbn. rewrite Hc1. reflexivity.
      * cbn. rewrite Hc2. cbn. rewrite Hc1. reflexivity.
    + apply wp_bind, wp_logmsg, wp_ret, Hpost.
      * eapply quiet_since_trans; [exact Hq1 | quiet].
      * cbn. rewrite Hc1. reflexivity.
      * cbn. rewrite Hc1. reflexivity.
  - apply wp_ret, Hpost; [exact Hq1 | rewrite Hc1; reflexivity ..].
Qed.

Lemma wp_read_config_finish bo root (post : Z -> world -> Prop) w :
  allowed (Config_str "ipv6_host_id") = true ->
  (forall src, allowed (Inet_pton AF_INET6 src) = true) ->
  (forall r w', quiet_since allowed w w' ->
     plat_subnet (Global_Clatd_Config w') = plat_subnet (Global_Clatd_Config w) ->
     post r w') ->
  wp (read_config_finish bo E root) post w.
Proof.
  intros Ha Hpton Hpost. unfold read_config_finish.
  apply wp_bind, wp_get_config, wp_bind, wp_subnet_from_interface; [exact Ha | exact Hpton |].
  intros ok w1 Hq1 Hc1 _.
  destruct (ok =? 0).
  - apply wp_failed. intros w2 Hq2 Hc2. apply Hpost; [| congruence].
    eapply quiet_since_trans; eassumption.
  - apply wp_ret, Hpost; assumption.
Qed.

End Readers.

Section ReadConfig.
Context (bo : byte_order) (E : externals) (dm : data_model).

(** C9: when the loaded tree has no child nodes, [read_config] returns 0
    right after the load, although on that tree every item read with a
    default would have resolved to it. *)
Theorem read_config_empty_tree (fuel : nat) (file uplink_interface : string)
    (plat_prefix : option string) (net_id : Z) (w : world) :
  config_file E file = [] ->
  (exists w',
     read_config bo E dm fuel file uplink_interface plat_prefix net_id w = Some (0, w') /\
     quiet_since no_dns w w' /\
     Global_Clatd_Config w' = zeroed_config) /\
  (forall item_name d, config_str (config_file E file) item_name (Some d) = Some d).
Proof.
  intros Hroot. split.
  - unfold read_config. rewrite Hroot.
    eexists. split; [reflexivity |]. split; [| reflexivity].
    exists [Config_load_file file;
            Logmsg ANDROID_LOG_FATAL "Could not read config file %s" [ArgS file]].
    cbn. rewrite <- app_assoc. auto.
  - intros item_name d. rewrite Hroot. reflexivity.
Qed.

(** C3: without a command-line prefix, when [plat_from_dns64] resolves to
    "no" and there is no [plat_subnet] item, [read_config] returns 0 and no
    DNS64 query is issued and no sleep performed, whatever the fuel. *)
Theorem read_config_static_without_plat_subnet (fuel : nat)
    (file uplink_interface : string) (net_id : Z) (w : world) :
  config_str (config_file E file) "plat_from_dns64" (Some "yes") = Some "no" ->
  config_str (config_file E file) "plat_subnet" None = None ->
  exists w',
    read_config bo E dm fuel file uplink_interface None net_id w = Some (0, w') /\
    quiet_since no_dns w w'.
Proof.
  intros Hmode Hplat.
  pose proof permissive_no_dns as Hperm.
  assert (Hgoal : wp (read_config bo E dm fuel file uplink_interface None net_id)
                     (fun r w' => r = 0 /\ quiet_since no_dns w w') w).
  { unfold read_config.
    apply wp_bind, wp_modify_config, wp_bind, wp_emit.
    destruct (config_file E file) as [|node root'] eqn:Hroot.
    { apply wp_bind, wp_logmsg, (wp_failed no_dns). intros w1 Hq1 _.
      split; [reflexivity |]. eapply quiet_since_trans; [| exact Hq1]. quiet. }
    set (root := node :: root') in *.
    match goal with |- wp _ _ ?w0 =>
      assert (Hq0 : quiet_since no_dns w w0); [quiet | generalize dependent w0] end.
    intros w0 Hq0.
    apply wp_bind, wp_assign.
    match goal with |- wp _ _ ?w0' =>
      assert (Hq0' : quiet_since no_dns w w0') by quiet; generalize dependent w0' end.
    clear w0 Hq0. intros w0 Hq0.
    apply wp_bind, (wp_config_item_int16_t no_dns Hperm); [reflexivity |].
    intros [p1|] w1 Hq1 _;
      [| apply (wp_failed no_dns); intros w' Hq' _; split; [reflexivity |];
         eauto using quiet_since_trans].
    apply wp_bind, (wp_config_item_int16_t no_dns Hperm); [reflexivity |].
    intros [p2|] w2 Hq2 _;
      [| apply (wp_failed no_dns); intros w' Hq' _; split; [reflexivity |];
         eauto using quiet_since_trans].
    apply wp_bind, (wp_config_item_ip E no_dns Hperm); [reflexivity | reflexivity |].
    intros [p3|] w3 Hq3 _;
      [| apply (wp_failed no_dns); intros w' Hq' _; split; [reflexivity |];
         eauto using quiet_since_trans].
    apply wp_bind, (wp_config_item_str no_dns Hperm); [reflexivity |].
    intros w4 Hq4 _. rewrite Hmode. cbn [String.eqb Ascii.eqb Bool.eqb].
    apply wp_bind, (wp_config_item_ip6 E no_dns Hperm); [reflexivity | reflexivity |].
    intros [p5|] w5 Hq5 Hc5; [destruct Hc5 as [Hc5 _]; congruence |].
    apply wp_bind, wp_logmsg, (wp_failed no_dns). intros w' Hq' _.
    split; [reflexivity |].
    eapply quiet_since_trans; [exact Hq0 |].
    eapply quiet_since_trans; [exact Hq1 |].
    eapply quiet_since_trans; [exact Hq2 |].
    eapply quiet_since_trans; [exact Hq3 |].
    eapply quiet_since_trans; [exact Hq4 |].
    eapply quiet_since_trans; [exact Hq5 |].
    eapply quiet_since_trans; [| exact Hq']. quiet. }
  destruct Hgoal as (r & w' & Hrun & -> & Hq). eauto.
Qed.

Lemma before_override_quiet (e : event) :
  before_override e = true -> override_quiet e = true.
Proof. unfold before_override. intros [? _]%andb_true_iff. assumption. Qed.

Lemma quiet_since_before_override (w w' : world) :
  quiet_since before_override w w' -> quiet_since override_quiet w w'.
Proof.
  intros (evs & He & Ha & Hq). exists evs. split; [exact He | split; [| exact Hq]].
  apply forallb_forall. intros e Hin.
  apply before_override_quiet. rewrite forallb_forall in Ha. auto.
Qed.

(** With a command-line prefix, [read_config] always returns, and its trace
    has no lookup of [plat_from_dns64], [plat_subnet] or
    [plat_from_dns64_hostname] and no resolver traffic. *)
Lemma read_config_override_quiet (fuel : nat)
    (file uplink_interface plat_prefix : string) (net_id : Z) (w : world) :
  exists r w' evs,
    read_config bo E dm fuel file uplink_interface (Some plat_prefix) net_id w
      = Some (r, w') /\
    events w' = events w ++ evs /\
    forallb override_quiet evs = true /\
    dns_queries w' = dns_queries w /\
    (inet_pton E AF_INET6 plat_prefix = None -> r = 0) /\
    (forall a, inet_pton E AF_INET6 plat_prefix = Some a ->
       r = 1 \/ In (Inet_pton AF_INET6 plat_prefix) evs ->
       plat_subnet (Global_Clatd_Config w') = a).
Proof.
  pose proof permissive_before_override as Hpre.
  pose proof permissive_override_quiet as Hperm.
  assert (Hgoal :
    wp (read_config bo E dm fuel file uplink_interface (Some plat_prefix) net_id)
       (fun r w' =>
          (r = 0 /\ quiet_since before_override w w') \/
          (quiet_since override_quiet w w' /\
           (inet_pton E AF_INET6 plat_prefix = None -> r = 0) /\
           (forall a, inet_pton E AF_INET6 plat_prefix = Some a ->
              plat_subnet (Global_Clatd_Config w') = a))) w).
  { unfold read_config.
    apply wp_bind, wp_modify_config, wp_bind, wp_emit.
    destruct (config_file E file) as [|node root'] eqn:Hroot.
    { apply wp_bind, wp_logmsg, (wp_failed before_override). intros w1 Hq1 _.
      left. split; [reflexivity |]. eapply quiet_since_trans; [| exact Hq1]. quiet. }
    set (root := node :: root') in *.
    apply wp_bind, wp_assign.
    match goal with |- wp _ _ ?w0 =>
      assert (Hq0 : quiet_since before_override w w0) by quiet; generalize dependent w0 end.
    intros w0 Hq0.
    apply wp_bind, (wp_config_item_int16_t before_override Hpre); [reflexivity |].
    intros [p1|] w1 Hq1 _;
      [| apply (wp_failed before_override); intros w' Hq' _; left; split; [reflexivity |];
         eauto using quiet_since_trans].
    apply wp_bind, (wp_config_item_int16_t before_override Hpre); [reflexivity |].
    intros [p2|] w2 Hq2 _;
      [| apply (wp_failed before_override); intros w' Hq' _; left; split; [reflexivity |];
         eauto using quiet_since_trans].
    apply wp_bind, (wp_config_item_ip E before_override Hpre); [reflexivity | reflexivity |].
    intros [p3|] w3 Hq3 _;
      [| apply (wp_failed before_override); intros w' Hq' _; left; split; [reflexivity |];
         eauto using quiet_since_trans].
    assert (Hq : quiet_since override_quiet w w3)
      by (apply quiet_since_before_override; eauto using quiet_since_trans).
    apply wp_bind, (wp_call_inet_pton E override_quiet); [reflexivity |].
    intros w4 Hq4.
    destruct (inet_pton E AF_INET6 plat_prefix) as [a|]; intros Hc4; cbn [Z.leb Z.compare].
    - apply (wp_read_config_finish E override_quiet Hperm); [reflexivity | reflexivity |].
      intros r w5 Hq5 Hc5. right. split; [eauto using quiet_since_trans |].
      split; [discriminate |]. intros a' [= <-]. rewrite Hc5, Hc4. reflexivity.
    - apply wp_bind, wp_logmsg, (wp_failed override_quiet). intros w5 Hq5 _.
      right. split; [| split; [reflexivity | discriminate]].
      eapply quiet_since_trans; [exact Hq |].
      eapply quiet_since_trans; [exact Hq4 |].
      eapply quiet_since_trans; [| exact Hq5]. quiet. }
  destruct Hgoal as (r & w' & Hrun & [[Hr (evs & He & Ha & Hd)] | [(evs & He & Ha & Hd) [Hn Hs]]]);
    exists r, w', evs; repeat split; auto.
  - apply forallb_forall. intros e Hin. apply before_override_quiet.
    rewrite forallb_forall in Ha. auto.
  - intros a _ [? | Hin]; [lia |]. exfalso.
    rewrite forallb_forall in Ha. specialize (Ha _ Hin). discriminate Ha.
Qed.

End ReadConfig.

(** ** Instances *)

(** The examples of the spec for [read_int16], and the edges of the range. *)
Example read_mtu_examples :
  read_mtu [("mtu", "42")] = Some 42 /\
  read_mtu [] = Some (-1) /\
  read_mtu [("mtu", "abc")] = None /\
  read_mtu [("mtu", "99999")] = None /\
  read_mtu [("mtu", "")] = None /\
  read_mtu [("mtu", "42abc")] = None /\
  read_mtu [("mtu", " +42")] = Some 42 /\
  read_mtu [("mtu", "-32768")] = Some (-32768) /\
  read_mtu [("mtu", "32768")] = None /\
  read_mtu [("mtu", "7"); ("mtu", "1400")] = Some 1400.
Proof. vm_compute. repeat split. Qed.

Lemma dns64_detection_backoff_sequence_witness :
  (forall k, (k < 10)%nat ->
     resolver_status (example_externals [] resolver_never) 0 initial_world k <= 0) /\
  (exists w',
     sleeps (events w') = [1; 2; 4; 8; 16; 32; 64; 120; 120; 120] /\
     forall fuel,
       dns64_detection (example_externals [] resolver_never) (10 + fuel) 0 initial_world =
         (st <- dns64_trips (example_externals [] resolver_never) fuel 0 120 ;;
          match st with
          | Returned => ret tt
          | Looping _ => fun _ => None
          end) w') /\
  exists w'',
    dns64_detection (example_externals [] resolver_fourth) 8 0 initial_world
      = Some (tt, w'') /\
    sleeps (events w'') = [1; 2; 4].
Proof.
  assert (H : forall k, (k < 10)%nat ->
            resolver_status (example_externals [] resolver_never) 0 initial_world k <= 0)
    by (intros k _; cbn; lia).
  split; [exact H |]. split.
  - destruct (dns64_detection_backoff_sequence
                (example_externals [] resolver_never) 0 initial_world 10 H)
      as [(w' & Hs & Hrun & _) _].
    exists w'. split; [exact Hs | exact Hrun].
  - assert (H3 : forall k, (k < 3)%nat ->
              resolver_status (example_externals [] resolver_fourth) 0 initial_world k <= 0).
    { intros k Hk. do 3 (destruct k as [|k]; [cbn; lia |]). lia. }
    destruct (dns64_detection_backoff_sequence
                (example_externals [] resolver_fourth) 0 initial_world 3 H3)
      as [(_ & _ & _ & Hret) _].
    apply (Hret ltac:(cbn; lia) 8%nat). lia.
Defined.

Lemma read_config_static_without_plat_subnet_witness :
  let E := example_externals [("plat_from_dns64", "no")] resolver_fourth in
  config_str (config_file E "clatd.conf") "plat_from_dns64" (Some "yes") = Some "no" /\
  config_str (config_file E "clatd.conf") "plat_subnet" None = None /\
  exists w',
    read_config LittleEndian E LP64 8 "clatd.conf" "rmnet0" None 0 initial_world
      = Some (0, w') /\
    quiet_since no_dns initial_world w'.
Proof.
  cbv zeta. split; [reflexivity | split; [reflexivity |]].
  apply (read_config_static_without_plat_subnet LittleEndian
           (example_externals [("plat_from_dns64", "no")] resolver_fourth)
           LP64 8 "clatd.conf" "rmnet0" 0 initial_world); reflexivity.
Defined.

Lemma decimal_literal_42 : decimal_literal "42" 42.
Proof. exists "", "", "42". repeat split; auto; discriminate. Qed.

Lemma config_item_int16_t_parses_witness :
  config_str [("mtu", "42")] "mtu" (Some "-1") = Some "42" /\
  exists w',
    config_item_int16_t LP64 [("mtu", "42")] "mtu" (Some "-1") addr_mtu initial_world
      = Some (Some addr_mtu, w') /\
    mtu (Global_Clatd_Config w') = 42.
Proof.
  split; [reflexivity |].
  destruct (config_item_int16_t_parses LP64 [("mtu", "42")] "mtu" (Some "-1") addr_mtu
              initial_world "42" eq_refl) as (r & w' & Hrun & Hok & _).
  destruct (Hok 42 decimal_literal_42 ltac:(unfold INT16_MIN, INT16_MAX; lia)) as [-> Hcfg].
  exists w'. split; [exact Hrun |]. rewrite Hcfg. reflexivity.
Defined.

(** On "abc42" [config_item_int16_t] fails, although the string is not
    empty, has digits, has nothing after a number and denotes no value that
    could be out of range. *)
Lemma config_item_int16_t_parses_counterexample :
  config_str [("mtu", "abc42")] "mtu" (Some "-1") = Some "abc42" /\
  (exists w',
     config_item_int16_t LP64 [("mtu", "abc42")] "mtu" (Some "-1") addr_mtu initial_world
       = Some (None, w')) /\
  ~ ("abc42" = "" \/ no_numeric_content "abc42" \/ trailing_non_numeric "abc42" \/
     out_of_int16_range "abc42").
Proof.
  split; [reflexivity |]. split; [eexists; vm_compute; reflexivity |].
  assert (Hlead : no_leading_integer "abc42")
    by (apply no_leading_integer_head; [reflexivity | reflexivity | discriminate ..]).
  intros [Hempty | [Hnd | [(p & v & c & rest & Hs & Hlit & _) | (v & Hlit & _)]]].
  - discriminate Hempty.
  - vm_compute in Hnd. discriminate Hnd.
  - exact (Hlead p (String c rest) v Hs Hlit).
  - exact (Hlead "abc42" "" v eq_refl Hlit).
Qed.

Lemma config_generate_local_ipv6_subnet_host_id_witness :
  valid_bytes 16 example_interface_ip = true /\
  valid_bytes 16 (ipv6_host_id (Global_Clatd_Config world_with_host_id)) = true /\
  IN6_IS_ADDR_UNSPECIFIED (ipv6_host_id (Global_Clatd_Config world_with_host_id)) = false /\
  config_generate_local_ipv6_subnet LittleEndian (example_externals [] resolver_never)
    example_interface_ip world_with_host_id
  = Some ([0xfe; 0x80; 0; 0; 0; 0; 0; 0; 0; 0; 0; 0; 0x12; 0x34; 0x56; 0x78],
          world_with_host_id).
Proof.
  split; [reflexivity | split; [reflexivity | split; [reflexivity |]]].
  apply (config_generate_local_ipv6_subnet_host_id LittleEndian
           (example_externals [] resolver_never) example_interface_ip world_with_host_id);
    reflexivity.
Defined.

Lemma dns64_detection_no_failure_exit_witness :
  (forall fuel,
     dns64_detection (example_externals [] resolver_never) fuel 0 initial_world = None) /\
  exists w',
    dns64_detection (example_externals [] resolver_fourth) 4 0 initial_world
      = Some (tt, w') /\
    plat_subnet (Global_Clatd_Config w') = nat64_prefix.
Proof.
  split.
  - apply (proj1 (proj2 (dns64_detection_no_failure_exit
                           (example_externals [] resolver_never) 0 initial_world))).
    intros k. cbn. lia.
  - apply (proj2 (proj2 (dns64_detection_no_failure_exit
                           (example_externals [] resolver_fourth) 0 initial_world)) 3%nat).
    + cbn. lia.
    + intros i Hi. do 3 (destruct i as [|i]; [cbn; lia |]). lia.
    + lia.
Defined.


Lemma read_config_empty_tree_witness :
  config_file (example_externals [] resolver_fourth) "clatd.conf" = [] /\
  exists w',
    read_config LittleEndian (example_externals [] resolver_fourth) LP64 8
      "clatd.conf" "rmnet0" None 0 initial_world = Some (0, w') /\
    quiet_since no_dns initial_world w'.
Proof.
  split; [reflexivity |].
  destruct (read_config_empty_tree LittleEndian (example_externals [] resolver_fourth)
              LP64 8 "clatd.conf" "rmnet0" None 0 initial_world eq_refl)
    as [(w' & Hrun & Hq & _) _].
  exists w'. split; [exact Hrun | exact Hq].
Defined.

Lemma config_item_int16_t_writes_only_on_success_witness :
  exists w',
    config_item_int16_t LP64 [("mtu", "99999")] "mtu" (Some "-1") addr_mtu initial_world
      = Some (None, w') /\
    Global_Clatd_Config w' = Global_Clatd_Config initial_world.
Proof.
  destruct (config_item_int16_t_writes_only_on_success LP64 [("mtu", "99999")] "mtu"
              (Some "-1") addr_mtu initial_world) as (r & w' & Hrun & Hr).
  exists w'.
  assert (Hnone : r = None) by (vm_compute in Hrun; injection Hrun as <- _; reflexivity).
  subst r. split; [exact Hrun | exact Hr].
Defined.

(** * Further properties of the code *)

Section FreeConfig.

(** X4: [free_config] clears the discovery hostname, touches nothing else,
    and a second call changes nothing any more. *)
Theorem free_config_idempotent (w : world) :
  exists w',
    free_config w = Some (tt, w') /\
    plat_from_dns64_hostname (Global_Clatd_Config w') = None /\
    Global_Clatd_Config w' =
      store addr_plat_from_dns64_hostname None (Global_Clatd_Config w) /\
    events w' = events w /\
    free_config w' = Some (tt, w') /\
    (free_config ;;; free_config) w = free_config w.
Proof.
  unfold free_config, bind, get_config, assign, modify_config, ret.
  destruct w as [[m m4 l6 h6 l4 p6 ifc [h|]] evs q r]; cbn; eexists; repeat split.
Qed.

End FreeConfig.

Lemma take_store_bytes (n off : nat) (src a : list Z) :
  (n <= off)%nat -> take n (store_bytes off src a) = take n a.
Proof.
  revert off a. induction src as [|b src IH]; intros off a Hn; cbn; [reflexivity |].
  rewrite IH by lia. apply take_insert_ge. lia.
Qed.

Lemma take_set_s6_addr32 (bo : byte_order) (n i : nat) (a : list Z) (v : Z) :
  (n <= 4 * i)%nat -> take n (set_s6_addr32 bo a i v) = take n a.
Proof.
  intros Hn. unfold set_s6_addr32. destruct bo; rewrite !take_insert_ge by lia; reflexivity.
Qed.

(** Both paths of [config_generate_local_ipv6_subnet] write at index 8 and
    above only. *)
Lemma config_generate_prefix (bo : byte_order) (E : externals) (interface_ip : list Z)
    (w : world) :
  exists V w',
    config_generate_local_ipv6_subnet bo E interface_ip w = Some (V, w') /\
    ipv6_prefix_equal V interface_ip = 1 /\
    length V = length interface_ip /\
    Global_Clatd_Config w' = Global_Clatd_Config w.
Proof.
  unfold config_generate_local_ipv6_subnet, bind, get_config.
  destruct (IN6_IS_ADDR_UNSPECIFIED (ipv6_host_id (Global_Clatd_Config w))).
  - unfold gen_random_iid, bind, arc4random_buf, ret. cbv zeta.
    match goal with
    | |- context [ip_checksum_adjust ?c ?o ?n] => generalize (ip_checksum_adjust c o n)
    end.
    intros delta. do 2 eexists. split; [reflexivity |]. split; [| split; [| reflexivity]].
    + unfold ipv6_prefix_equal.
      rewrite !take_insert_ge, take_store_bytes by lia.
      rewrite bool_decide_eq_true_2 by reflexivity. reflexivity.
    + rewrite !length_insert.
      generalize (map (fun j => u8 (arc4random E (random_taken w + j))) (seq 0 8)).
      intros src. generalize 8%nat. revert interface_ip.
      induction src as [|b src IH]; intros a off; cbn; [reflexivity |].
      rewrite IH, length_insert. reflexivity.
  - unfold ret. do 2 eexists. split; [reflexivity |]. cbn [fold_left].
    split; [| split; [| reflexivity]].
    + unfold ipv6_prefix_equal. rewrite !take_set_s6_addr32 by lia.
      rewrite bool_decide_eq_true_2 by reflexivity. reflexivity.
    + unfold set_s6_addr32. destruct bo; rewrite !length_insert; reflexivity.
Qed.

(** X5: [ipv6_prefix_equal] is an equivalence on addresses that looks at
    the first eight bytes only. *)
Theorem ipv6_prefix_equal_equivalence (a1 a2 a3 : list Z) :
  (ipv6_prefix_equal a1 a2 = 1 <-> take 8 a1 = take 8 a2) /\
  (ipv6_prefix_equal a1 a2 = 0 <-> take 8 a1 <> take 8 a2) /\
  ipv6_prefix_equal a1 a1 = 1 /\
  ipv6_prefix_equal a1 a2 = ipv6_prefix_equal a2 a1 /\
  (ipv6_prefix_equal a1 a2 = 1 -> ipv6_prefix_equal a2 a3 = 1 ->
   ipv6_prefix_equal a1 a3 = 1) /\
  (forall i v, (8 <= i)%nat ->
     ipv6_prefix_equal (<[i := v]> a1) a2 = ipv6_prefix_equal a1 a2).
Proof.
  unfold ipv6_prefix_equal. repeat split.
  - case_bool_decide; [auto | discriminate].
  - intros ->. rewrite bool_decide_eq_true_2; reflexivity.
  - case_bool_decide; [discriminate | auto].
  - intros H. rewrite bool_decide_eq_false_2; [reflexivity | exact H].
  - rewrite bool_decide_eq_true_2; reflexivity.
  - repeat case_bool_decide; congruence.
  - repeat case_bool_decide; congruence.
  - intros i v Hi. rewrite take_insert_ge by lia. reflexivity.
Qed.

Section MoreReaders.
Context (E : externals) (root : list (string * string)) (item_name : string)
        (defaultvar : option string).

(** X1: [config_item_str] returns NULL exactly when the tree has no such
    item and no default was given; otherwise it returns the value of the
    item if there is one and the default if not.  It logs one fatal message
    exactly when it returns NULL, and it never touches the configuration. *)
Theorem config_item_str_outcome (w : world) :
  exists r w',
    config_item_str root item_name defaultvar w = Some (r, w') /\
    Global_Clatd_Config w' = Global_Clatd_Config w /\
    dns_queries w' = dns_queries w /\
    (r = None <-> config_find root item_name = None /\ defaultvar = None) /\
    (forall node, config_find root item_name = Some node -> r = Some (snd node)) /\
    (config_find root item_name = None -> r = defaultvar) /\
    events w' = events w ++
      Config_str item_name ::
      match r with
      | Some _ => []
      | None => [Logmsg ANDROID_LOG_FATAL "%s config item needed" [ArgS item_name]]
      end.
Proof.
  unfold config_item_str, lookup_item, bind, logmsg, emit, ret, config_str. cbn.
  destruct (config_find root item_name) as [node|]; [| destruct defaultvar as [d|]]; cbn;
    do 2 eexists; (split; [reflexivity |]); cbn;
    repeat split; try congruence; try (intros [? ?]; congruence);
    rewrite <- ?app_assoc; reflexivity.
Qed.

(** Both address readers, for the family [af] they hand to [inet_pton]. *)
Lemma config_item_ip_any (af : address_family) (ret_val_ptr : ptr (list Z)) (w : world) :
  exists r w' logs,
    match af with
    | AF_INET => config_item_ip E root item_name defaultvar ret_val_ptr w
    | AF_INET6 => config_item_ip6 E root item_name defaultvar ret_val_ptr w
    end = Some (r, w') /\
    dns_queries w' = dns_queries w /\
    match config_str root item_name defaultvar with
    | None =>
        r = None /\ Global_Clatd_Config w' = Global_Clatd_Config w /\
        events w' = events w ++ Config_str item_name :: logs
    | Some tmp =>
        events w' = events w ++ Config_str item_name :: Inet_pton af tmp :: logs /\
        match inet_pton E af tmp with
        | Some a =>
            r = Some ret_val_ptr /\ logs = [] /\
            Global_Clatd_Config w' = store ret_val_ptr a (Global_Clatd_Config w)
        | None => r = None /\ Global_Clatd_Config w' = Global_Clatd_Config w
        end
    end /\
    (r = None -> exists fmt args, logs = [Logmsg ANDROID_LOG_FATAL fmt args]).
Proof.
  destruct af; unfold config_item_ip, config_item_ip6, lookup_item, call_inet_pton, bind,
    logmsg, emit, assign, modify_config, ret; cbn;
    destruct (config_str root item_name defaultvar) as [tmp|]; cbn;
    try destruct (inet_pton E _ tmp) as [a|]; cbn;
    do 3 eexists; (split; [reflexivity |]); (split; [reflexivity |]);
    rewrite <- ?app_assoc; cbn; repeat split; eauto; try discriminate.
Qed.

End MoreReaders.

Section Dns64Effects.
Context (E : externals) (net_id : Z).

Lemma dns64_trips_failures_trace (n : nat) : forall (j : nat) (w : world),
  (forall k, (k < n)%nat -> resolver_status E net_id w k <= 0) ->
  dns64_trips E n net_id (backoff_sequence j) w =
    Some (Looping (backoff_sequence (j + n)),
          {| Global_Clatd_Config := Global_Clatd_Config w;
             events := events w ++
               flat_map (failed_trip (plat_from_dns64_hostname (Global_Clatd_Config w)) net_id)
                        (seq j n);
             dns_queries := (dns_queries w + n)%nat;
             random_taken := random_taken w |}).
Proof.
  induction n as [|n IH]; intros j w Hfail.
  - cbn. rewrite Nat.add_0_r, app_nil_r, Nat.add_0_r. destruct w; reflexivity.
  - cbn [dns64_trips]. unfold bind at 1.
    rewrite dns64_iteration_failure by (apply Hfail; lia).
    rewrite backoff_sequence_step, IH.
    + cbn. rewrite <- app_assoc. do 3 f_equal; [f_equal; lia | f_equal; lia].
    + intros k Hk. specialize (Hfail (S k) ltac:(lia)).
      unfold resolver_status in *. cbn.
      replace (S (dns_queries w + k))%nat with (dns_queries w + S k)%nat by lia.
      exact Hfail.
Qed.

(** The run of [dns64_detection] whose query number [k] is the first to
    succeed. *)
Lemma dns64_detection_run (w : world) (k fuel : nat) :
  (forall i, (i < k)%nat -> resolver_status E net_id w i <= 0) ->
  0 < resolver_status E net_id w k ->
  (k < fuel)%nat ->
  dns64_detection E fuel net_id w =
    Some (tt,
          {| Global_Clatd_Config :=
               store addr_plat_subnet (resolver_prefix E net_id w k) (Global_Clatd_Config w);
             events := events w ++
               discovery_trace (plat_from_dns64_hostname (Global_Clatd_Config w)) net_id k;
             dns_queries := S (dns_queries w + k);
             random_taken := random_taken w |}).
Proof.
  intros Hfail Hok Hfuel.
  unfold dns64_detection, bind.
  replace fuel with (k + S (fuel - S k))%nat by lia.
  change 1 with (backoff_sequence 0).
  rewrite (dns64_trips_app E net_id k (S (fuel - S k)) _ _ _ _
             (dns64_trips_failures_trace k 0 w Hfail)).
  cbn [dns64_trips]. unfold bind.
  rewrite dns64_iteration_success.
  - cbn. unfold resolver_prefix, discovery_trace. cbn.
    rewrite Nat.add_0_r, <- app_assoc. reflexivity.
  - unfold resolver_status in *. cbn. rewrite Nat.add_0_r. exact Hok.
Qed.

(** While every query so far has failed, there is no result yet. *)
Lemma dns64_detection_pending (w : world) (fuel : nat) :
  (forall i, (i < fuel)%nat -> resolver_status E net_id w i <= 0) ->
  dns64_detection E fuel net_id w = None.
Proof.
  intros Hfail. unfold dns64_detection, bind. change 1 with (backoff_sequence 0).
  rewrite (dns64_trips_failures_trace fuel 0 w Hfail). reflexivity.
Qed.

(** X6: when query number [k] is the first to succeed, [dns64_detection]
    returns for every fuel above [k], always in the same world: the prefix
    is stored in [plat_subnet] and nothing else of the configuration
    changes, [k + 1] queries were made, every failure was followed by one
    warning and one sleep, all queries name the configured hostname and
    network, and no random bytes were drawn. *)
Theorem dns64_detection_effects (w : world) (k fuel : nat) :
  (forall i, (i < k)%nat -> resolver_status E net_id w i <= 0) ->
  0 < resolver_status E net_id w k ->
  (k < fuel)%nat ->
  exists w',
    dns64_detection E fuel net_id w = Some (tt, w') /\
    dns64_detection E (S k) net_id w = Some (tt, w') /\
    Global_Clatd_Config w' =
      store addr_plat_subnet (resolver_prefix E net_id w k) (Global_Clatd_Config w) /\
    events w' = events w ++
      discovery_trace (plat_from_dns64_hostname (Global_Clatd_Config w)) net_id k /\
    dns_queries w' = S (dns_queries w + k) /\
    random_taken w' = random_taken w.
Proof.
  intros Hfail Hok Hfuel.
  rewrite (dns64_detection_run w k fuel Hfail Hok Hfuel).
  rewrite (dns64_detection_run w k (S k) Hfail Hok ltac:(lia)).
  eexists. repeat split.
Qed.

End Dns64Effects.

Lemma total_sleep_app (l1 l2 : list event) :
  total_sleep (l1 ++ l2) = total_sleep l1 + total_sleep l2.
Proof.
  unfold total_sleep. rewrite sleeps_app.
  induction (sleeps l1) as [|x l IH]; cbn; [reflexivity | rewrite IH; lia].
Qed.

Lemma waited_succ (k : nat) : waited (S k) = waited k + backoff_sequence k.
Proof.
  unfold waited, backoff_sequence.
  destruct (Nat.leb_spec (S k) 7), (Nat.leb_spec k 7); try lia.
  - rewrite Nat2Z.inj_succ, Z.pow_succ_r by lia.
    assert (2 ^ Z.of_nat k <= 2 ^ 6) by (apply Z.pow_le_mono_r; lia).
    change (2 ^ 6) with 64 in *. lia.
  - assert (k = 7)%nat by lia. subst k. reflexivity.
  - assert (2 ^ 7 <= 2 ^ Z.of_nat k) by (apply Z.pow_le_mono_r; lia).
    change (2 ^ 7) with 128 in *. lia.
Qed.

Lemma total_sleep_failed_trips (h : option string) (net_id : Z) (k : nat) :
  total_sleep (flat_map (failed_trip h net_id) (seq 0 k)) = waited k.
Proof.
  induction k as [|k IH]; [reflexivity |].
  rewrite seq_S, flat_map_app, total_sleep_app, IH, waited_succ.
  cbn. unfold total_sleep. cbn. lia.
Qed.

Lemma queries_failed_trips (h : option string) (net_id : Z) (k : nat) : forall j,
  queries (flat_map (failed_trip h net_id) (seq j k)) = replicate k (h, net_id).
Proof.
  induction k as [|k IH]; intros j; [reflexivity |].
  cbn [seq flat_map]. unfold queries in *. rewrite omap_app, IH. reflexivity.
Qed.

(** X7: the time [dns64_detection] has blocked before its query number [k]
    is 2^k - 1 seconds for the first seven failures and grows by 120 seconds
    with every further one; on return after [k] failures that is the sum of
    all sleeps in the trace, and [k + 1] queries were made. *)
Theorem dns64_detection_waiting_time (E : externals) (net_id : Z) (w w' : world)
    (k fuel : nat) :
  (forall i, (i < k)%nat -> resolver_status E net_id w i <= 0) ->
  0 < resolver_status E net_id w k ->
  dns64_detection E fuel net_id w = Some (tt, w') ->
  exists evs,
    events w' = events w ++ evs /\
    total_sleep evs = waited k /\
    queries evs =
      replicate (S k) (plat_from_dns64_hostname (Global_Clatd_Config w), net_id) /\
    0 <= waited k <= 120 * Z.of_nat k.
Proof.
  intros Hfail Hok Hrun.
  assert (Hfuel : (k < fuel)%nat).
  { destruct (Nat.lt_ge_cases k fuel) as [? | Hge]; [assumption | exfalso].
    rewrite (dns64_detection_pending E net_id w fuel) in Hrun
      by (intros i Hi; apply Hfail; lia).
    discriminate. }
  rewrite (dns64_detection_run E net_id w k fuel Hfail Hok Hfuel) in Hrun.
  injection Hrun as <-. eexists. split; [reflexivity |]. split; [| split].
  - unfold discovery_trace. rewrite total_sleep_app, total_sleep_failed_trips.
    cbn. unfold total_sleep. cbn. lia.
  - unfold discovery_trace. unfold queries at 1. rewrite omap_app.
    fold (queries (flat_map (failed_trip
            (plat_from_dns64_hostname (Global_Clatd_Config w)) net_id) (seq 0 k))).
    rewrite queries_failed_trips.
    generalize (plat_from_dns64_hostname (Global_Clatd_Config w)). intros h. clear.
    induction k as [|k IH]; cbn in *; [reflexivity | f_equal; exact IH].
  - clear. induction k as [|k IH]; [cbn; lia |].
    rewrite waited_succ. pose proof (backoff_sequence_bounds k).
    assert (backoff_sequence k <= 120).
    { unfold backoff_sequence. lia. }
    lia.
Qed.

Lemma config_str_default (root : list (string * string)) (item_name d : string) :
  config_str root item_name (Some d) = Some (item_text root item_name d).
Proof. unfold item_text, config_str. destruct (config_find root item_name); reflexivity. Qed.

Lemma bind_eq {A B} (m : M A) (k : A -> M B) (w w1 : world) (a : A) :
  m w = Some (a, w1) -> bind m k w = k a w1.
Proof. intros H. unfold bind. rewrite H. reflexivity. Qed.

(** An accepted numeric item is a decimal literal, and its value is what
    [strtol] returned. *)
Lemma strtol_accept_literal (dm : data_model) (s : string) :
  strtol_errno (strtol dm s) <= 0 ->
  strtol_endptr (strtol dm s) = String.length s -> s <> "" ->
  decimal_literal s (strtol_value (strtol dm s)).
Proof.
  intros Herr Hend Hne.
  destruct (strtol_lex dm s) as [[_ Hs] | (p & v & rest & Hsplit & Hlit & Hrest)].
  - rewrite Hs in Hend. cbn in Hend. destruct s; [congruence | discriminate].
  - destruct (strtol_literal_facts dm p rest v Hlit Hrest) as (Hp & Hin & Hout).
    rewrite <- Hsplit in Hp, Hin, Hout.
    assert (rest = "") as ->.
    { apply (f_equal String.length) in Hsplit. rewrite length_append in Hsplit.
      destruct rest; [reflexivity | cbn in Hsplit; lia]. }
    rewrite append_nil_r in Hsplit. subst p.
    destruct (Z_lt_le_dec v (LONG_MIN dm)) as [Hlo | Hlo];
      [rewrite Hout in Herr by auto; unfold ERANGE in Herr; lia |].
    destruct (Z_lt_le_dec (LONG_MAX dm) v) as [Hhi | Hhi];
      [rewrite Hout in Herr by auto; unfold ERANGE in Herr; lia |].
    destruct (Hin ltac:(lia)) as [_ ->]. exact Hlit.
Qed.

Section Effects.
Context (bo : byte_order) (E : externals) (dm : data_model)
        (root : list (string * string)).

Lemma config_item_int16_t_effect (item_name d : string) (p : ptr Z) (w : world) :
  exists r w',
    config_item_int16_t dm root item_name (Some d) p w = Some (r, w') /\
    dns_queries w' = dns_queries w /\ random_taken w' = random_taken w /\
    match r with
    | None => Global_Clatd_Config w' = Global_Clatd_Config w
    | Some _ =>
        exists v, decimal_literal (item_text root item_name d) v /\ in_int16 v /\
          Global_Clatd_Config w' = store p v (Global_Clatd_Config w)
    end.
Proof.
  destruct (config_item_int16_t_outcome dm root item_name (Some d) p w)
    as [(e & _ & Hrun) | (s & Hs & He & Hend & Hne & Hr & Hrun)]; rewrite Hrun.
  - do 2 eexists. repeat split.
  - do 2 eexists. split; [reflexivity |]. split; [reflexivity |]. split; [reflexivity |].
    rewrite config_str_default in Hs. injection Hs as <-.
    eexists. split; [apply strtol_accept_literal; eassumption |]. split; [exact Hr |].
    reflexivity.
Qed.

Lemma config_item_int16_t_accepts (item_name d : string) (p : ptr Z) (v : Z) (w : world) :
  decimal_literal (item_text root item_name d) v -> in_int16 v ->
  config_item_int16_t dm root item_name (Some d) p w =
    Some (Some p, with_events (with_config w (store p v (Global_Clatd_Config w)))
                    [Config_str item_name]).
Proof.
  intros Hlit Hr.
  destruct (strtol_literal_facts dm _ "" v Hlit I) as (Hend & Hin & _).
  rewrite append_nil_r in Hend, Hin.
  destruct (Hin (int16_in_long dm v Hr)) as [Herr Hval].
  pose proof (decimal_literal_length _ _ Hlit) as Hlen.
  rewrite (config_item_int16_t_accept dm root item_name (Some d) p w
             (item_text root item_name d)); rewrite ?Hval, ?Herr, ?Hend;
    try reflexivity; try lia; try exact Hr.
  apply config_str_default.
Qed.

Lemma config_item_ip_accepts (item_name : string) (defaultvar : option string)
    (p : ptr (list Z)) (tmp : string) (a : list Z) (w : world) :
  config_str root item_name defaultvar = Some tmp ->
  inet_pton E AF_INET tmp = Some a ->
  config_item_ip E root item_name defaultvar p w =
    Some (Some p, with_events (with_config w (store p a (Global_Clatd_Config w)))
                    [Config_str item_name; Inet_pton AF_INET tmp]).
Proof.
  intros Hs Hp.
  unfold config_item_ip, lookup_item, call_inet_pton, bind, emit, assign, modify_config,
    ret, with_events, with_config. cbn. rewrite Hs. cbn. rewrite Hp. cbn.
  rewrite <- app_assoc. reflexivity.
Qed.

Lemma config_item_str_run (item_name : string) (defaultvar : option string) (w : world) :
  config_item_str root item_name defaultvar w =
    Some (config_str root item_name defaultvar,
          with_events w
            (Config_str item_name ::
             match config_str root item_name defaultvar with
             | Some _ => []
             | None => [Logmsg ANDROID_LOG_FATAL "%s config item needed" [ArgS item_name]]
             end)).
Proof.
  unfold config_item_str, lookup_item, bind, logmsg, emit, ret, with_events. cbn.
  destruct (config_str root item_name defaultvar); cbn; [reflexivity |].
  rewrite <- app_assoc. reflexivity.
Qed.

Lemma failed_effect (w : world) :
  exists w',
    failed w = Some (0, w') /\
    dns_queries w' = dns_queries w /\
    Global_Clatd_Config w' =
      store addr_plat_from_dns64_hostname None (Global_Clatd_Config w).
Proof.
  unfold failed, free_config, bind, get_config, assign, modify_config, ret.
  destruct w as [[m m4 l6 h6 l4 p6 ifc [h|]] evs q r]; cbn; eexists; repeat split.
Qed.

Lemma config_generate_local_ipv6_subnet_total (interface_ip : list Z) (w : world) :
  exists V w',
    config_generate_local_ipv6_subnet bo E interface_ip w = Some (V, w') /\
    dns_queries w' = dns_queries w /\
    Global_Clatd_Config w' = Global_Clatd_Config w.
Proof.
  unfold config_generate_local_ipv6_subnet, bind, get_config.
  destruct (IN6_IS_ADDR_UNSPECIFIED _).
  - unfold gen_random_iid, bind, arc4random_buf, ret. cbv zeta.
    do 2 eexists. repeat split.
  - unfold ret. do 2 eexists. repeat split.
Qed.

(** What [subnet_from_interface] does, case by case. *)
Lemma subnet_from_interface_effect (interface : string) (w : world) :
  exists r w',
    subnet_from_interface bo E root interface w = Some (r, w') /\
    dns_queries w' = dns_queries w /\
    match inet_pton E AF_INET6 (item_text root "ipv6_host_id" "::") with
    | None => r = 0 /\ Global_Clatd_Config w' = Global_Clatd_Config w
    | Some h =>
        match getinterface_ip E interface AF_INET6 with
        | None =>
            r = 0 /\
            Global_Clatd_Config w' = store addr_ipv6_host_id h (Global_Clatd_Config w)
        | Some ip6 =>
            r = 1 /\
            exists w1 V wg,
              Global_Clatd_Config w1 =
                store addr_ipv6_local_subnet ip6
                  (store addr_ipv6_host_id h (Global_Clatd_Config w)) /\
              config_generate_local_ipv6_subnet bo E ip6 w1 = Some (V, wg) /\
              Global_Clatd_Config w' =
                store addr_ipv6_local_subnet V (Global_Clatd_Config w1)
        end
    end.
Proof.
  unfold subnet_from_interface.
  destruct (config_item_ip_any E root "ipv6_host_id" (Some "::") AF_INET6
              addr_ipv6_host_id w) as (r0 & w0 & logs & Hrun & Hd0 & Hcase & _).
  cbn beta iota in Hrun. rewrite (bind_eq _ _ _ _ _ Hrun).
  rewrite config_str_default in Hcase. destruct Hcase as [_ Hcase].
  destruct (inet_pton E AF_INET6 (item_text root "ipv6_host_id" "::")) as [h|].
  - destruct Hcase as (-> & _ & Hc0).
    unfold call_getinterface_ip, bind at 1 2. cbn [emit ret].
    destruct (getinterface_ip E interface AF_INET6) as [ip6|].
    + unfold bind at 1. cbn [assign modify_config]. unfold bind at 1. cbn [get_config].
      match goal with
      | |- context [bind (config_generate_local_ipv6_subnet bo E ?ip) _ ?w1] =>
          change ip with ip6; remember w1 as w1' eqn:Hw1
      end.
      assert (Hc1 : Global_Clatd_Config w1' =
                    store addr_ipv6_local_subnet ip6 (Global_Clatd_Config w0))
        by (subst w1'; reflexivity).
      assert (Hd1 : dns_queries w1' = dns_queries w0) by (subst w1'; reflexivity).
      clear Hw1.
      destruct (config_generate_local_ipv6_subnet_total ip6 w1')
        as (V & wg & Hgen & Hdg & Hcg).
      rewrite (bind_eq _ _ _ _ _ Hgen).
      unfold bind, assign, modify_config, logmsg, emit, ret. cbn.
      do 2 eexists. split; [reflexivity |]. split; [cbn; lia |].
      split; [reflexivity |].
      exists w1', V, wg. split; [rewrite Hc1, Hc0; reflexivity |].
      split; [exact Hgen |]. cbn. rewrite Hcg. reflexivity.
    + unfold bind, logmsg, emit, ret. cbn. do 2 eexists. repeat split; auto.
  - destruct Hcase as [-> Hc0]. unfold ret. do 2 eexists. repeat split; auto.
Qed.

End Effects.

(** Follow the stores recorded in the hypotheses down to the field asked
    for. *)
Ltac chase :=
  cbn [mtu ipv4mtu ipv6_local_subnet ipv6_host_id ipv4_local_subnet plat_subnet
       default_pdp_interface plat_from_dns64_hostname store load
       addr_mtu addr_ipv4mtu addr_ipv6_local_subnet addr_ipv6_host_id
       addr_ipv4_local_subnet addr_plat_subnet addr_default_pdp_interface
       addr_plat_from_dns64_hostname zeroed_config Global_Clatd_Config];
  repeat (match goal with
          | H : Global_Clatd_Config ?x = _ |- context [Global_Clatd_Config ?x] => rewrite H
          end;
          cbn [mtu ipv4mtu ipv6_local_subnet ipv6_host_id ipv4_local_subnet plat_subnet
               default_pdp_interface plat_from_dns64_hostname store load
               addr_mtu addr_ipv4mtu addr_ipv6_local_subnet addr_ipv6_host_id
               addr_ipv4_local_subnet addr_plat_subnet addr_default_pdp_interface
               addr_plat_from_dns64_hostname zeroed_config Global_Clatd_Config]).

Ltac chase_in H0 :=
  cbn [mtu ipv4mtu ipv6_local_subnet ipv6_host_id ipv4_local_subnet plat_subnet
       default_pdp_interface plat_from_dns64_hostname store load
       addr_mtu addr_ipv4mtu addr_ipv6_local_subnet addr_ipv6_host_id
       addr_ipv4_local_subnet addr_plat_subnet addr_default_pdp_interface
       addr_plat_from_dns64_hostname zeroed_config Global_Clatd_Config] in H0;
  repeat (match type of H0 with
          | context [Global_Clatd_Config ?x] =>
              match goal with
              | H : Global_Clatd_Config x = _ |- _ => rewrite H in H0
              end
          end;
          cbn [mtu ipv4mtu ipv6_local_subnet ipv6_host_id ipv4_local_subnet plat_subnet
               default_pdp_interface plat_from_dns64_hostname store load
               addr_mtu addr_ipv4mtu addr_ipv6_local_subnet addr_ipv6_host_id
               addr_ipv4_local_subnet addr_plat_subnet addr_default_pdp_interface
               addr_plat_from_dns64_hostname zeroed_config Global_Clatd_Config] in H0).

Ltac run_prim H :=
  unfold bind at 1 in H;
  cbn [modify_config emit assign logmsg get_config] in H.

Section ReadConfigEffects.
Context (bo : byte_order) (E : externals) (dm : data_model).

Lemma call_inet_pton_effect (af : address_family) (src : string) (dst : ptr (list Z))
    (w : world) :
  exists w',
    call_inet_pton E af src dst w
      = Some (match inet_pton E af src with Some _ => 1 | None => 0 end, w') /\
    dns_queries w' = dns_queries w /\
    Global_Clatd_Config w' =
      match inet_pton E af src with
      | Some a => store dst a (Global_Clatd_Config w)
      | None => Global_Clatd_Config w
      end.
Proof.
  unfold call_inet_pton, bind, emit, assign, modify_config, ret.
  destruct (inet_pton E af src); cbn; eexists; repeat split.
Qed.

Lemma read_config_finish_effect (root : list (string * string)) (w : world) :
  exists r w',
    read_config_finish bo E root w = Some (r, w') /\
    dns_queries w' = dns_queries w /\
    ((r = 0 /\ plat_from_dns64_hostname (Global_Clatd_Config w') = None) \/
     (r = 1 /\
      exists h ip6 w1 V wg,
        inet_pton E AF_INET6 (item_text root "ipv6_host_id" "::") = Some h /\
        getinterface_ip E (default_pdp_interface_string E (Global_Clatd_Config w)) AF_INET6
          = Some ip6 /\
        Global_Clatd_Config w1 =
          store addr_ipv6_local_subnet ip6
            (store addr_ipv6_host_id h (Global_Clatd_Config w)) /\
        config_generate_local_ipv6_subnet bo E ip6 w1 = Some (V, wg) /\
        Global_Clatd_Config w' =
          store addr_ipv6_local_subnet V (Global_Clatd_Config w1))).
Proof.
  unfold read_config_finish. unfold bind at 1. cbn [get_config].
  destruct (subnet_from_interface_effect bo E root
              (default_pdp_interface_string E (Global_Clatd_Config w)) w)
    as (ok & w1 & Hrun & Hd & Hcase).
  rewrite (bind_eq _ _ _ _ _ Hrun).
  destruct (inet_pton E AF_INET6 (item_text root "ipv6_host_id" "::")) as [h|];
    [destruct (getinterface_ip E _ AF_INET6) as [ip6|] |].
  - destruct Hcase as (-> & wa & V & wg & Hca & Hgen & Hc1). cbn [Z.eqb].
    unfold ret. exists 1, w1. split; [reflexivity |]. split; [exact Hd |]. right.
    split; [reflexivity |]. exists h, ip6, wa, V, wg. auto.
  - destruct Hcase as [-> _]. cbn [Z.eqb].
    destruct (failed_effect w1) as (wf & Hf & Hdf & Hcf). rewrite Hf.
    exists 0, wf. split; [reflexivity |]. split; [lia |]. left.
    split; [reflexivity |]. rewrite Hcf. reflexivity.
  - destruct Hcase as [-> _]. cbn [Z.eqb].
    destruct (failed_effect w1) as (wf & Hf & Hdf & Hcf). rewrite Hf.
    exists 0, wf. split; [reflexivity |]. split; [lia |]. left.
    split; [reflexivity |]. rewrite Hcf. reflexivity.
Qed.

(** Close a branch that has reached the [failed:] label. *)
Ltac at_failed H :=
  match type of H with
  | failed ?W = Some _ =>
      let wf := fresh "wf" in
      let Hf := fresh "Hf" in
      let Hcf := fresh "Hcf" in
      destruct (failed_effect W) as (wf & Hf & _ & Hcf);
      rewrite Hf in H; injection H as <- <-;
      left; split; [reflexivity | rewrite Hcf; reflexivity]
  end.

(** Use the outcome of [read_config_finish] at the end of a run. *)
Ltac at_finish H :=
  match type of H with
  | read_config_finish _ _ ?root ?W = Some _ =>
      let rf := fresh "rf" in
      let wf := fresh "wf" in
      let Hf := fresh "Hf" in
      let Hfin := fresh "Hfin" in
      destruct (read_config_finish_effect root W) as (rf & wf & Hf & _ & Hfin);
      rewrite Hf in H; injection H as <- <-
  end.

(** What a run of [read_config] that returns has achieved. *)
Lemma read_config_post (fuel : nat) (file uplink_interface : string)
    (override : option string) (net_id : Z) (w w' : world) (r : Z) :
  read_config bo E dm fuel file uplink_interface override net_id w = Some (r, w') ->
  (r = 0 /\ plat_from_dns64_hostname (Global_Clatd_Config w') = None) \/
  (r = 1 /\ config_file E file <> [] /\
   scalar_items E (config_file E file) uplink_interface (Global_Clatd_Config w') /\
   plat_source E (config_file E file) override net_id (dns_queries w)
     (Global_Clatd_Config w') /\
   local_address_source bo E (config_file E file) (Global_Clatd_Config w')).
Proof.
  intros Hrun. unfold read_config in Hrun.
  run_prim Hrun. run_prim Hrun. cbv zeta in Hrun.
  destruct (config_file E file) as [|node root'] eqn:Hroot.
  { run_prim Hrun. at_failed Hrun. }
  set (root := node :: root') in *.
  run_prim Hrun.
  match type of Hrun with
  | bind _ _ ?W = _ =>
      destruct (config_item_int16_t_effect dm root "mtu" "-1" addr_mtu W)
        as (r1 & w1 & Hr1 & Hd1 & _ & Hc1)
  end.
  rewrite (bind_eq _ _ _ _ _ Hr1) in Hrun. cbn in Hd1, Hc1.
  destruct r1 as [p1|]; [| at_failed Hrun].
  destruct Hc1 as (v1 & Hlit1 & Hrg1 & Hc1).
  destruct (config_item_int16_t_effect dm root "ipv4mtu" "-1" addr_ipv4mtu w1)
    as (r2 & w2 & Hr2 & Hd2 & _ & Hc2).
  rewrite (bind_eq _ _ _ _ _ Hr2) in Hrun.
  destruct r2 as [p2|]; [| at_failed Hrun].
  destruct Hc2 as (v2 & Hlit2 & Hrg2 & Hc2).
  destruct (config_item_ip_any E root "ipv4_local_subnet"
              (Some (DEFAULT_IPV4_LOCAL_SUBNET E)) AF_INET addr_ipv4_local_subnet w2)
    as (r3 & w3 & logs3 & Hr3 & Hd3 & Hc3 & _).
  cbn beta iota in Hr3. rewrite (bind_eq _ _ _ _ _ Hr3) in Hrun.
  rewrite config_str_default in Hc3. destruct Hc3 as [_ Hc3].
  destruct (inet_pton E AF_INET (item_text root "ipv4_local_subnet"
              (DEFAULT_IPV4_LOCAL_SUBNET E))) as [a4|] eqn:Hip4;
    [destruct Hc3 as (-> & _ & Hc3) | destruct Hc3 as [-> _]; at_failed Hrun].
  assert (Hscalar : forall c,
            mtu c = v1 -> ipv4mtu c = v2 -> ipv4_local_subnet c = a4 ->
            default_pdp_interface c =
              strncpy uplink_interface (sizeof_default_pdp_interface E) ->
            scalar_items E root uplink_interface c).
  { intros c <- <- <- Hpdp. unfold scalar_items. auto 8. }
  assert (Hd : dns_queries w3 = dns_queries w) by lia.
  clear Hr1 Hr2 Hr3 Hd1 Hd2 Hd3.
  destruct override as [text|].
  - (* the prefix comes from the command line *)
    destruct (call_inet_pton_effect AF_INET6 text addr_plat_subnet w3)
      as (w4 & Hr4 & _ & Hc4).
    rewrite (bind_eq _ _ _ _ _ Hr4) in Hrun. clear Hr4.
    destruct (inet_pton E AF_INET6 text) as [P|] eqn:Hplat; cbn [Z.leb Z.compare] in Hrun;
      [| run_prim Hrun; at_failed Hrun].
    at_finish Hrun.
    destruct Hfin as [[-> Hh] | (-> & h & ip6 & wa & V & wg & Hh & Hif & Hca & Hgen & Hcf)];
      [left; auto | right].
    split; [reflexivity |]. split; [discriminate |].
    split; [apply Hscalar; chase; reflexivity |].
    split; [cbn [plat_source]; rewrite Hplat; split; chase; reflexivity |].
    split; [chase; exact Hh |].
    exists ip6, wa, wg. split.
      { match goal with
        | |- context [before_local_address ?C] =>
            replace (before_local_address C) with (Global_Clatd_Config w4);
              [exact Hif | unfold before_local_address; chase; reflexivity]
        end. }
      repeat split; chase; auto.
  - rewrite (bind_eq _ _ _ _ _ (config_item_str_run root _ _ w3)) in Hrun.
    rewrite config_str_default in Hrun.
    match type of Hrun with
    | context [with_events w3 ?evs] =>
        assert (Hc4 : Global_Clatd_Config (with_events w3 evs) = Global_Clatd_Config w3)
          by reflexivity;
        assert (Hd4 : dns_queries (with_events w3 evs) = dns_queries w) by exact Hd;
        generalize dependent (with_events w3 evs)
    end.
    intros w4 Hrun Hc4 Hd4.
    destruct (String.eqb (item_text root "plat_from_dns64" "yes") "no") eqn:Hmode.
    + (* static prefix *)
      destruct (config_item_ip_any E root "plat_subnet" None AF_INET6 addr_plat_subnet w4)
        as (r5 & w5 & logs5 & Hr5 & _ & Hc5 & _).
      cbn beta iota in Hr5. rewrite (bind_eq _ _ _ _ _ Hr5) in Hrun. clear Hr5.
      destruct (config_str root "plat_subnet" None) as [text|] eqn:Htext;
        [| destruct Hc5 as (-> & _); run_prim Hrun; at_failed Hrun].
      destruct Hc5 as [_ Hc5].
      destruct (inet_pton E AF_INET6 text) as [P|] eqn:Hplat;
        [destruct Hc5 as (-> & _ & Hc5)
        | destruct Hc5 as [-> _]; run_prim Hrun; at_failed Hrun].
      at_finish Hrun.
      destruct Hfin as [[-> Hh] | (-> & h & ip6 & wa & V & wg & Hh & Hif & Hca & Hgen & Hcf)];
        [left; auto | right].
      split; [reflexivity |]. split; [discriminate |].
      split; [apply Hscalar; chase; reflexivity |].
      split.
      { cbn [plat_source]. rewrite Hmode. split; [| chase; reflexivity].
        exists text. split; [exact Htext |]. rewrite Hplat. chase. reflexivity. }
      split; [chase; exact Hh |].
      exists ip6, wa, wg. split.
      { match goal with
        | |- context [before_local_address ?C] =>
            replace (before_local_address C) with (Global_Clatd_Config w5);
              [exact Hif | unfold before_local_address; chase; reflexivity]
        end. }
      repeat split; chase; auto.
    + (* discovery *)
      rewrite (bind_eq _ _ _ _ _ (config_item_str_run root _ _ w4)) in Hrun.
      rewrite config_str_default in Hrun. run_prim Hrun.
      match type of Hrun with
      | bind _ _ ?W = _ =>
          assert (Hc5 : Global_Clatd_Config W =
                        store addr_plat_from_dns64_hostname
                          (Some (item_text root "plat_from_dns64_hostname"
                                   (DEFAULT_DNS64_DETECTION_HOSTNAME E)))
                          (Global_Clatd_Config w4)) by reflexivity;
          assert (Hd5 : dns_queries W = dns_queries w) by exact Hd4;
          generalize dependent W
      end.
      intros w5 Hrun Hc5 Hd5.
      destruct (first_success E net_id w5 fuel) as [Hnone | (k & Hk & Hok & Hfail)].
      { unfold bind in Hrun. rewrite (dns64_detection_pending E net_id w5 fuel Hnone) in Hrun.
        discriminate. }
      rewrite (bind_eq _ _ _ _ _ (dns64_detection_run E net_id w5 k fuel Hfail Hok Hk)) in Hrun.
      match type of Hrun with
      | read_config_finish _ _ _ ?W = _ =>
          assert (Hc6 : Global_Clatd_Config W =
                        store addr_plat_subnet (resolver_prefix E net_id w5 k)
                          (Global_Clatd_Config w5)) by reflexivity;
          generalize dependent W
      end.
      intros w6 Hrun Hc6.
      at_finish Hrun.
      destruct Hfin as [[-> Hh] | (-> & h & ip6 & wa & V & wg & Hh & Hif & Hca & Hgen & Hcf)];
        [left; auto | right].
      unfold resolver_status, resolver_prefix in *. rewrite Hd5 in *.
      split; [reflexivity |]. split; [discriminate |].
      split; [apply Hscalar; chase; reflexivity |].
      split.
      { cbn [plat_source]. rewrite Hmode. split; [chase; reflexivity |].
        exists k. chase_in Hfail. chase_in Hok. repeat split; chase; auto. }
      split; [chase; exact Hh |].
      exists ip6, wa, wg. split.
      { match goal with
        | |- context [before_local_address ?C] =>
            replace (before_local_address C) with (Global_Clatd_Config w6);
              [exact Hif | unfold before_local_address; chase; reflexivity]
        end. }
      repeat split; chase; auto.
Qed.

End ReadConfigEffects.

(** The random path of [config_generate_local_ipv6_subnet] on a
    little-endian machine. *)
Lemma config_generate_random_neutral (E : externals) (ip6 V : list Z) (w wg : world) :
  valid_bytes 16 ip6 = true ->
  valid_bytes 4 (ipv4_local_subnet (Global_Clatd_Config w)) = true ->
  valid_bytes 16 (plat_subnet (Global_Clatd_Config w)) = true ->
  IN6_IS_ADDR_UNSPECIFIED (ipv6_host_id (Global_Clatd_Config w)) = true ->
  config_generate_local_ipv6_subnet LittleEndian E ip6 w = Some (V, wg) ->
  valid_bytes 16 V = true /\
  ones_complement_eq
    (ip_checksum_add LittleEndian 0 (ipv4_local_subnet (Global_Clatd_Config w)) 4)
    (ip_checksum_add LittleEndian 0 (plat_subnet (Global_Clatd_Config w)) 16 +
     ip_checksum_add LittleEndian 0 V 16).
Proof.
  intros Hip HA HP Hspec Hrun.
  unfold config_generate_local_ipv6_subnet, bind, get_config in Hrun.
  rewrite Hspec in Hrun.
  destruct (arc4random_buf_spec E 8 w) as (rnd & Hrnd & Hr).
  unfold gen_random_iid, bind in Hrun. rewrite Hrnd in Hrun. cbv zeta in Hrun.
  unfold ret in Hrun. injection Hrun as <- _.
  assert (HV : valid_bytes 16 (store_bytes 8 rnd ip6) = true).
  { explode_bytes Hip ip6. explode_bytes Hr rnd. cbn [store_bytes insert list_insert].
    bytes_solver. }
  exact (checksum_neutral_adjust _ _ _ HV HA HP _ eq_refl).
Qed.

(** The other path: the low half is the host id's. *)
Lemma config_generate_copies_host_id (bo : byte_order) (E : externals) (ip6 V : list Z)
    (w wg : world) :
  valid_bytes 16 ip6 = true ->
  valid_bytes 16 (ipv6_host_id (Global_Clatd_Config w)) = true ->
  IN6_IS_ADDR_UNSPECIFIED (ipv6_host_id (Global_Clatd_Config w)) = false ->
  config_generate_local_ipv6_subnet bo E ip6 w = Some (V, wg) ->
  V = take 8 ip6 ++ drop 8 (ipv6_host_id (Global_Clatd_Config w)).
Proof.
  intros Hip Hid Hspec Hrun.
  unfold config_generate_local_ipv6_subnet, bind, get_config in Hrun.
  rewrite Hspec in Hrun. unfold ret in Hrun. injection Hrun as <- _.
  remember (ipv6_host_id (Global_Clatd_Config w)) as host eqn:Hhost. clear Hhost Hspec.
  explode_bytes Hip ip6. explode_bytes Hid host.
  cbn [fold_left].
  destruct bo; unfold set_s6_addr32, s6_addr32, s6_addr;
    cbn [nth Nat.mul Nat.add];
    repeat match goal with
    | |- context [u8 (Z.shiftr (?b0 + ?b1 * 2 ^ 8 + ?b2 * 2 ^ 16 + ?b3 * 2 ^ 24) _)] =>
        let Hw := fresh "Hw" in
        pose proof (word32_bytes b0 b1 b2 b3 ltac:(lia) ltac:(lia) ltac:(lia) ltac:(lia)) as Hw;
        cbv zeta in Hw; destruct Hw as (-> & -> & -> & ->)
    end; reflexivity.
Qed.

(** The outcome of an address reader, from what [config_item_ip_any] says
    about its run. *)
Ltac address_reader_outcome af root name d r w' Hrun Hd Hcase Hlog :=
  let tmp := fresh "tmp" in
  let a := fresh "a" in
  let Hev := fresh "Hev" in
  let Hc := fresh "Hc" in
  let Hp := fresh "Hp" in
  let Hq := fresh "Hq" in
  let fmt := fresh "fmt" in
  let args := fresh "args" in
  cbn beta iota in Hrun; exists r, w';
  split; [exact Hrun |]; split; [exact Hd |];
  destruct (config_str root name d) as [tmp|];
  [ destruct Hcase as [Hev Hcase];
    destruct (inet_pton _ af tmp) as [a|] eqn:Hp;
    [ destruct Hcase as (-> & -> & Hc);
      split; [split; [intros _; exists tmp, a; auto | discriminate] |];
      split; [intros ? ? [= <-] Hq; rewrite Hp in Hq; injection Hq as <-; auto
             | discriminate]
    | destruct Hcase as (-> & Hc);
      destruct (Hlog eq_refl) as (fmt & args & ->);
      split; [split; [congruence | intros (? & ? & [= <-] & Hq); congruence] |];
      split; [intros ? ? [= <-] Hq; congruence |];
      intros _; split; [exact Hc |];
      exists [Config_str name; Inet_pton af tmp], fmt, args;
      split; [rewrite Hev; reflexivity |];
      repeat (constructor; [intros (? & ? & [=]) |]); constructor ]
  | destruct Hcase as (-> & Hc & Hev);
    destruct (Hlog eq_refl) as (fmt & args & ->);
    split; [split; [congruence | intros (? & ? & [=] & _)] |];
    split; [intros ? ? [=] |];
    intros _; split; [exact Hc |];
    exists [Config_str name], fmt, args;
    split; [rewrite Hev; reflexivity |];
    repeat (constructor; [intros (? & ? & [=]) |]); constructor ].

(** X2: [config_item_ip] returns its destination pointer exactly when the
    item resolves to a text that [inet_pton] accepts as an IPv4 address;
    then the address is stored and nothing is logged.  Otherwise it returns
    NULL, the configuration is left as it was, and the last thing it did
    was to log one fatal message. *)
Theorem config_item_ip_outcome (E : externals) (root : list (string * string))
    (item_name : string) (defaultvar : option string) (ret_val_ptr : ptr (list Z))
    (w : world) :
  exists r w',
    config_item_ip E root item_name defaultvar ret_val_ptr w = Some (r, w') /\
    dns_queries w' = dns_queries w /\
    (r <> None <->
       exists tmp a, config_str root item_name defaultvar = Some tmp /\
                     inet_pton E AF_INET tmp = Some a) /\
    (forall tmp a,
       config_str root item_name defaultvar = Some tmp ->
       inet_pton E AF_INET tmp = Some a ->
       r = Some ret_val_ptr /\
       Global_Clatd_Config w' = store ret_val_ptr a (Global_Clatd_Config w) /\
       events w' = events w ++ [Config_str item_name; Inet_pton AF_INET tmp]) /\
    (r = None ->
       Global_Clatd_Config w' = Global_Clatd_Config w /\
       exists evs fmt args,
         events w' = events w ++ evs ++ [Logmsg ANDROID_LOG_FATAL fmt args] /\
         Forall (fun e => ~ is_fatal_log e) evs).
Proof.
  destruct (config_item_ip_any E root item_name defaultvar AF_INET ret_val_ptr w)
    as (r & w' & logs & Hrun & Hd & Hcase & Hlog).
  address_reader_outcome AF_INET root item_name defaultvar r w' Hrun Hd Hcase Hlog.
Qed.

(** X3: [config_item_ip6] returns its destination pointer exactly when the
    item resolves to a text that [inet_pton] accepts as an IPv6 address;
    then the address is stored and nothing is logged.  Otherwise, and in
    particular for a missing item without default, it returns NULL, the
    configuration is left as it was, and the last thing it did was to log
    one fatal message. *)
Theorem config_item_ip6_outcome (E : externals) (root : list (string * string))
    (item_name : string) (defaultvar : option string) (ret_val_ptr : ptr (list Z))
    (w : world) :
  exists r w',
    config_item_ip6 E root item_name defaultvar ret_val_ptr w = Some (r, w') /\
    dns_queries w' = dns_queries w /\
    (r <> None <->
       exists tmp a, config_str root item_name defaultvar = Some tmp /\
                     inet_pton E AF_INET6 tmp = Some a) /\
    (forall tmp a,
       config_str root item_name defaultvar = Some tmp ->
       inet_pton E AF_INET6 tmp = Some a ->
       r = Some ret_val_ptr /\
       Global_Clatd_Config w' = store ret_val_ptr a (Global_Clatd_Config w) /\
       events w' = events w ++ [Config_str item_name; Inet_pton AF_INET6 tmp]) /\
    (r = None ->
       Global_Clatd_Config w' = Global_Clatd_Config w /\
       exists evs fmt args,
         events w' = events w ++ evs ++ [Logmsg ANDROID_LOG_FATAL fmt args] /\
         Forall (fun e => ~ is_fatal_log e) evs).
Proof.
  destruct (config_item_ip_any E root item_name defaultvar AF_INET6 ret_val_ptr w)
    as (r & w' & logs & Hrun & Hd & Hcase & Hlog).
  address_reader_outcome AF_INET6 root item_name defaultvar r w' Hrun Hd Hcase Hlog.
Qed.

(** X8: [subnet_from_interface] returns 1 exactly when the host id text
    parses and the interface has an IPv6 address; the local address it then
    stores lies in the /64 of the interface's address.  It never touches the
    other six fields.  When the interface has no address it returns 0 with
    the host id already overwritten and the local address untouched; when
    the host id does not parse it changes nothing at all. *)
Theorem subnet_from_interface_outcome (bo : byte_order) (E : externals)
    (root : list (string * string)) (interface : string) (w : world) :
  exists r w',
    subnet_from_interface bo E root interface w = Some (r, w') /\
    dns_queries w' = dns_queries w /\
    (mtu (Global_Clatd_Config w') = mtu (Global_Clatd_Config w) /\
     ipv4mtu (Global_Clatd_Config w') = ipv4mtu (Global_Clatd_Config w) /\
     ipv4_local_subnet (Global_Clatd_Config w') = ipv4_local_subnet (Global_Clatd_Config w) /\
     plat_subnet (Global_Clatd_Config w') = plat_subnet (Global_Clatd_Config w) /\
     default_pdp_interface (Global_Clatd_Config w')
       = default_pdp_interface (Global_Clatd_Config w) /\
     plat_from_dns64_hostname (Global_Clatd_Config w')
       = plat_from_dns64_hostname (Global_Clatd_Config w)) /\
    match inet_pton E AF_INET6 (item_text root "ipv6_host_id" "::"),
          getinterface_ip E interface AF_INET6 with
    | Some h, Some ip6 =>
        r = 1 /\
        ipv6_host_id (Global_Clatd_Config w') = h /\
        ipv6_prefix_equal (ipv6_local_subnet (Global_Clatd_Config w')) ip6 = 1 /\
        length (ipv6_local_subnet (Global_Clatd_Config w')) = length ip6
    | Some h, None =>
        r = 0 /\
        ipv6_host_id (Global_Clatd_Config w') = h /\
        ipv6_local_subnet (Global_Clatd_Config w') = ipv6_local_subnet (Global_Clatd_Config w)
    | None, _ => r = 0 /\ Global_Clatd_Config w' = Global_Clatd_Config w
    end.
Proof.
  destruct (subnet_from_interface_effect bo E root interface w)
    as (r & w' & Hrun & Hd & Hcase).
  exists r, w'. split; [exact Hrun |]. split; [exact Hd |].
  destruct (inet_pton E AF_INET6 (item_text root "ipv6_host_id" "::")) as [h|];
    [destruct (getinterface_ip E interface AF_INET6) as [ip6|] |].
  - destruct Hcase as (-> & w1 & V & wg & Hc1 & Hgen & Hc').
    destruct (config_generate_prefix bo E ip6 w1) as (V' & wg' & Hgen' & Hp & Hl & _).
    rewrite Hgen in Hgen'. injection Hgen' as <- <-.
    split; [repeat split; chase; reflexivity |].
    split; [reflexivity |]. split; [chase; reflexivity |]. split; chase; assumption.
  - destruct Hcase as [-> Hc'].
    split; [repeat split; chase; reflexivity |].
    split; [reflexivity |]. split; chase; reflexivity.
  - destruct Hcase as [-> Hc']. rewrite Hc'. repeat split.
Qed.

Lemma decimal_literal_minus_one : decimal_literal "-1" (-1).
Proof. exists "", "-", "1". repeat split; auto; discriminate. Qed.

Lemma item_text_absent (root : list (string * string)) (item_name d : string) :
  config_find root item_name = None -> item_text root item_name d = d.
Proof. intros H. unfold item_text, config_str. rewrite H. reflexivity. Qed.

(** X9: [read_config] returns 0 or 1 and nothing else.  After a 0 the
    discovery hostname is released; the hostname is set afterwards only
    when the run returned 1 and went through discovery.  A 1 needs a
    non-empty tree.  What was in the configuration before the call has no
    influence on the outcome. *)
Theorem read_config_result (bo : byte_order) (E : externals) (dm : data_model)
    (fuel : nat) (file uplink_interface : string) (plat_prefix : option string)
    (net_id : Z) (w w' : world) (r : Z) (previous : clat_config) :
  read_config bo E dm fuel file uplink_interface plat_prefix net_id w = Some (r, w') ->
  (r = 0 \/ r = 1) /\
  (r = 0 -> plat_from_dns64_hostname (Global_Clatd_Config w') = None) /\
  (plat_from_dns64_hostname (Global_Clatd_Config w') <> None ->
     r = 1 /\ plat_prefix = None /\
     String.eqb (item_text (config_file E file) "plat_from_dns64" "yes") "no" = false) /\
  (r = 1 -> config_file E file <> []) /\
  read_config bo E dm fuel file uplink_interface plat_prefix net_id (with_config w previous)
    = Some (r, w').
Proof.
  intros Hrun.
  assert (Hprev :
    read_config bo E dm fuel file uplink_interface plat_prefix net_id (with_config w previous)
    = read_config bo E dm fuel file uplink_interface plat_prefix net_id w).
  { unfold read_config. unfold bind at 1 3. reflexivity. }
  rewrite Hprev.
  destruct (read_config_post bo E dm fuel file uplink_interface plat_prefix net_id w w' r Hrun)
    as [[-> Hh] | (-> & Hroot & _ & Hplat & _)].
  - split; [auto |]. split; [auto |]. split; [intros Hne; congruence |].
    split; [discriminate | exact Hrun].
  - split; [auto |]. split; [discriminate |]. split; [| split; [auto | exact Hrun]].
    intros Hne. split; [reflexivity |].
    destruct plat_prefix; [destruct Hplat as [_ Hh]; congruence |].
    split; [reflexivity |]. cbn [plat_source] in Hplat.
    destruct (String.eqb _ "no"); [destruct Hplat as [_ Hh]; congruence | reflexivity].
Qed.

(** X10: after [read_config] returned 1, [mtu] and [ipv4mtu] hold the value
    of the decimal literal their item resolves to, within the 16-bit range,
    and -1 when the tree has no such item; [ipv4_local_subnet] is what
    [inet_pton] makes of the item or of the built-in default; and
    [default_pdp_interface] is the uplink name cut to the size of the
    field. *)
Theorem read_config_scalar_items (bo : byte_order) (E : externals) (dm : data_model)
    (fuel : nat) (file uplink_interface : string) (plat_prefix : option string)
    (net_id : Z) (w w' : world) :
  read_config bo E dm fuel file uplink_interface plat_prefix net_id w = Some (1, w') ->
  scalar_items E (config_file E file) uplink_interface (Global_Clatd_Config w') /\
  (config_find (config_file E file) "mtu" = None -> mtu (Global_Clatd_Config w') = -1) /\
  (config_find (config_file E file) "ipv4mtu" = None ->
     ipv4mtu (Global_Clatd_Config w') = -1) /\
  (config_find (config_file E file) "ipv4_local_subnet" = None ->
     inet_pton E AF_INET (DEFAULT_IPV4_LOCAL_SUBNET E)
       = Some (ipv4_local_subnet (Global_Clatd_Config w'))).
Proof.
  intros Hrun.
  destruct (read_config_post bo E dm fuel file uplink_interface plat_prefix net_id w w' 1 Hrun)
    as [[Hr _] | (_ & _ & Hs & _)]; [discriminate |].
  split; [exact Hs |].
  destruct Hs as (Hm & _ & Hm4 & _ & Hip & _).
  split; [| split]; intros Habs.
  - rewrite item_text_absent in Hm by exact Habs.
    exact (decimal_literal_unique _ _ _ Hm decimal_literal_minus_one).
  - rewrite item_text_absent in Hm4 by exact Habs.
    exact (decimal_literal_unique _ _ _ Hm4 decimal_literal_minus_one).
  - rewrite item_text_absent in Hip by exact Habs. exact Hip.
Qed.

(** X11: after [read_config] returned 1, the PLAT prefix comes from exactly
    one place, in this order of precedence: the command line if it gave a
    prefix; else the [plat_subnet] item if [plat_from_dns64] is "no"; else
    the first resolver query that succeeded, every earlier one having
    failed.  Only in the last case is the discovery hostname kept. *)
Theorem read_config_plat_source (bo : byte_order) (E : externals) (dm : data_model)
    (fuel : nat) (file uplink_interface : string) (plat_prefix : option string)
    (net_id : Z) (w w' : world) :
  read_config bo E dm fuel file uplink_interface plat_prefix net_id w = Some (1, w') ->
  plat_source E (config_file E file) plat_prefix net_id (dns_queries w)
    (Global_Clatd_Config w').
Proof.
  intros Hrun.
  destruct (read_config_post bo E dm fuel file uplink_interface plat_prefix net_id w w' 1 Hrun)
    as [[Hr _] | (_ & _ & _ & Hp & _)]; [discriminate | exact Hp].
Qed.

Lemma substring_whole (s : string) : forall n,
  (String.length s <= n)%nat -> String.substring 0 n s = s.
Proof.
  induction s as [|c s IH]; intros [|n] Hn; cbn in *; try reflexivity; try lia.
  f_equal. apply IH. lia.
Qed.

Lemma length_substring_full (s : string) : forall n,
  (n <= String.length s)%nat -> String.length (String.substring 0 n s) = n.
Proof.
  induction s as [|c s IH]; intros [|n] Hn; cbn in *; try reflexivity; try lia.
  f_equal. apply IH. lia.
Qed.

(** A name that fits the field with its terminator is read back as it is. *)
Lemma default_pdp_interface_string_fits (E : externals) (c : clat_config)
    (uplink_interface : string) :
  default_pdp_interface c = strncpy uplink_interface (sizeof_default_pdp_interface E) ->
  (String.length uplink_interface < sizeof_default_pdp_interface E)%nat ->
  default_pdp_interface_string E c = uplink_interface.
Proof.
  intros Hc Hfit. unfold default_pdp_interface_string, strncpy in *.
  rewrite substring_whole in Hc by lia. rewrite Hc.
  destruct (Nat.ltb_spec (String.length uplink_interface) (sizeof_default_pdp_interface E));
    [reflexivity | lia].
Qed.

(** A longer one is read back cut, and continued by what lies behind the
    field. *)
Lemma default_pdp_interface_string_full (E : externals) (c : clat_config)
    (uplink_interface : string) :
  default_pdp_interface c = strncpy uplink_interface (sizeof_default_pdp_interface E) ->
  (sizeof_default_pdp_interface E <= String.length uplink_interface)%nat ->
  default_pdp_interface_string E c =
    strncpy uplink_interface (sizeof_default_pdp_interface E) +:+
    bytes_after_default_pdp_interface E c.
Proof.
  intros Hc Hfull. unfold default_pdp_interface_string. rewrite Hc. unfold strncpy.
  rewrite length_substring_full by exact Hfull.
  rewrite Nat.ltb_irrefl. reflexivity.
Qed.

(** X12: after [read_config] returned 1, the local IPv6 address lies in the
    /64 of the address found on the interface whose name was read back from
    [default_pdp_interface] when the host id and the local address were
    still zero.  That name is the uplink name when it fits the field with
    its terminator; a name of [sizeof] bytes or more is looked up cut to the
    field and continued by whatever lies behind the field.  [ipv6_host_id]
    is what the item (default "::") parses to, and when that host id is not
    the unspecified address, the local address is the interface's upper
    half followed by the host id's lower half. *)
Theorem read_config_local_address (bo : byte_order) (E : externals) (dm : data_model)
    (fuel : nat) (file uplink_interface : string) (plat_prefix : option string)
    (net_id : Z) (w w' : world) :
  well_formed_externals E ->
  read_config bo E dm fuel file uplink_interface plat_prefix net_id w = Some (1, w') ->
  exists ip6,
    getinterface_ip E
      (default_pdp_interface_string E (before_local_address (Global_Clatd_Config w')))
      AF_INET6 = Some ip6 /\
    ((String.length uplink_interface < sizeof_default_pdp_interface E)%nat ->
     default_pdp_interface_string E (before_local_address (Global_Clatd_Config w'))
       = uplink_interface) /\
    ((sizeof_default_pdp_interface E <= String.length uplink_interface)%nat ->
     default_pdp_interface_string E (before_local_address (Global_Clatd_Config w')) =
       strncpy uplink_interface (sizeof_default_pdp_interface E) +:+
       bytes_after_default_pdp_interface E (before_local_address (Global_Clatd_Config w'))) /\
    inet_pton E AF_INET6 (item_text (config_file E file) "ipv6_host_id" "::")
      = Some (ipv6_host_id (Global_Clatd_Config w')) /\
    ipv6_prefix_equal (ipv6_local_subnet (Global_Clatd_Config w')) ip6 = 1 /\
    (IN6_IS_ADDR_UNSPECIFIED (ipv6_host_id (Global_Clatd_Config w')) = false ->
     ipv6_local_subnet (Global_Clatd_Config w') =
       take 8 ip6 ++ drop 8 (ipv6_host_id (Global_Clatd_Config w'))).
Proof.
  intros (_ & Hwf6 & Hwfi & _) Hrun.
  destruct (read_config_post bo E dm fuel file uplink_interface plat_prefix net_id w w' 1 Hrun)
    as [[Hr _] | (_ & _ & Hs & _ & Hh & ip6 & w1 & wg & Hif & Hh1 & _ & _ & Hgen)];
    [discriminate |].
  destruct Hs as (_ & _ & _ & _ & _ & Hpdp).
  assert (Hpdp0 : default_pdp_interface (before_local_address (Global_Clatd_Config w')) =
                  strncpy uplink_interface (sizeof_default_pdp_interface E))
    by exact Hpdp.
  exists ip6. split; [exact Hif |].
  split; [apply default_pdp_interface_string_fits; exact Hpdp0 |].
  split; [apply default_pdp_interface_string_full; exact Hpdp0 |].
  split; [exact Hh |]. split.
  - destruct (config_generate_prefix bo E ip6 w1) as (V' & wg' & Hgen' & Hp & _).
    rewrite Hgen in Hgen'. injection Hgen' as <- _. exact Hp.
  - intros Hspec. rewrite <- Hh1.
    apply (config_generate_copies_host_id bo E ip6 _ w1 wg); rewrite ?Hh1; eauto.
Qed.

(** A 22-byte uplink name fills the 16-byte field without a terminator.
    While the hostname pointer behind the field is NULL the name is read
    back cut to 16 bytes, and the interface of that name is used.  Once
    discovery has stored a hostname, the read runs on into the pointer, no
    interface of that name exists, and [read_config] returns 0 although the
    resolver answered. *)
Remark read_config_unterminated_interface_name :
  (exists w',
     read_config LittleEndian (one_interface_externals static_tree resolver_never) LP64 0
       "clatd.conf" "rmnet_data_long_iface1" None 0 initial_world = Some (1, w') /\
     In (Getinterface_ip "rmnet_data_long_" AF_INET6) (events w')) /\
  (exists w',
     read_config LittleEndian (one_interface_externals discovery_tree resolver_fourth) LP64 8
       "clatd.conf" "rmnet_data_long_iface1" None 0 initial_world = Some (0, w') /\
     In (Getinterface_ip "rmnet_data_long_@" AF_INET6) (events w') /\
     dns_queries w' = 4%nat).
Proof.
  split; eexists; (split; [vm_compute; reflexivity |]); cbn; auto 30.
Qed.

(** X13: on a little-endian machine, after [read_config] returned 1 with an
    unspecified host id, the three addresses of the configuration are
    checksum-neutral, whichever way the PLAT prefix was obtained: the
    16-bit one's-complement sum of [ipv4_local_subnet] equals that of
    [plat_subnet] and [ipv6_local_subnet] together. *)
Theorem read_config_checksum_neutral (E : externals) (dm : data_model)
    (fuel : nat) (file uplink_interface : string) (plat_prefix : option string)
    (net_id : Z) (w w' : world) :
  well_formed_externals E ->
  read_config LittleEndian E dm fuel file uplink_interface plat_prefix net_id w
    = Some (1, w') ->
  IN6_IS_ADDR_UNSPECIFIED (ipv6_host_id (Global_Clatd_Config w')) = true ->
  valid_bytes 16 (ipv6_local_subnet (Global_Clatd_Config w')) = true /\
  ones_complement_eq
    (ip_checksum_add LittleEndian 0 (ipv4_local_subnet (Global_Clatd_Config w')) 4)
    (ip_checksum_add LittleEndian 0 (plat_subnet (Global_Clatd_Config w')) 16 +
     ip_checksum_add LittleEndian 0 (ipv6_local_subnet (Global_Clatd_Config w')) 16).
Proof.
  intros (Hwf4 & Hwf6 & Hwfi & Hwfp) Hrun Hspec.
  destruct (read_config_post LittleEndian E dm fuel file uplink_interface plat_prefix net_id
              w w' 1 Hrun)
    as [[Hr _] | (_ & _ & Hs & Hp & Hh & ip6 & w1 & wg & Hif & Hh1 & H41 & Hp1 & Hgen)];
    [discriminate |].
  destruct Hs as (_ & _ & _ & _ & Hip4 & _).
  assert (HP : valid_bytes 16 (plat_subnet (Global_Clatd_Config w')) = true).
  { destruct plat_prefix as [text|]; cbn [plat_source] in Hp.
    - destruct Hp as [Hp _]. eauto.
    - destruct (String.eqb _ "no").
      + destruct Hp as [(text & _ & Hp) _]. eauto.
      + destruct Hp as (_ & k & _ & Hok & ->). apply Hwfp. exact Hok. }
  rewrite <- H41, <- Hp1.
  apply (config_generate_random_neutral E ip6 _ w1 wg); rewrite ?H41, ?Hp1, ?Hh1; eauto.
Qed.

(** A run of [read_config] on a tree whose scalar items are accepted, up
    to the choice of where the PLAT prefix comes from. *)
Lemma read_config_items (bo : byte_order) (E : externals) (dm : data_model)
    (file uplink_interface : string) (w : world) :
  accepts_scalars E (config_file E file) ->
  exists w3,
    (forall fuel plat_prefix net_id,
       read_config bo E dm fuel file uplink_interface plat_prefix net_id w =
       match plat_prefix with
       | Some plat_prefix =>
           status <- call_inet_pton E AF_INET6 plat_prefix addr_plat_subnet ;;
           if status <=? 0 then
             logmsg ANDROID_LOG_FATAL "invalid IPv6 address specified for plat prefix: %s"
                    [ArgS plat_prefix] ;;;
             failed
           else read_config_finish bo E (config_file E file)
       | None =>
           tmp_ptr <- config_item_str (config_file E file) "plat_from_dns64" (Some "yes") ;;
           if match tmp_ptr with
              | None => true
              | Some s => String.eqb s "no"
              end
           then
             r <- config_item_ip6 E (config_file E file) "plat_subnet" None
                    addr_plat_subnet ;;
             match r with
             | None =>
                 logmsg ANDROID_LOG_FATAL
                        "plat_from_dns64 disabled, but no plat_subnet specified" [] ;;;
                 failed
             | Some _ => read_config_finish bo E (config_file E file)
             end
           else
             hostname <- config_item_str (config_file E file) "plat_from_dns64_hostname"
                           (Some (DEFAULT_DNS64_DETECTION_HOSTNAME E)) ;;
             assign addr_plat_from_dns64_hostname hostname ;;;
             match hostname with None => failed | Some _ =>
             dns64_detection E fuel net_id ;;;
             read_config_finish bo E (config_file E file)
             end
       end w3) /\
    default_pdp_interface (Global_Clatd_Config w3) =
      strncpy uplink_interface (sizeof_default_pdp_interface E) /\
    dns_queries w3 = dns_queries w /\
    events w3 = events w ++
      [Config_load_file file; Config_str "mtu"; Config_str "ipv4mtu";
       Config_str "ipv4_local_subnet";
       Inet_pton AF_INET (item_text (config_file E file) "ipv4_local_subnet"
                            (DEFAULT_IPV4_LOCAL_SUBNET E))].
Proof.
  intros (Hne & (v1 & Hl1 & Hr1) & (v2 & Hl2 & Hr2) & Hip).
  destruct (inet_pton E AF_INET _) as [a4|] eqn:Hip4; [clear Hip | congruence].
  destruct (config_file E file) as [|node root'] eqn:Hroot; [congruence |].
  eexists. split; [intros fuel plat_prefix net_id | split; [| split]].
  - unfold read_config.
    unfold bind at 1. cbn [modify_config]. unfold bind at 1. cbn [emit]. cbv zeta.
    rewrite Hroot. cbv iota.
    unfold bind at 1. cbn [assign modify_config].
    rewrite (bind_eq _ _ _ _ _ (config_item_int16_t_accepts dm (node :: root') _ _ _ _ _ Hl1 Hr1)).
    rewrite (bind_eq _ _ _ _ _ (config_item_int16_t_accepts dm (node :: root') _ _ _ _ _ Hl2 Hr2)).
    rewrite (bind_eq _ _ _ _ _
               (config_item_ip_accepts E (node :: root') _ _ _ _ _ _
                  (config_str_default _ _ _) Hip4)).
    reflexivity.
  - reflexivity.
  - reflexivity.
  - cbn. rewrite <- !app_assoc. reflexivity.
Qed.

(** The same, on a tree that reaches discovery, up to the call of
    [dns64_detection]. *)
Lemma read_config_to_discovery (bo : byte_order) (E : externals) (dm : data_model)
    (file uplink_interface : string) (net_id : Z) (w : world) :
  reaches_discovery E (config_file E file) ->
  exists w5,
    (forall fuel,
       read_config bo E dm fuel file uplink_interface None net_id w =
         (dns64_detection E fuel net_id ;;; read_config_finish bo E (config_file E file)) w5) /\
    plat_from_dns64_hostname (Global_Clatd_Config w5) =
      Some (item_text (config_file E file) "plat_from_dns64_hostname"
              (DEFAULT_DNS64_DETECTION_HOSTNAME E)) /\
    default_pdp_interface (Global_Clatd_Config w5) =
      strncpy uplink_interface (sizeof_default_pdp_interface E) /\
    dns_queries w5 = dns_queries w.
Proof.
  intros [Hacc Hmode].
  destruct (read_config_items bo E dm file uplink_interface w Hacc)
    as (w3 & Hrun & Hpdp & Hd3 & _).
  eexists. split; [intros fuel | split; [| split]].
  - rewrite Hrun.
    rewrite (bind_eq _ _ _ _ _ (config_item_str_run (config_file E file) _ _ _)).
    rewrite config_str_default. cbv beta iota. rewrite Hmode.
    rewrite (bind_eq _ _ _ _ _ (config_item_str_run (config_file E file) _ _ _)).
    rewrite config_str_default. cbv beta iota.
    unfold bind at 1. cbn [assign modify_config].
    reflexivity.
  - reflexivity.
  - cbn. exact Hpdp.
  - cbn. exact Hd3.
Qed.

(** [read_config_finish] returns 1 when the host id parses and the
    interface, whose name fits the field, has an address. *)
Lemma read_config_finish_returns (bo : byte_order) (E : externals)
    (root : list (string * string)) (uplink_interface : string) (w : world) :
  inet_pton E AF_INET6 (item_text root "ipv6_host_id" "::") <> None ->
  default_pdp_interface (Global_Clatd_Config w) =
    strncpy uplink_interface (sizeof_default_pdp_interface E) ->
  (String.length uplink_interface < sizeof_default_pdp_interface E)%nat ->
  getinterface_ip E uplink_interface AF_INET6 <> None ->
  exists w', read_config_finish bo E root w = Some (1, w').
Proof.
  intros Hh Hpdp Hfit Hif. unfold read_config_finish. unfold bind at 1. cbn [get_config].
  rewrite (default_pdp_interface_string_fits E _ uplink_interface Hpdp Hfit).
  destruct (subnet_from_interface_effect bo E root uplink_interface w)
    as (ok & w1 & Hrun & _ & Hcase).
  rewrite (bind_eq _ _ _ _ _ Hrun).
  destruct (inet_pton E AF_INET6 _); [| congruence].
  destruct (getinterface_ip E _ AF_INET6); [| congruence].
  destruct Hcase as [-> _]. cbn. eexists. reflexivity.
Qed.

(** The exact run of [call_inet_pton]. *)
Lemma call_inet_pton_run (E : externals) (af : address_family) (src : string)
    (dst : ptr (list Z)) (w : world) :
  call_inet_pton E af src dst w =
    Some (match inet_pton E af src with Some _ => 1 | None => 0 end,
          with_events
            (with_config w
               match inet_pton E af src with
               | Some a => store dst a (Global_Clatd_Config w)
               | None => Global_Clatd_Config w
               end)
            [Inet_pton af src]).
Proof.
  unfold call_inet_pton, bind, emit, assign, modify_config, ret.
  destruct (inet_pton E af src); reflexivity.
Qed.

(** C7: with a command-line prefix, [read_config] always returns, never
    looks up [plat_from_dns64], [plat_subnet] or [plat_from_dns64_hostname]
    and never queries the resolver.  It gets as far as the prefix exactly
    when the tree is not empty and the three scalar items are accepted; it
    then hands the prefix to [inet_pton] right after them, returns 0 when
    the prefix does not parse, and otherwise leaves the parsed address in
    [plat_subnet], whether or not the rest of the run succeeds. *)
Theorem read_config_plat_prefix_override (bo : byte_order) (E : externals)
    (dm : data_model) (fuel : nat)
    (file uplink_interface plat_prefix : string) (net_id : Z) (w : world) :
  exists r w' evs,
    read_config bo E dm fuel file uplink_interface (Some plat_prefix) net_id w
      = Some (r, w') /\
    events w' = events w ++ evs /\
    forallb override_quiet evs = true /\
    dns_queries w' = dns_queries w /\
    (inet_pton E AF_INET6 plat_prefix = None -> r = 0) /\
    (r = 1 -> accepts_scalars E (config_file E file)) /\
    (accepts_scalars E (config_file E file) ->
     (exists rest,
        evs = [Config_load_file file; Config_str "mtu"; Config_str "ipv4mtu";
               Config_str "ipv4_local_subnet";
               Inet_pton AF_INET (item_text (config_file E file) "ipv4_local_subnet"
                                    (DEFAULT_IPV4_LOCAL_SUBNET E));
               Inet_pton AF_INET6 plat_prefix] ++ rest) /\
     (forall a, inet_pton E AF_INET6 plat_prefix = Some a ->
        plat_subnet (Global_Clatd_Config w') = a)) /\
    (forall a, inet_pton E AF_INET6 plat_prefix = Some a -> r = 1 ->
       plat_subnet (Global_Clatd_Config w') = a).
Proof.
  destruct (read_config_override_quiet bo E dm fuel file uplink_interface plat_prefix net_id w)
    as (r & w' & evs & Hrun & Hev & Hquiet & Hdns & Hnone & _).
  assert (Hacc1 : r = 1 -> accepts_scalars E (config_file E file)).
  { intros ->.
    destruct (read_config_post bo E dm fuel file uplink_interface (Some plat_prefix) net_id
                w w' 1 Hrun) as [[Hr _] | (_ & Hroot & Hs & _)]; [discriminate |].
    destruct Hs as (Hm & Hmr & Hm4 & Hm4r & Hip4 & _).
    split; [exact Hroot |]. split; [eauto |]. split; [eauto |]. congruence. }
  assert (Hreach : accepts_scalars E (config_file E file) ->
     (exists rest,
        evs = [Config_load_file file; Config_str "mtu"; Config_str "ipv4mtu";
               Config_str "ipv4_local_subnet";
               Inet_pton AF_INET (item_text (config_file E file) "ipv4_local_subnet"
                                    (DEFAULT_IPV4_LOCAL_SUBNET E));
               Inet_pton AF_INET6 plat_prefix] ++ rest) /\
     (forall a, inet_pton E AF_INET6 plat_prefix = Some a ->
        plat_subnet (Global_Clatd_Config w') = a)).
  { intros Hacc.
    destruct (read_config_items bo E dm file uplink_interface w Hacc)
      as (w3 & Hrun3 & _ & _ & Hev3).
    rewrite Hrun3 in Hrun.
    rewrite (bind_eq _ _ _ _ _ (call_inet_pton_run E AF_INET6 plat_prefix addr_plat_subnet w3))
      in Hrun.
    match type of Hrun with
    | context [with_events ?W0 ?L] =>
        assert (Hev4 : events (with_events W0 L) =
                       events w3 ++ [Inet_pton AF_INET6 plat_prefix]) by reflexivity;
        assert (Hc4 : forall a, inet_pton E AF_INET6 plat_prefix = Some a ->
                        plat_subnet (Global_Clatd_Config (with_events W0 L)) = a)
          by (intros a Ha; rewrite Ha; reflexivity);
        generalize dependent (with_events W0 L)
    end.
    intros w4 Hrun Hev4 Hc4.
    assert (Htail : exists rest,
              events w' = events w4 ++ rest /\
              plat_subnet (Global_Clatd_Config w') = plat_subnet (Global_Clatd_Config w4)).
    { destruct (inet_pton E AF_INET6 plat_prefix) as [a|]; cbn [Z.leb Z.compare] in Hrun.
      - destruct (wp_read_config_finish E no_dns permissive_no_dns bo (config_file E file)
                    (fun _ w'' => quiet_since no_dns w4 w'' /\
                       plat_subnet (Global_Clatd_Config w'') =
                       plat_subnet (Global_Clatd_Config w4)) w4 eq_refl (fun _ => eq_refl)
                    (fun _ _ Hq Hc => conj Hq Hc))
          as (r0 & w0 & Hrun0 & (rest & Hrest & _) & Hps).
        rewrite Hrun0 in Hrun. injection Hrun as _ <-. eauto.
      - unfold bind at 1 in Hrun. cbn [logmsg emit] in Hrun.
        match type of Hrun with
        | failed ?W = _ =>
            destruct (wp_failed no_dns
                        (fun _ w'' => quiet_since no_dns W w'' /\
                           plat_subnet (Global_Clatd_Config w'') =
                           plat_subnet (Global_Clatd_Config W)) W
                        (fun _ Hq Hc => conj Hq Hc))
              as (r0 & w0 & Hrun0 & (rest & Hrest & _) & Hps)
        end.
        rewrite Hrun0 in Hrun. injection Hrun as _ <-.
        eexists. split; [rewrite Hrest; cbn; rewrite <- app_assoc; reflexivity | exact Hps]. }
    destruct Htail as (rest & Hrest & Hps).
    split.
    - exists rest. rewrite Hrest, Hev4, Hev3, <- !app_assoc in Hev.
      apply app_inv_head in Hev. rewrite <- Hev. reflexivity.
    - intros a Ha. rewrite Hps. apply Hc4. exact Ha. }
  exists r, w', evs. split; [exact Hrun |]. split; [exact Hev |]. split; [exact Hquiet |].
  split; [exact Hdns |]. split; [exact Hnone |]. split; [exact Hacc1 |].
  split; [exact Hreach |].
  intros a Ha Hr. exact (proj2 (Hreach (Hacc1 Hr)) a Ha).
Qed.

(** X14: on a tree that reaches discovery, [read_config] does not return
    while every resolver query fails: no bound on the number of trips gives
    a result, not even a failure.  Once a query succeeds it returns, the
    outcome no longer depends on the bound, and the resolver has been asked
    exactly once more than it failed. *)
Theorem read_config_discovery (bo : byte_order) (E : externals) (dm : data_model)
    (file uplink_interface : string) (net_id : Z) (w : world) :
  reaches_discovery E (config_file E file) ->
  (forall fuel,
     (forall i, (i < fuel)%nat ->
        fst (plat_prefix E
               (Some (item_text (config_file E file) "plat_from_dns64_hostname"
                        (DEFAULT_DNS64_DETECTION_HOSTNAME E)))
               net_id (dns_queries w + i)) <= 0) ->
     read_config bo E dm fuel file uplink_interface None net_id w = None) /\
  (forall k fuel,
     (forall i, (i < k)%nat ->
        fst (plat_prefix E
               (Some (item_text (config_file E file) "plat_from_dns64_hostname"
                        (DEFAULT_DNS64_DETECTION_HOSTNAME E)))
               net_id (dns_queries w + i)) <= 0) ->
     0 < fst (plat_prefix E
                (Some (item_text (config_file E file) "plat_from_dns64_hostname"
                         (DEFAULT_DNS64_DETECTION_HOSTNAME E)))
                net_id (dns_queries w + k)) ->
     (k < fuel)%nat ->
     exists r w',
       read_config bo E dm fuel file uplink_interface None net_id w = Some (r, w') /\
       read_config bo E dm (S k) file uplink_interface None net_id w = Some (r, w') /\
       (r = 0 \/ r = 1) /\
       dns_queries w' = S (dns_queries w + k)).
Proof.
  intros Hreach.
  destruct (read_config_to_discovery bo E dm file uplink_interface net_id w Hreach)
    as (w5 & Hrun & Hhost & _ & Hd5).
  split.
  - intros fuel Hfail. rewrite Hrun. unfold bind.
    rewrite (dns64_detection_pending E net_id w5 fuel); [reflexivity |].
    intros i Hi. unfold resolver_status. rewrite Hhost, Hd5. auto.
  - intros k fuel Hfail Hok Hfuel.
    assert (Hfail5 : forall i, (i < k)%nat -> resolver_status E net_id w5 i <= 0).
    { intros i Hi. unfold resolver_status. rewrite Hhost, Hd5. auto. }
    assert (Hok5 : 0 < resolver_status E net_id w5 k).
    { unfold resolver_status. rewrite Hhost, Hd5. exact Hok. }
    rewrite !Hrun.
    rewrite (bind_eq _ _ _ _ _ (dns64_detection_run E net_id w5 k fuel Hfail5 Hok5 Hfuel)).
    rewrite (bind_eq _ _ _ _ _
               (dns64_detection_run E net_id w5 k (S k) Hfail5 Hok5 ltac:(lia))).
    match goal with
    | |- context [read_config_finish bo E ?root ?W] =>
        destruct (read_config_finish_effect bo E root W) as (r & w' & Hf & Hd & Hcase)
    end.
    exists r, w'. split; [exact Hf |]. split; [exact Hf |]. split.
    + destruct Hcase as [[-> _] | [-> _]]; auto.
    + rewrite Hd. cbn. rewrite Hd5. reflexivity.
Qed.

(** X15: for an uplink name that fits [default_pdp_interface] with its
    terminator, [read_config] returns 1 exactly when the tree is not empty,
    the three scalar items are accepted, a PLAT prefix can be had from the
    source that takes precedence, the host id parses and the uplink
    interface has an IPv6 address.  For discovery, "can be had" means that
    one of the queries the bound on the loop allows succeeds. *)
Theorem read_config_succeeds_iff (bo : byte_order) (E : externals) (dm : data_model)
    (fuel : nat) (file uplink_interface : string) (plat_prefix : option string)
    (net_id : Z) (w : world) :
  (String.length uplink_interface < sizeof_default_pdp_interface E)%nat ->
  ((exists w',
      read_config bo E dm fuel file uplink_interface plat_prefix net_id w = Some (1, w')) <->
   accepts_scalars E (config_file E file) /\
   plat_obtainable E (config_file E file) plat_prefix net_id (dns_queries w) fuel /\
   has_local_address E (config_file E file) uplink_interface).
Proof.
  intros Hfit. split.
  - intros [w' Hrun].
    destruct (read_config_post bo E dm fuel file uplink_interface plat_prefix net_id w w' 1 Hrun)
      as [[Hr _] | (_ & Hroot & Hs & Hp & Hh & ip6 & w1 & wg & Hif & _)];
      [discriminate |].
    destruct Hs as (Hm & Hmr & Hm4 & Hm4r & Hip4 & Hpdp).
    assert (Hacc : accepts_scalars E (config_file E file)).
    { split; [exact Hroot |]. split; [eauto |]. split; [eauto |]. congruence. }
    split; [exact Hacc |]. split.
    + destruct plat_prefix as [text|]; cbn [plat_source plat_obtainable] in *.
      * destruct Hp as [Hp _]. congruence.
      * destruct (String.eqb _ "no") eqn:Hmode.
        -- destruct Hp as [(text & Htext & Hp) _]. exists text. split; [exact Htext | congruence].
        -- destruct (read_config_to_discovery bo E dm file uplink_interface net_id w
                       (conj Hacc Hmode)) as (w5 & Hrun5 & Hhost & _ & Hd5).
           rewrite Hrun5 in Hrun.
           destruct (first_success E net_id w5 fuel) as [Hnone | (k & Hk & Hok & _)].
           { unfold bind in Hrun.
             rewrite (dns64_detection_pending E net_id w5 fuel Hnone) in Hrun. discriminate. }
           exists k. split; [exact Hk |].
           unfold resolver_status in Hok. rewrite Hhost, Hd5 in Hok. exact Hok.
    + split; [congruence |].
      rewrite (default_pdp_interface_string_fits E _ uplink_interface) in Hif;
        [congruence | exact Hpdp | exact Hfit].
  - intros (Hacc & Hplat & Hh & Hif).
    destruct (read_config_items bo E dm file uplink_interface w Hacc)
      as (w3 & Hrun & Hpdp & Hd3 & _).
    destruct plat_prefix as [text|]; cbn [plat_obtainable] in Hplat.
    + rewrite Hrun.
      destruct (call_inet_pton_effect E AF_INET6 text addr_plat_subnet w3)
        as (w4 & Hr4 & _ & Hc4).
      rewrite (bind_eq _ _ _ _ _ Hr4).
      destruct (inet_pton E AF_INET6 text) as [P|]; [| congruence].
      cbn [Z.leb Z.compare].
      apply (read_config_finish_returns bo E _ uplink_interface);
        [exact Hh | chase; exact Hpdp | exact Hfit | exact Hif].
    + destruct (String.eqb _ "no") eqn:Hmode.
      * destruct Hplat as (text & Htext & Hplat).
        rewrite Hrun.
        rewrite (bind_eq _ _ _ _ _ (config_item_str_run (config_file E file) _ _ _)).
        rewrite config_str_default. cbv beta iota. rewrite Hmode.
        match goal with
        | |- context [bind _ _ ?W] =>
            destruct (config_item_ip_any E (config_file E file) "plat_subnet" None AF_INET6
                        addr_plat_subnet W) as (r5 & w5 & logs5 & Hr5 & _ & Hc5 & _)
        end.
        cbn beta iota in Hr5. rewrite (bind_eq _ _ _ _ _ Hr5).
        rewrite Htext in Hc5. destruct Hc5 as [_ Hc5].
        destruct (inet_pton E AF_INET6 text) as [P|]; [| congruence].
        destruct Hc5 as (-> & _ & Hc5).
        apply (read_config_finish_returns bo E _ uplink_interface);
          [exact Hh | chase; cbn; exact Hpdp | exact Hfit | exact Hif].
      * destruct Hplat as (k0 & Hk0 & Hok0).
        destruct (read_config_to_discovery bo E dm file uplink_interface net_id w
                    (conj Hacc Hmode)) as (w5 & Hrun5 & Hhost & Hpdp5 & Hd5).
        rewrite Hrun5.
        destruct (first_success E net_id w5 fuel) as [Hnone | (k & Hk & Hok & Hfail)].
        { specialize (Hnone k0 Hk0). unfold resolver_status in Hnone.
          rewrite Hhost, Hd5 in Hnone. lia. }
        rewrite (bind_eq _ _ _ _ _ (dns64_detection_run E net_id w5 k fuel Hfail Hok Hk)).
        apply (read_config_finish_returns bo E _ uplink_interface);
          [exact Hh | cbn; chase; exact Hpdp5 | exact Hfit | exact Hif].
Qed.

(** ** Instances of the further properties *)

Lemma example_externals_well_formed (root : list (string * string)) :
  well_formed_externals (example_externals root resolver_fourth).
Proof.
  repeat split.
  - intros src a. cbn. destruct (String.eqb src _); intros [= <-]. reflexivity.
  - intros src a. cbn. destruct (String.eqb src "::"); [intros [= <-]; reflexivity |].
    destruct (String.eqb src _); intros [= <-]. reflexivity.
  - intros i a. cbn. intros [= <-]. reflexivity.
  - intros h n k. cbn. unfold resolver_fourth. destruct (Nat.ltb k 3); cbn; [lia | reflexivity].
Qed.

Lemma discovery_tree_accepted (resolver : nat -> Z * list Z) :
  accepts_scalars (example_externals discovery_tree resolver) discovery_tree.
Proof.
  split; [discriminate |].
  split; [exists (-1); split; [exact decimal_literal_minus_one | unfold in_int16, INT16_MIN, INT16_MAX; lia] |].
  split; [exists 42; split; [exact decimal_literal_42 | unfold in_int16, INT16_MIN, INT16_MAX; lia] |].
  discriminate.
Qed.

Lemma resolver_fourth_fails (root : list (string * string)) (h : option string)
    (net_id : Z) (i : nat) :
  (i < 3)%nat -> fst (plat_prefix (example_externals root resolver_fourth) h net_id i) <= 0.
Proof. intros Hi. do 3 (destruct i as [|i]; [cbn; lia |]). lia. Qed.

Lemma dns64_detection_effects_witness :
  exists w',
    dns64_detection (example_externals [] resolver_fourth) 8 0 initial_world = Some (tt, w') /\
    dns64_detection (example_externals [] resolver_fourth) 4 0 initial_world = Some (tt, w') /\
    plat_subnet (Global_Clatd_Config w') = nat64_prefix /\
    sleeps (events w') = [1; 2; 4] /\
    dns_queries w' = 4%nat.
Proof.
  destruct (dns64_detection_effects (example_externals [] resolver_fourth) 0 initial_world
              3 8) as (w' & Hrun & Hmin & Hcfg & Hev & Hq & _).
  - intros i Hi. apply resolver_fourth_fails. exact Hi.
  - cbn. lia.
  - lia.
  - exists w'. split; [exact Hrun |]. split; [exact Hmin |].
    rewrite Hcfg, Hev, Hq. repeat split.
Defined.

Lemma dns64_detection_waiting_time_witness :
  exists w' evs,
    dns64_detection (example_externals [] resolver_fourth) 8 0 initial_world = Some (tt, w') /\
    events w' = events initial_world ++ evs /\
    total_sleep evs = 7 /\
    queries evs = [(None, 0); (None, 0); (None, 0); (None, 0)].
Proof.
  assert (Hrun : exists w',
            dns64_detection (example_externals [] resolver_fourth) 8 0 initial_world
              = Some (tt, w')) by (eexists; vm_compute; reflexivity).
  destruct Hrun as [w' Hrun].
  destruct (dns64_detection_waiting_time (example_externals [] resolver_fourth) 0
              initial_world w' 3 8) as (evs & Hev & Hs & Hq & _).
  - intros i Hi. apply resolver_fourth_fails. exact Hi.
  - cbn. lia.
  - exact Hrun.
  - exists w', evs. split; [exact Hrun |]. split; [exact Hev |]. split; [exact Hs | exact Hq].
Defined.

Lemma read_config_result_witness :
  exists w',
    read_config LittleEndian (example_externals discovery_tree resolver_fourth) LP64 8
      "clatd.conf" "rmnet0" None 0 initial_world = Some (1, w') /\
    read_config LittleEndian (example_externals discovery_tree resolver_fourth) LP64 8
      "clatd.conf" "rmnet0" None 0
      (with_config initial_world (store addr_mtu 1280 zeroed_config)) = Some (1, w').
Proof.
  assert (Hrun : exists w',
            read_config LittleEndian (example_externals discovery_tree resolver_fourth) LP64 8
              "clatd.conf" "rmnet0" None 0 initial_world = Some (1, w'))
    by (eexists; vm_compute; reflexivity).
  destruct Hrun as [w' Hrun]. exists w'. split; [exact Hrun |].
  apply (read_config_result LittleEndian (example_externals discovery_tree resolver_fourth)
           LP64 8 "clatd.conf" "rmnet0" None 0 initial_world w' 1
           (store addr_mtu 1280 zeroed_config) Hrun).
Defined.

Lemma read_config_scalar_items_witness :
  exists w',
    read_config LittleEndian (example_externals discovery_tree resolver_fourth) LP64 8
      "clatd.conf" "rmnet0" None 0 initial_world = Some (1, w') /\
    decimal_literal "42" (ipv4mtu (Global_Clatd_Config w')) /\
    mtu (Global_Clatd_Config w') = -1 /\
    ipv4_local_subnet (Global_Clatd_Config w') = [192; 0; 0; 4] /\
    default_pdp_interface (Global_Clatd_Config w') = "rmnet0".
Proof.
  assert (Hrun : exists w',
            read_config LittleEndian (example_externals discovery_tree resolver_fourth) LP64 8
              "clatd.conf" "rmnet0" None 0 initial_world = Some (1, w'))
    by (eexists; vm_compute; reflexivity).
  destruct Hrun as [w' Hrun]. exists w'. split; [exact Hrun |].
  destruct (read_config_scalar_items LittleEndian
              (example_externals discovery_tree resolver_fourth)
              LP64 8 "clatd.conf" "rmnet0" None 0 initial_world w' Hrun)
    as ((_ & _ & Hm4 & _ & _ & Hpdp) & Hmtu & _ & Hip).
  split; [exact Hm4 |]. split; [apply Hmtu; reflexivity |].
  split; [| exact Hpdp].
  specialize (Hip eq_refl). cbn in Hip. injection Hip as <-. reflexivity.
Defined.

Lemma read_config_plat_source_witness :
  exists w',
    read_config LittleEndian (example_externals static_tree resolver_never) LP64 0
      "clatd.conf" "rmnet0" None 0 initial_world = Some (1, w') /\
    plat_subnet (Global_Clatd_Config w') = nat64_prefix /\
    plat_from_dns64_hostname (Global_Clatd_Config w') = None.
Proof.
  assert (Hrun : exists w',
            read_config LittleEndian (example_externals static_tree resolver_never) LP64 0
              "clatd.conf" "rmnet0" None 0 initial_world = Some (1, w'))
    by (eexists; vm_compute; reflexivity).
  destruct Hrun as [w' Hrun]. exists w'. split; [exact Hrun |].
  destruct (read_config_plat_source LittleEndian (example_externals static_tree resolver_never)
              LP64 0 "clatd.conf" "rmnet0" None 0 initial_world w' Hrun)
    as [(text & Htext & Hp) Hh].
  split; [| exact Hh].
  injection Htext as <-. cbn in Hp. injection Hp as <-. reflexivity.
Defined.

Lemma read_config_local_address_witness :
  exists w',
    read_config LittleEndian (example_externals discovery_tree resolver_fourth) LP64 8
      "clatd.conf" "rmnet0" None 0 initial_world = Some (1, w') /\
    take 8 (ipv6_local_subnet (Global_Clatd_Config w')) = [0x20; 0x01; 0x0d; 0xb8; 0; 1; 0; 2] /\
    ipv6_host_id (Global_Clatd_Config w') = replicate 16 0 /\
    default_pdp_interface_string (example_externals discovery_tree resolver_fourth)
      (before_local_address (Global_Clatd_Config w')) = "rmnet0".
Proof.
  assert (Hrun : exists w',
            read_config LittleEndian (example_externals discovery_tree resolver_fourth) LP64 8
              "clatd.conf" "rmnet0" None 0 initial_world = Some (1, w'))
    by (eexists; vm_compute; reflexivity).
  destruct Hrun as [w' Hrun]. exists w'. split; [exact Hrun |].
  destruct (read_config_local_address LittleEndian
              (example_externals discovery_tree resolver_fourth)
              LP64 8 "clatd.conf" "rmnet0" None 0 initial_world w'
              (example_externals_well_formed discovery_tree) Hrun)
    as (ip6 & Hif & Hname & _ & Hh & Hp & _).
  cbn in Hif, Hh. injection Hif as <-. injection Hh as <-.
  split; [| split; [reflexivity |]].
  - unfold ipv6_prefix_equal in Hp. case_bool_decide; [assumption | discriminate].
  - apply Hname. cbn. lia.
Defined.

Lemma read_config_checksum_neutral_witness :
  exists w',
    read_config LittleEndian (example_externals discovery_tree resolver_fourth) LP64 8
      "clatd.conf" "rmnet0" None 0 initial_world = Some (1, w') /\
    ones_complement_eq
      (ip_checksum_add LittleEndian 0 [192; 0; 0; 4] 4)
      (ip_checksum_add LittleEndian 0 nat64_prefix 16 +
       ip_checksum_add LittleEndian 0 (ipv6_local_subnet (Global_Clatd_Config w')) 16).
Proof.
  eexists. split; [vm_compute; reflexivity |].
  match goal with
  | |- context [ipv6_local_subnet (Global_Clatd_Config ?W)] =>
      destruct (read_config_checksum_neutral
                  (example_externals discovery_tree resolver_fourth)
                  LP64 8 "clatd.conf" "rmnet0" None 0 initial_world W
                  (example_externals_well_formed discovery_tree)) as [_ Hsum];
        [vm_compute; reflexivity | reflexivity | exact Hsum]
  end.
Defined.

Lemma read_config_discovery_witness :
  (forall fuel,
     read_config LittleEndian (example_externals discovery_tree resolver_never) LP64 fuel
       "clatd.conf" "rmnet0" None 0 initial_world = None) /\
  exists r w',
    read_config LittleEndian (example_externals discovery_tree resolver_fourth) LP64 8
      "clatd.conf" "rmnet0" None 0 initial_world = Some (r, w') /\
    read_config LittleEndian (example_externals discovery_tree resolver_fourth) LP64 4
      "clatd.conf" "rmnet0" None 0 initial_world = Some (r, w') /\
    dns_queries w' = 4%nat.
Proof.
  split.
  - intros fuel.
    apply (proj1 (read_config_discovery LittleEndian
                    (example_externals discovery_tree resolver_never) LP64
                    "clatd.conf" "rmnet0" 0 initial_world
                    (conj (discovery_tree_accepted resolver_never) eq_refl)) fuel).
    intros i _. cbn. lia.
  - destruct (proj2 (read_config_discovery LittleEndian
                       (example_externals discovery_tree resolver_fourth) LP64
                       "clatd.conf" "rmnet0" 0 initial_world
                       (conj (discovery_tree_accepted resolver_fourth) eq_refl)) 3%nat 8%nat)
      as (r & w' & Hrun & Hmin & _ & Hq).
    + intros i Hi. apply resolver_fourth_fails. exact Hi.
    + cbn. lia.
    + lia.
    + exists r, w'. split; [exact Hrun |]. split; [exact Hmin | exact Hq].
Defined.

Lemma read_config_plat_prefix_override_witness :
  exists r w' rest,
    read_config LittleEndian (example_externals [("mtu", "1400")] resolver_never) LP64 0
      "clatd.conf" "rmnet0" (Some "64:ff9b::") 0 initial_world = Some (r, w') /\
    events w' =
      [Config_load_file "clatd.conf"; Config_str "mtu"; Config_str "ipv4mtu";
       Config_str "ipv4_local_subnet"; Inet_pton AF_INET "192.0.0.4";
       Inet_pton AF_INET6 "64:ff9b::"] ++ rest /\
    forallb override_quiet rest = true /\
    plat_subnet (Global_Clatd_Config w') = nat64_prefix.
Proof.
  destruct (read_config_plat_prefix_override LittleEndian
              (example_externals [("mtu", "1400")] resolver_never) LP64 0
              "clatd.conf" "rmnet0" "64:ff9b::" 0 initial_world)
    as (r & w' & evs & Hrun & Hev & Hq & _ & _ & _ & Hreach & _).
  destruct Hreach as [(rest & ->) Hplat].
  { split; [discriminate |].
    split; [exists 1400; split;
              [exists "", "", "1400"; repeat split; auto; discriminate
              | unfold in_int16, INT16_MIN, INT16_MAX; lia] |].
    split; [exists (-1); split;
              [exists "", "-", "1"; repeat split; auto; discriminate
              | unfold in_int16, INT16_MIN, INT16_MAX; lia] |].
    discriminate. }
  exists r, w', rest. split; [exact Hrun |]. split; [exact Hev |].
  split; [| apply Hplat; reflexivity].
  rewrite forallb_app in Hq. apply andb_true_iff in Hq as [_ Hq]. exact Hq.
Defined.

Lemma read_config_succeeds_iff_witness :
  (String.length "rmnet0" <
   sizeof_default_pdp_interface (example_externals static_tree resolver_never))%nat /\
  exists w',
    read_config LittleEndian (example_externals static_tree resolver_never) LP64 0
      "clatd.conf" "rmnet0" None 0 initial_world = Some (1, w').
Proof.
  assert (Hfit : (String.length "rmnet0" <
                  sizeof_default_pdp_interface
                    (example_externals static_tree resolver_never))%nat) by (cbn; lia).
  split; [exact Hfit |].
  apply (proj2 (read_config_succeeds_iff LittleEndian
                  (example_externals static_tree resolver_never) LP64 0
                  "clatd.conf" "rmnet0" None 0 initial_world Hfit)).
  split; [| split].
  - split; [discriminate |].
    split; [exists (-1); split; [exact decimal_literal_minus_one
                               | unfold in_int16, INT16_MIN, INT16_MAX; lia] |].
    split; [exists (-1); split; [exact decimal_literal_minus_one
                               | unfold in_int16, INT16_MIN, INT16_MAX; lia] |].
    discriminate.
  - exists "64:ff9b::". split; [reflexivity | discriminate].
  - split; discriminate.
Defined.
